(** * easy-cerver: the [EasyCerver] stack of [lib/easy-cerver.ts]

    The repository is one CDK construct: a constructor that reads a record of
    options and creates resources in the scope of a stack.  The development
    follows the constructor statement by statement:

    - the options ([EasyCerverProps]) and the resources are records;
    - [new X(this, id, ...)] registers [id] among the children of the stack
      and fails when the id is taken, so the constructor runs in a small
      state-and-error monad ([Synth]) whose state is the list of child ids;
    - what the constructor gets from [aws-cdk-lib] without asking for it (a
      context flag, the start-up commands and role statements that
      [cluster.addCapacity] and [new Ec2Service] add on their own) is read
      from the environment ([Env]);
    - objects that the constructor mutates after creating them (the host
      auto scaling group, the task definitions, the workflow states) are
      threaded as values and stored in the resulting [EasyCerverStack] once
      the last mutation has happened; other resources refer to them by
      construct id;
    - the two pieces of run-time behaviour that the constructor only
      describes, the bash script of the [aws-cli] container and the Step
      Functions definition, get an executable semantics of their own
      ([GateScript], [sfn.exec]). *)

From Stdlib Require Import String Ascii List Bool Arith ZArith Lia.
Import ListNotations.
Open Scope string_scope.

Set Warnings "-register-all".

(** ** JavaScript helpers *)

(** [a ?? b] *)
Definition nullish {A : Type} (a : option A) (b : A) : A :=
  match a with
  | Some x => x
  | None => b
  end.

Notation "a ?? b" := (nullish a b) (at level 45, left associativity).

(** A value of type [string | undefined]. *)
Definition JsString := option string.

(** [xs[0]]: the first element, [undefined] on the empty array. *)
Definition first (xs : list string) : JsString := nth_error xs 0.

(** [xs.join(sep)] *)
Definition join (sep : string) (xs : list string) : string := String.concat sep xs.

(** [xs.flatMap(f)] *)
Definition flatMap {A B : Type} (f : A -> list B) (xs : list A) : list B :=
  flat_map f xs.

(** The line feed and the double quote of a string literal. *)
Definition nl : string := String "010"%char EmptyString.
Definition dq : string := String "034"%char EmptyString.

(** ** The construct scope *)

(** The errors the constructor can run into: "There is already a Construct
    with name ...", "... does not support snapshot removal policy",
    "Duration amounts cannot be negative" and "Duration cannot be 0". *)
Inductive SynthError : Type :=
| DuplicateConstructId (id : string)
| SnapshotNotSupported (cfnResourceType : string)
| NegativeDuration
| ZeroDuration.

Inductive Result (A : Type) : Type :=
| OK (a : A)
| Throw (e : SynthError).

Arguments OK {A} a.
Arguments Throw {A} e.

(** The ids of the children of the stack, in creation order. *)
Definition Scope := list string.

Definition Synth (A : Type) : Type := Scope -> Result (A * Scope).

Definition ret {A : Type} (a : A) : Synth A := fun sc => OK (a, sc).

Definition bind {A B : Type} (c : Synth A) (k : A -> Synth B) : Synth B :=
  fun sc =>
    match c sc with
    | OK (a, sc') => k a sc'
    | Throw e => Throw e
    end.

Notation "x <- c ;; k" := (bind c (fun x => k))
  (at level 61, c at next level, right associativity).
Notation "c ;;; k" := (bind c (fun _ => k))
  (at level 61, right associativity).

Definition throw {A : Type} (e : SynthError) : Synth A := fun _ => Throw e.

Definition hasChild (id : string) (sc : Scope) : bool := existsb (String.eqb id) sc.

(** The name of a construct in the tree: its id with every path separator
    [/] replaced by [--]. *)
Fixpoint sanitizeId (id : string) : string :=
  match id with
  | EmptyString => EmptyString
  | String c rest =>
      if Ascii.eqb c "/"%char then String "-" (String "-" (sanitizeId rest))
      else String c (sanitizeId rest)
  end.

(** [new X(this, id, ...)]: the construct tree refuses a second child with
    the same name. *)
Definition newConstruct (id : string) : Synth unit :=
  fun sc =>
    let name := sanitizeId id in
    if hasChild name sc then Throw (DuplicateConstructId name)
    else OK (tt, (sc ++ [name])%list).

Definition children : Synth Scope := fun sc => OK (sc, sc).

(** [xs.forEach(f)] *)
Fixpoint forEach {A B : Type} (f : A -> Synth B) (xs : list A) : Synth (list B) :=
  match xs with
  | [] => ret []
  | x :: rest =>
      y <- f x ;;
      ys <- forEach f rest ;;
      ret (y :: ys)
  end.

Definition run {A : Type} (c : Synth A) : Result A :=
  match c [] with
  | OK (a, _) => OK a
  | Throw e => Throw e
  end.

(** ** The resources of [aws-cdk-lib] that the constructor configures *)

(** A reference to the resource created under a construct id, and one of its
    attributes, as they appear inside generated strings. *)
Definition Ref (id : string) : string := "${" ++ id ++ "}".
Definition GetAtt (id attr : string) : string := "${" ++ id ++ "." ++ attr ++ "}".

Module lib.

Inductive RemovalPolicy : Type :=
| DESTROY
| RETAIN
| SNAPSHOT
| RETAIN_ON_UPDATE_OR_DELETE.

(** [Duration]: an amount and its unit. *)
Inductive TimeUnit : Type := Seconds | Days.

Record Duration : Type := {
  amount : nat;
  timeUnit : TimeUnit
}.

Definition seconds (n : nat) : Duration := {| amount := n; timeUnit := Seconds |}.

(** [Duration.days(n)] for a number that the caller supplies: a negative
    amount is refused. *)
Definition days (n : Z) : Synth Duration :=
  if (n <? 0)%Z then throw NegativeDuration
  else ret {| amount := Z.to_nat n; timeUnit := Days |}.

Definition toSeconds (d : Duration) : nat :=
  match timeUnit d with
  | Seconds => amount d
  | Days => amount d * 24 * 3600
  end.

(** [d.toSeconds() === 0]: no unit is of length zero, so the amount
    decides. *)
Definition isZero (d : Duration) : bool := Nat.eqb (amount d) 0.

(** [CfnResource.applyRemovalPolicy]: the snapshot policy is meant for the
    resource types CloudFormation can snapshot; a file system and a log
    group are not among them.  For the other types the call throws when the
    context flag [@aws-cdk/core:validateSnapshotRemovalPolicy] is set
    ([validate]); without the flag it only warns, and the resource keeps the
    snapshot policy. *)
Definition snapshottable (cfnResourceType : string) : bool :=
  existsb (String.eqb cfnResourceType)
    [ "AWS::EC2::Volume"; "AWS::ElastiCache::CacheCluster";
      "AWS::ElastiCache::ReplicationGroup"; "AWS::Neptune::DBCluster";
      "AWS::RDS::DBCluster"; "AWS::RDS::DBInstance"; "AWS::Redshift::Cluster" ].

Definition applyRemovalPolicy (validate : bool) (cfnResourceType : string)
  (p : RemovalPolicy) : Synth unit :=
  match p with
  | SNAPSHOT =>
      if snapshottable cfnResourceType then ret tt
      else if validate then throw (SnapshotNotSupported cfnResourceType)
      else ret tt
  | _ => ret tt
  end.

(** What becomes of a resource with policy [p] when its stack is removed:
    [true] when the resource stays in the account.  Under the snapshot
    policy the resource itself is deleted. *)
Definition retainedOnStackRemoval (p : RemovalPolicy) : bool :=
  match p with
  | DESTROY => false
  | SNAPSHOT => false
  | RETAIN => true
  | RETAIN_ON_UPDATE_OR_DELETE => true
  end.

End lib.

Module iam.

Inductive Effect : Type := ALLOW | DENY.

(** A statement; a condition is an operator, a key and a value. *)
Record PolicyStatement : Type := {
  effect : Effect;
  actions : list string;
  resources : list string;
  conditions : list (string * string * string)
}.

End iam.

Module ec2.

Inductive SubnetType : Type := PUBLIC | PRIVATE_WITH_NAT | PRIVATE_ISOLATED.

Record VpcProps : Type := {
  natGateways : nat;
  subnetConfiguration : list (string * SubnetType)
}.

Record IVpc : Type := { vpcId : string }.

Record SecurityGroup : Type := {
  securityGroupId : string;
  allowAllOutbound : bool
}.

Inductive Port : Type := tcp (port : nat).

(** The other end of a rule: an address range or the security groups of
    another connectable resource of the stack. *)
Inductive Peer : Type :=
| anyIpv4
| anyIpv6
| connectable (id : string).

Inductive Direction : Type := Ingress | Egress.

Record Rule : Type := {
  direction : Direction;
  peer : Peer;
  portRange : Port
}.

(** [Connections]: the security groups of a resource and the rules asked
    for through it; every rule applies to every group of the object. *)
Record Connections : Type := {
  owner : string;
  securityGroups : list SecurityGroup;
  rules : list Rule
}.

Definition addRule (c : Connections) (r : Rule) : Connections :=
  {| owner := owner c;
     securityGroups := securityGroups c;
     rules := (rules c ++ [r])%list |}.

(** [this.allowFrom(peer, port)] with an address range as peer. *)
Definition allowFromPeer (this : Connections) (p : Peer) (port : Port) : Connections :=
  addRule this {| direction := Ingress; peer := p; portRange := port |}.

Definition allowFromAnyIpv4 (this : Connections) (port : Port) : Connections :=
  allowFromPeer this anyIpv4 port.

(** [this.allowTo(other, port)]: traffic leaves [this] and enters [other].
    Returns both objects. *)
Definition allowTo (this other : Connections) (port : Port)
  : Connections * Connections :=
  (addRule this
     {| direction := Egress; peer := connectable (owner other); portRange := port |},
   addRule other
     {| direction := Ingress; peer := connectable (owner this); portRange := port |}).

(** [this.allowFrom(other, port)]: traffic leaves [other] and enters [this]. *)
Definition allowFrom (this other : Connections) (port : Port)
  : Connections * Connections :=
  (addRule this
     {| direction := Ingress; peer := connectable (owner other); portRange := port |},
   addRule other
     {| direction := Egress; peer := connectable (owner this); portRange := port |}).

Definition isIngress (r : Rule) : bool :=
  match direction r with Ingress => true | Egress => false end.

Definition ingressRules (c : Connections) : list Rule := filter isIngress (rules c).

Record CfnEIP : Type := { tags : list (string * string) }.

End ec2.

Module logs.

Inductive RetentionDays : Type := TWO_YEARS.

Record LogGroupProps : Type := {
  retention : RetentionDays;
  removalPolicy : lib.RemovalPolicy
}.

Record ILogGroup : Type := { logGroupName : string }.

End logs.

Module efs.

Definition DEFAULT_PORT : ec2.Port := ec2.tcp 2049.

Record FileSystem : Type := {
  vpc : ec2.IVpc;
  encrypted : bool;
  removalPolicy : lib.RemovalPolicy;
  connections : ec2.Connections
}.

Definition fileSystemId (id : string) : string := Ref id.
Definition fileSystemArn (id : string) : string := GetAtt id "Arn".

End efs.

Module route53.

Record IHostedZone : Type := {
  hostedZoneId : string;
  zoneName : string
}.

Definition hostedZoneArn (z : IHostedZone) : string :=
  "arn:${AWS::Partition}:route53:::hostedzone/" ++ hostedZoneId z.

Inductive RecordTarget : Type := fromIpAddresses (ip : string).

Record ARecord : Type := {
  id : string;
  zone : IHostedZone;
  recordName : string;
  target : RecordTarget
}.

End route53.

Module sns.

Inductive SubscriptionProtocol : Type := EMAIL.

Record Subscription : Type := {
  topic : string;
  protocol : SubscriptionProtocol;
  endpoint : string
}.

End sns.

Module ecs.

Inductive Protocol : Type := TCP | UDP.

Inductive ContainerDependencyCondition : Type := START | COMPLETE | SUCCESS | HEALTHY.

Inductive ContainerImage : Type :=
| fromRegistry (name : string)
| fromAsset (directory : string).

Record LogDriver : Type := awsLogs {
  logGroup : logs.ILogGroup;
  streamPrefix : string
}.

Record PortMapping : Type := {
  hostPort : nat;
  containerPort : nat;
  protocol : Protocol
}.

Record MountPoint : Type := {
  sourceVolume : string;
  containerPath : string;
  readOnly : bool
}.

(** The container depended on is named by its [containerName], as in the
    rendered task definition. *)
Record ContainerDependency : Type := {
  container : string;
  condition : ContainerDependencyCondition
}.

Record EfsVolumeConfiguration : Type := { fileSystemId : string }.

Record Volume : Type := {
  name : string;
  efsVolumeConfiguration : option EfsVolumeConfiguration
}.

Record ContainerDefinitionOptions : Type := {
  image : ContainerImage;
  containerName : string;
  memoryReservationMiB : option nat;
  essential : option bool;
  entryPoint : option (list string);
  command : option (list JsString);
  environment : list (string * JsString);
  logging : option LogDriver
}.

Record ContainerDefinition : Type := {
  id : string;
  props : ContainerDefinitionOptions;
  portMappings : list PortMapping;
  mountPoints : list MountPoint;
  containerDependencies : list ContainerDependency
}.

(** [this.essential = props.essential ?? true] *)
Definition isEssential (c : ContainerDefinition) : bool := essential (props c) ?? true.

Definition addPortMappings (c : ContainerDefinition) (pms : list PortMapping)
  : ContainerDefinition :=
  {| id := id c; props := props c;
     portMappings := (portMappings c ++ pms)%list;
     mountPoints := mountPoints c;
     containerDependencies := containerDependencies c |}.

Definition addMountPoints (mp : MountPoint) (c : ContainerDefinition)
  : ContainerDefinition :=
  {| id := id c; props := props c;
     portMappings := portMappings c;
     mountPoints := (mountPoints c ++ [mp])%list;
     containerDependencies := containerDependencies c |}.

Definition addContainerDependencies (d : ContainerDependency) (c : ContainerDefinition)
  : ContainerDefinition :=
  {| id := id c; props := props c;
     portMappings := portMappings c;
     mountPoints := mountPoints c;
     containerDependencies := (containerDependencies c ++ [d])%list |}.

(** A task definition.  [defaultContainer] is a reference to one of the
    objects of [containers], kept as its position in the list, so that a
    mutation through [defaultContainer] is seen through [containers]. *)
Record Ec2TaskDefinition : Type := {
  family : string;
  containers : list ContainerDefinition;
  defaultContainer : option nat;
  volumes : list Volume;
  taskRolePolicy : list iam.PolicyStatement
}.

Definition newEc2TaskDefinition (id : string) : Ec2TaskDefinition :=
  {| family := id; containers := []; defaultContainer := None;
     volumes := []; taskRolePolicy := [] |}.

(** The value of [td.defaultContainer]: the object at the recorded position,
    [None] for [undefined]. *)
Definition defaultContainerOf (td : Ec2TaskDefinition) : option ContainerDefinition :=
  match defaultContainer td with
  | Some i => nth_error (containers td) i
  | None => None
  end.

(** [td.addContainer(id, props)]: the first essential container becomes the
    default container.  Returns the task definition and the reference to
    the new container. *)
Definition addContainer (td : Ec2TaskDefinition) (cid : string)
  (opts : ContainerDefinitionOptions) : Ec2TaskDefinition * nat :=
  let c := {| id := cid; props := opts; portMappings := [];
              mountPoints := []; containerDependencies := [] |} in
  ({| family := family td;
      containers := (containers td ++ [c])%list;
      defaultContainer :=
        match defaultContainerOf td with
        | Some _ => defaultContainer td
        | None => if isEssential c then Some (length (containers td)) else None
        end;
      volumes := volumes td;
      taskRolePolicy := taskRolePolicy td |},
   length (containers td)).

Definition addVolume (td : Ec2TaskDefinition) (v : Volume) : Ec2TaskDefinition :=
  {| family := family td; containers := containers td;
     defaultContainer := defaultContainer td;
     volumes := (volumes td ++ [v])%list;
     taskRolePolicy := taskRolePolicy td |}.

Definition addToTaskRolePolicy (td : Ec2TaskDefinition) (s : iam.PolicyStatement)
  : Ec2TaskDefinition :=
  {| family := family td; containers := containers td;
     defaultContainer := defaultContainer td;
     volumes := volumes td;
     taskRolePolicy := (taskRolePolicy td ++ [s])%list |}.

Fixpoint mapNth {A : Type} (i : nat) (f : A -> A) (l : list A) : list A :=
  match l, i with
  | [], _ => []
  | x :: rest, 0 => f x :: rest
  | x :: rest, S j => x :: mapNth j f rest
  end.

(** A mutation of the container object at position [i]. *)
Definition updateContainer (td : Ec2TaskDefinition) (i : nat)
  (f : ContainerDefinition -> ContainerDefinition) : Ec2TaskDefinition :=
  {| family := family td;
     containers := mapNth i f (containers td);
     defaultContainer := defaultContainer td;
     volumes := volumes td;
     taskRolePolicy := taskRolePolicy td |}.

(** [td.defaultContainer?.m(...)] for a method [m] of the container: the
    call, arguments included, is skipped when there is no default
    container.  [k] receives the reference to the default container. *)
Definition withDefaultContainer (td : Ec2TaskDefinition)
  (k : nat -> Ec2TaskDefinition) : Ec2TaskDefinition :=
  match defaultContainer td, defaultContainerOf td with
  | Some i, Some _ => k i
  | _, _ => td
  end.

Inductive AmiHardwareType : Type := STANDARD | GPU | ARM.

(** [EcsOptimizedImage.amazonLinux2(hardwareType, { cachedInContext })] *)
Record EcsOptimizedImage : Type := amazonLinux2 {
  hardwareType : AmiHardwareType;
  cachedInContext : bool
}.

Record AddCapacityOptions : Type := {
  machineImage : EcsOptimizedImage;
  instanceType : string;
  spotPrice : option string;
  vpcSubnets : ec2.SubnetType;
  associatePublicIpAddress : bool;
  minCapacity : option nat;
  maxCapacity : option nat
}.

(** An auto scaling group.  [securityGroups] are the groups of its launch
    configuration, the groups its instances are in; [connections] is the
    object the rules are asked through, which holds the group the
    constructor of the auto scaling group created and no other. *)
Record AutoScalingGroup : Type := {
  capacity : AddCapacityOptions;
  securityGroups : list ec2.SecurityGroup;
  connections : ec2.Connections;
  managedPolicies : list string;
  principalPolicy : list iam.PolicyStatement;
  userData : list string
}.

Record Cluster : Type := {
  vpc : ec2.IVpc;
  containerInsights : bool
}.

Record Ec2Service : Type := {
  cluster : string;
  taskDefinition : string;
  desiredCount : nat;
  minHealthyPercent : nat;
  maxHealthyPercent : nat;
  circuitBreakerRollback : bool;
  enableExecuteCommand : bool
}.

(** *** Container start-up order

    What the agent that runs a task does with [dependsOn]: a container is
    started once every dependency is satisfied by the state of the container
    it names. *)
Inductive ContainerState : Type :=
| Pending
| Running (healthy : bool)
| Exited (exitCode : nat).

Definition conditionMet (c : ContainerDependencyCondition) (s : ContainerState) : bool :=
  match c, s with
  | START, Pending => false
  | START, _ => true
  | COMPLETE, Exited _ => true
  | COMPLETE, _ => false
  | SUCCESS, Exited 0 => true
  | SUCCESS, _ => false
  | HEALTHY, Running true => true
  | HEALTHY, _ => false
  end.

Definition dependencyMet (states : string -> ContainerState) (d : ContainerDependency)
  : bool :=
  conditionMet (condition d) (states (container d)).

Definition mayStart (states : string -> ContainerState) (c : ContainerDefinition) : bool :=
  forallb (dependencyMet states) (containerDependencies c).

End ecs.

Module sfn.

(** *** The definition of a state machine *)

Inductive Json : Type :=
| JNull
| JString (s : string)
| JObject (fields : list (string * Json)).

Inductive TaskInput : Type :=
| fromJsonPathAt (path : string)
| fromText (text : string).

Inductive IntegrationPattern : Type := REQUEST_RESPONSE | RUN_JOB | WAIT_FOR_TASK_TOKEN.

Definition ALL : string := "States.ALL".

Record RetryProps : Type := {
  retryErrors : list string;
  interval : option lib.Duration;
  maxAttempts : option nat;
  backoffRate : option nat
}.

Record CatchProps : Type := {
  catchErrors : list string;
  resultPath : option string;
  handler : string
}.

Inductive LaunchTarget : Type := EcsEc2LaunchTarget | EcsFargateLaunchTarget.

Inductive StateKind : Type :=
| EcsRunTask (cluster taskDefinition : string) (launchTarget : LaunchTarget)
    (integrationPattern : IntegrationPattern)
| SnsPublish (topic : string) (message : TaskInput)
| Fail.

Record State : Type := {
  id : string;
  kind : StateKind;
  retries : list RetryProps;
  catches : list CatchProps;
  nextState : option string
}.

Definition newState (sid : string) (k : StateKind) : State :=
  {| id := sid; kind := k; retries := []; catches := []; nextState := None |}.

(** [s.next(t)] *)
Definition next (s : State) (t : State) : State :=
  {| id := id s; kind := kind s; retries := retries s; catches := catches s;
     nextState := Some (id t) |}.

(** [s.addCatch(handler)] without props: every error, default result path. *)
Definition addCatch (s : State) (h : State) : State :=
  {| id := id s; kind := kind s; retries := retries s;
     catches := (catches s ++
                 [ {| catchErrors := [ALL]; resultPath := None; handler := id h |} ])%list;
     nextState := nextState s |}.

(** [s.addRetry({ interval })]: every error, the other fields left unset. *)
Definition addRetry (s : State) (i : lib.Duration) : State :=
  {| id := id s; kind := kind s;
     retries := (retries s ++
                 [ {| retryErrors := [ALL]; interval := Some i;
                      maxAttempts := None; backoffRate := None |} ])%list;
     catches := catches s;
     nextState := nextState s |}.

(** A state machine: the id of the state it starts at and the states that
    can be reached from it. *)
Record StateMachine : Type := {
  definition : string;
  states : list State
}.

Definition stateMachineArn (id : string) : string := Ref id.

(** *** Running a state machine

    The part of the Amazon States Language that the definition uses: task
    states with retriers and catchers, [Next] and [End], and the [Fail]
    state.  The services a task calls are a parameter.

    A task that fails with an error is run again while a retrier matches
    the error and has attempts left, after a wait of [IntervalSeconds] times
    [BackoffRate] to the number of retries made; then the first catcher that
    matches sends the execution to its handler, whose input is the input of
    the failed state with the error output put at the catcher's
    [ResultPath]; without a catcher the execution fails.  A field that the
    definition leaves unset has the default of the language. *)

Inductive ExecutionStatus : Type := RUNNING | SUCCEEDED | FAILED | TIMED_OUT | ABORTED.

Inductive TaskResult : Type :=
| TaskOk (output : Json)
| TaskErr (error cause : string).

Record Services : Type := {
  (** the outcome of the n-th run of an ECS task (from 0) *)
  runTask : nat -> TaskResult;
  (** the outcome of publishing a message to a topic *)
  publish : string -> Json -> TaskResult
}.

Inductive Event : Type :=
| EcsRunTaskCall (state taskDefinition : string)
| SnsPublishCall (state topic : string) (message : Json)
| Waited (secs : nat)
| ReachedFail (state : string).

(** The defaults of a retrier ([IntervalSeconds], [MaxAttempts],
    [BackoffRate]) and of a catcher ([ResultPath]). *)
Definition DEFAULT_INTERVAL : lib.Duration := lib.seconds 1.
Definition DEFAULT_MAX_ATTEMPTS : nat := 3.
Definition DEFAULT_BACKOFF_RATE : nat := 2.
Definition DEFAULT_RESULT_PATH : string := "$".

(** [States.ALL] matches every error name but these two. *)
Definition notMatchedByAll (e : string) : bool :=
  (e =? "States.DataLimitExceeded") || (e =? "States.Runtime").

Definition errorEquals (names : list string) (e : string) : bool :=
  existsb (fun n => (n =? e) || ((n =? ALL) && negb (notMatchedByAll e))) names.

(** The wait before retry number [used + 1]. *)
Definition retryDelay (r : RetryProps) (used : nat) : nat :=
  lib.toSeconds (interval r ?? DEFAULT_INTERVAL)
  * (backoffRate r ?? DEFAULT_BACKOFF_RATE) ^ used.

(** The retrier that applies to error [e] after [used] retries, if any. *)
Definition findRetry (rs : list RetryProps) (e : string) (used : nat) : option RetryProps :=
  match find (fun r => errorEquals (retryErrors r) e) rs with
  | Some r => if Nat.ltb used (maxAttempts r ?? DEFAULT_MAX_ATTEMPTS) then Some r else None
  | None => None
  end.

Definition findCatch (cs : list CatchProps) (e : string) : option CatchProps :=
  find (fun c => errorEquals (catchErrors c) e) cs.

(** The error output of a failed state. *)
Definition errorOutput (error cause : string) : Json :=
  JObject [ ("Error", JString error); ("Cause", JString cause) ].

Fixpoint setField (k : string) (v : Json) (fs : list (string * Json))
  : list (string * Json) :=
  match fs with
  | [] => [ (k, v) ]
  | (k', v') :: rest => if k' =? k then (k, v) :: rest else (k', v') :: setField k v rest
  end.

Fixpoint getField (k : string) (fs : list (string * Json)) : option Json :=
  match fs with
  | [] => None
  | (k', v) :: rest => if k' =? k then Some v else getField k rest
  end.

Definition fieldOf (path : string) : string := substring 2 (String.length path - 2) path.

(** Where a catcher puts the error output: [$] replaces the whole input,
    [$.name] sets a field of it. *)
Definition applyResultPath (path : string) (input result : Json) : Json :=
  if path =? "$" then result
  else match input with
       | JObject fs => JObject (setField (fieldOf path) result fs)
       | _ => JObject [ (fieldOf path, result) ]
       end.

(** The value a path selects from the input of a state. *)
Definition evalPath (path : string) (input : Json) : option Json :=
  if path =? "$" then Some input
  else match input with
       | JObject fs => getField (fieldOf path) fs
       | _ => None
       end.

Definition evalTaskInput (t : TaskInput) (input : Json) : option Json :=
  match t with
  | fromJsonPathAt p => evalPath p input
  | fromText s => Some (JString s)
  end.

Definition findState (sm : StateMachine) (sid : string) : option State :=
  find (fun s => id s =? sid) (states sm).

(** One attempt of a task state: the calls made, the result, and the number
    of ECS tasks run so far. *)
Definition perform (svc : Services) (s : State) (input : Json) (jobs : nat)
  : list Event * TaskResult * nat :=
  match kind s with
  | EcsRunTask _ td _ _ => ([EcsRunTaskCall (id s) td], runTask svc jobs, S jobs)
  | SnsPublish t m =>
      match evalTaskInput m input with
      | Some msg => ([SnsPublishCall (id s) t msg], publish svc t msg, jobs)
      | None => ([], TaskErr "States.Runtime" "invalid path", jobs)
      end
  | Fail => ([], TaskErr "States.Runtime" "not a task", jobs)
  end.

(** [exec fuel sm svc cur input used jobs]: run from state [cur] on [input],
    [used] retries of [cur] already made.  The status is [None] when [fuel]
    transitions were not enough. *)
Fixpoint exec (fuel : nat) (sm : StateMachine) (svc : Services) (cur : string)
  (input : Json) (used jobs : nat) {struct fuel}
  : list Event * option ExecutionStatus :=
  match fuel with
  | 0 => ([], None)
  | S fuel' =>
      match findState sm cur with
      | None => ([], Some FAILED)
      | Some s =>
          match kind s with
          | Fail => ([ReachedFail (id s)], Some FAILED)
          | _ =>
              let '(evs, res, jobs') := perform svc s input jobs in
              match res with
              | TaskOk out =>
                  match nextState s with
                  | None => (evs, Some SUCCEEDED)
                  | Some n =>
                      let (evs', r) := exec fuel' sm svc n out 0 jobs' in
                      ((evs ++ evs')%list, r)
                  end
              | TaskErr e cause =>
                  match findRetry (retries s) e used with
                  | Some r =>
                      let (evs', st) := exec fuel' sm svc cur input (S used) jobs' in
                      ((evs ++ Waited (retryDelay r used) :: evs')%list, st)
                  | None =>
                      match findCatch (catches s) e with
                      | Some c =>
                          let (evs', st) :=
                            exec fuel' sm svc (handler c)
                              (applyResultPath (resultPath c ?? DEFAULT_RESULT_PATH)
                                 input (errorOutput e cause))
                              0 jobs' in
                          ((evs ++ evs')%list, st)
                      | None => (evs, Some FAILED)
                      end
                  end
              end
          end
      end
  end.

(** [StateMachine.startExecution(input)] *)
Definition startExecution (fuel : nat) (sm : StateMachine) (svc : Services) (input : Json)
  : list Event * option ExecutionStatus :=
  exec fuel sm svc (definition sm) input 0 0.

Fixpoint Json_eqb (a b : Json) {struct a} : bool :=
  match a, b with
  | JNull, JNull => true
  | JString x, JString y => x =? y
  | JObject fa, JObject fb =>
      (fix go (fa : list (string * Json)) (fb : list (string * Json)) : bool :=
         match fa, fb with
         | [], [] => true
         | (k, v) :: ta, (k', v') :: tb => (k =? k') && Json_eqb v v' && go ta tb
         | _, _ => false
         end) fa fb
  | _, _ => false
  end.

(** Whether [needle] occurs in [hay], as the value itself or below it. *)
Fixpoint contains (hay needle : Json) {struct hay} : bool :=
  Json_eqb hay needle
  || match hay with
     | JObject fs =>
         (fix go (fs : list (string * Json)) : bool :=
            match fs with
            | [] => false
            | (_, v) :: rest => contains v needle || go rest
            end) fs
     | _ => false
     end.

End sfn.

Module events.

(** A schedule expression [rate(<duration>)]. *)
Inductive Schedule : Type := rateExpression (d : lib.Duration).

(** [Schedule.rate(d)]: a duration of zero is refused. *)
Definition rate (d : lib.Duration) : Synth Schedule :=
  if lib.isZero d then throw ZeroDuration else ret (rateExpression d).

Record Rule : Type := {
  schedule : Schedule;
  targets : list string
}.

End events.

(** ** The script of the [aws-cli] container

    The container runs [/bin/bash -c <script>].  [text] is the script as the
    constructor writes it; [run] is what bash does with it, against a
    parameter that answers the three commands of the AWS command line.
    [echo] and [sleep] always succeed; [set -x] only traces, [set -u] finds
    every variable set, and [set -e] has nothing to add to an and-list whose
    first failure is also the end of the script. *)
Module GateScript.

Definition text (region stateMachineArn : string) : string :=
  "set -eux" ++ nl ++
  "          aws configure set region " ++ region ++ " && \" ++ nl ++
  "          aws configure set output text && \" ++ nl ++
  "          EXECUTION_ARN=$(aws stepfunctions start-execution --state-machine-arn "
    ++ stateMachineArn ++ " --query executionArn) && \" ++ nl ++
  "          until [ $(aws stepfunctions describe-execution --execution-arn "
    ++ dq ++ "$EXECUTION_ARN" ++ dq ++ " --query status) != RUNNING ];" ++ nl ++
  "          do" ++ nl ++
  "            echo " ++ dq ++ "Waiting for $EXECUTION_ARN" ++ dq ++ nl ++
  "            sleep 10" ++ nl ++
  "          done".

Record AwsCli : Type := {
  (** exit status of [aws configure set <key> <value>] *)
  configureSet : string -> string -> nat;
  (** exit status and output of [aws stepfunctions start-execution] for a
      state machine: the ARN of the new execution *)
  startExecution : string -> nat * string;
  (** output of the n-th [aws stepfunctions describe-execution] (from 0) for
      an execution: its status, nothing when the call fails *)
  describeExecution : nat -> string -> option sfn.ExecutionStatus
}.

Inductive Action : Type :=
| AwsConfigureSet (key value : string)
| AwsStartExecution (stateMachineArn : string)
| AwsDescribeExecution (executionArn : string)
| Echo (line : string)
| Sleep (secs : nat).

Definition statusText (s : sfn.ExecutionStatus) : string :=
  match s with
  | sfn.RUNNING => "RUNNING"
  | sfn.SUCCEEDED => "SUCCEEDED"
  | sfn.FAILED => "FAILED"
  | sfn.TIMED_OUT => "TIMED_OUT"
  | sfn.ABORTED => "ABORTED"
  end.

(** The words an unquoted [$(...)] expands to. *)
Definition words (out : option sfn.ExecutionStatus) : list string :=
  match out with
  | Some s => [statusText s]
  | None => []
  end.

(** Exit status of [[ <ws> != <rhs> ]]: 0 when the one word differs from
    [rhs], 1 when it is equal, 2 when the word is missing and the test is
    malformed. *)
Definition test_ne (ws : list string) (rhs : string) : nat :=
  match ws with
  | [w] => if w =? rhs then 1 else 0
  | _ => 2
  end.

(** [until [ $(describe-execution) != RUNNING ]; do echo; sleep 10; done],
    from poll number [n] on.  The exit status is [None] while the loop is
    still going after [fuel] polls; a finished loop has status 0, that of
    the last [sleep] or of a body that never ran. *)
Fixpoint until (fuel : nat) (cli : AwsCli) (executionArn : string) (n : nat)
  : list Action * option nat :=
  match fuel with
  | 0 => ([], None)
  | S fuel' =>
      match test_ne (words (describeExecution cli n executionArn)) "RUNNING" with
      | 0 => ([AwsDescribeExecution executionArn], Some 0)
      | _ =>
          let (acts, status) := until fuel' cli executionArn (S n) in
          (AwsDescribeExecution executionArn
             :: Echo ("Waiting for " ++ executionArn)
             :: Sleep 10 :: acts, status)
      end
  end.

(** The whole script: an and-list of three commands and the loop.  A
    command of the list that fails ends the list, and with it the script,
    with that command's exit status. *)
Definition run (fuel : nat) (cli : AwsCli) (region stateMachineArn : string)
  : list Action * option nat :=
  match configureSet cli "region" region with
  | S c => ([AwsConfigureSet "region" region], Some (S c))
  | 0 =>
      match configureSet cli "output" "text" with
      | S c =>
          ([AwsConfigureSet "region" region; AwsConfigureSet "output" "text"],
           Some (S c))
      | 0 =>
          match startExecution cli stateMachineArn with
          | (S c, _) =>
              ([AwsConfigureSet "region" region; AwsConfigureSet "output" "text";
                AwsStartExecution stateMachineArn], Some (S c))
          | (0, executionArn) =>
              let (acts, status) := until fuel cli executionArn 0 in
              (AwsConfigureSet "region" region :: AwsConfigureSet "output" "text"
                 :: AwsStartExecution stateMachineArn :: acts, status)
          end
      end
  end.

Definition isStart (a : Action) : bool :=
  match a with AwsStartExecution _ => true | _ => false end.

Definition isPoll (a : Action) : bool :=
  match a with AwsDescribeExecution _ => true | _ => false end.

Definition sleeps (acts : list Action) : list nat :=
  flat_map (fun a => match a with Sleep s => [s] | _ => [] end) acts.

End GateScript.

(** ** The options of the construct

    [certbotScheduleInterval] is a number of days; whole numbers of either
    sign are what the embedding has for it. *)
Module Props.

Record EasyCerverProps : Type := {
  hostedZoneDomain : string;
  email : string;
  recordDomainNames : option (list string);
  vpc : option ec2.IVpc;
  securityGroup : option ec2.SecurityGroup;
  hostInstanceType : option string;
  hostInstanceSpotPrice : option string;
  logGroup : option logs.ILogGroup;
  certbotDockerTag : option string;
  certbotScheduleInterval : option Z;
  awsCliDockerTag : option string;
  removalPolicy : option lib.RemovalPolicy;
  serverTaskDefinition : option ecs.Ec2TaskDefinition
}.

End Props.

(** What the constructor reads from the stack it extends and from the
    context of the application, and what the library adds on its own to
    the objects the constructor asks it for. *)
Record Env : Type := {
  (** [this.region] *)
  region : string;
  (** [lib.Names.uniqueId] of the child with the given id *)
  uniqueId : string -> string;
  (** [route53.HostedZone.fromLookup] for a domain name *)
  fromLookup : string -> route53.IHostedZone;
  (** the context flag [@aws-cdk/core:validateSnapshotRemovalPolicy] *)
  validateSnapshotRemovalPolicy : bool;
  (** the start-up commands and the role statements that
      [cluster.addCapacity] gives a new capacity group *)
  capacityUserData : list string;
  capacityRolePolicy : list iam.PolicyStatement;
  (** the statements that [new ecs.Ec2Service] adds to the role of its task
      when [enableExecuteCommand] is set *)
  executeCommandPolicy : list iam.PolicyStatement
}.

(** The constructed stack: the ids of its children and the objects the
    constructor has built, as they are when it returns. *)
Record EasyCerverStack : Type := {
  node : Scope;
  createdVpc : option ec2.VpcProps;
  vpc : ec2.IVpc;
  cluster : ecs.Cluster;
  hostAutoScalingGroup : ecs.AutoScalingGroup;
  hostInstanceIp : ec2.CfnEIP;
  certFileSystem : efs.FileSystem;
  hostedZone : route53.IHostedZone;
  records : list string;
  aRecords : list route53.ARecord;
  createdLogGroup : option logs.LogGroupProps;
  logGroup : logs.ILogGroup;
  certbotTaskDefinition : ecs.Ec2TaskDefinition;
  emailSubscription : sns.Subscription;
  certbotStateMachine : sfn.StateMachine;
  certbotScheduleRule : events.Rule;
  serverTaskDefinition : ecs.Ec2TaskDefinition;
  service : ecs.Ec2Service
}.

Definition CERT_VOLUME : ecs.Volume :=
  {| ecs.name := "certVolume";
     ecs.efsVolumeConfiguration :=
       Some {| ecs.fileSystemId := efs.fileSystemId "FileSystem" |} |}.

Definition certMountPoint (ro : bool) : ecs.MountPoint :=
  {| ecs.sourceVolume := "certVolume";
     ecs.containerPath := "/etc/letsencrypt";
     ecs.readOnly := ro |}.

(** [this.sampleSeverTask(records, logGroup)] *)
Definition sampleSeverTask (records : list string) (logGroup : logs.ILogGroup)
  : Synth ecs.Ec2TaskDefinition :=
  newConstruct "NginxTaskDefinition" ;;;
  let nginxTaskDefinition := ecs.newEc2TaskDefinition "NginxTaskDefinition" in
  let (nginxTaskDefinition, nginxContainer) :=
    ecs.addContainer nginxTaskDefinition "NginxContainer"
      {| ecs.image := ecs.fromAsset "containers/nginx-proxy";
         ecs.containerName := "nginx";
         ecs.memoryReservationMiB := Some 64;
         ecs.essential := Some true;
         ecs.entryPoint := None;
         ecs.command := None;
         ecs.environment :=
           [ ("SERVER_NAME", Some (join " " records));
             ("CERT_NAME", first records) ];
         ecs.logging := Some (ecs.awsLogs logGroup "nginx-proxy") |} in
  let nginxTaskDefinition :=
    ecs.updateContainer nginxTaskDefinition nginxContainer
      (fun c =>
         ecs.addPortMappings c
           [ {| ecs.hostPort := 80; ecs.containerPort := 80; ecs.protocol := ecs.TCP |};
             {| ecs.hostPort := 443; ecs.containerPort := 443; ecs.protocol := ecs.TCP |} ]) in
  ret nginxTaskDefinition.

(** The options of [cluster.addCapacity("HostInstanceCapacity", ...)]. *)
Definition hostInstanceCapacity (props : Props.EasyCerverProps) : ecs.AddCapacityOptions :=
  {| ecs.machineImage := ecs.amazonLinux2 ecs.STANDARD true;
     ecs.instanceType := Props.hostInstanceType props ?? "t2.micro";
     ecs.spotPrice := Props.hostInstanceSpotPrice props;
     ecs.vpcSubnets := ec2.PUBLIC;
     ecs.associatePublicIpAddress := true;
     ecs.minCapacity := Some 1;
     ecs.maxCapacity := Some 1 |}.

(** [cluster.addCapacity(id, options)]: the group comes with a security
    group of its own, the one group of its launch configuration and of its
    connections, and with the start-up commands and the role statements
    that the cluster gives every capacity group. *)
Definition addCapacity (env : Env) (id : string) (options : ecs.AddCapacityOptions)
  : ecs.AutoScalingGroup :=
  let securityGroup :=
    {| ec2.securityGroupId := GetAtt (id ++ "InstanceSecurityGroup") "GroupId";
       ec2.allowAllOutbound := true |} in
  {| ecs.capacity := options;
     ecs.securityGroups := [ securityGroup ];
     ecs.connections :=
       {| ec2.owner := id;
          ec2.securityGroups := [ securityGroup ];
          ec2.rules := [] |};
     ecs.managedPolicies := [];
     ecs.principalPolicy := capacityRolePolicy env;
     ecs.userData := capacityUserData env |}.

Definition withConnections (g : ecs.AutoScalingGroup) (c : ec2.Connections)
  : ecs.AutoScalingGroup :=
  {| ecs.capacity := ecs.capacity g;
     ecs.securityGroups := ecs.securityGroups g;
     ecs.connections := c;
     ecs.managedPolicies := ecs.managedPolicies g;
     ecs.principalPolicy := ecs.principalPolicy g;
     ecs.userData := ecs.userData g |}.

(** [g.addSecurityGroup(sg)]: one more group for the launch configuration;
    the connections of the group are not touched. *)
Definition addSecurityGroup (g : ecs.AutoScalingGroup) (sg : ec2.SecurityGroup)
  : ecs.AutoScalingGroup :=
  {| ecs.capacity := ecs.capacity g;
     ecs.securityGroups := (ecs.securityGroups g ++ [sg])%list;
     ecs.connections := ecs.connections g;
     ecs.managedPolicies := ecs.managedPolicies g;
     ecs.principalPolicy := ecs.principalPolicy g;
     ecs.userData := ecs.userData g |}.

Definition addManagedPolicy (g : ecs.AutoScalingGroup) (p : string) : ecs.AutoScalingGroup :=
  {| ecs.capacity := ecs.capacity g;
     ecs.securityGroups := ecs.securityGroups g;
     ecs.connections := ecs.connections g;
     ecs.managedPolicies := (ecs.managedPolicies g ++ [p])%list;
     ecs.principalPolicy := ecs.principalPolicy g;
     ecs.userData := ecs.userData g |}.

Definition addToPrincipalPolicy (g : ecs.AutoScalingGroup) (s : iam.PolicyStatement)
  : ecs.AutoScalingGroup :=
  {| ecs.capacity := ecs.capacity g;
     ecs.securityGroups := ecs.securityGroups g;
     ecs.connections := ecs.connections g;
     ecs.managedPolicies := ecs.managedPolicies g;
     ecs.principalPolicy := (ecs.principalPolicy g ++ [s])%list;
     ecs.userData := ecs.userData g |}.

Definition addUserData (g : ecs.AutoScalingGroup) (lines : list string)
  : ecs.AutoScalingGroup :=
  {| ecs.capacity := ecs.capacity g;
     ecs.securityGroups := ecs.securityGroups g;
     ecs.connections := ecs.connections g;
     ecs.managedPolicies := ecs.managedPolicies g;
     ecs.principalPolicy := ecs.principalPolicy g;
     ecs.userData := (ecs.userData g ++ lines)%list |}.

(** The branch on [props.securityGroup]. *)
Definition hostSecurity (sg : option ec2.SecurityGroup) (g : ecs.AutoScalingGroup)
  : ecs.AutoScalingGroup :=
  match sg with
  | Some securityGroup => addSecurityGroup g securityGroup
  | None =>
      let g := withConnections g (ec2.allowFromAnyIpv4 (ecs.connections g) (ec2.tcp 80)) in
      let g := withConnections g (ec2.allowFromAnyIpv4 (ecs.connections g) (ec2.tcp 443)) in
      let g := withConnections g
                 (ec2.allowFromPeer (ecs.connections g) ec2.anyIpv6 (ec2.tcp 80)) in
      withConnections g (ec2.allowFromPeer (ecs.connections g) ec2.anyIpv6 (ec2.tcp 443))
  end.

(** [new FileSystem(this, id, { vpc, encrypted: true, securityGroup, removalPolicy })],
    the security group being the one just created for it. *)
Definition newFileSystem (validate : bool) (id : string) (vpc : ec2.IVpc)
  (sg : ec2.SecurityGroup) (removalPolicy : lib.RemovalPolicy) : Synth efs.FileSystem :=
  newConstruct id ;;;
  lib.applyRemovalPolicy validate "AWS::EFS::FileSystem" removalPolicy ;;;
  ret {| efs.vpc := vpc;
         efs.encrypted := true;
         efs.removalPolicy := removalPolicy;
         efs.connections :=
           {| ec2.owner := id; ec2.securityGroups := [sg]; ec2.rules := [] |} |}.

(** [new LogGroup(this, id, props)] *)
Definition newLogGroup (validate : bool) (id : string) (p : logs.LogGroupProps)
  : Synth logs.ILogGroup :=
  newConstruct id ;;;
  lib.applyRemovalPolicy validate "AWS::Logs::LogGroup" (logs.removalPolicy p) ;;;
  ret {| logs.logGroupName := Ref id |}.

(** [fs.connections.allowDefaultPortTo(host)] and [allowDefaultPortFrom(host)] *)
Definition allowDefaultPortTo (fs : efs.FileSystem) (g : ecs.AutoScalingGroup)
  : efs.FileSystem * ecs.AutoScalingGroup :=
  let (c, d) := ec2.allowTo (efs.connections fs) (ecs.connections g) efs.DEFAULT_PORT in
  ({| efs.vpc := efs.vpc fs; efs.encrypted := efs.encrypted fs;
      efs.removalPolicy := efs.removalPolicy fs; efs.connections := c |},
   withConnections g d).

Definition allowDefaultPortFrom (fs : efs.FileSystem) (g : ecs.AutoScalingGroup)
  : efs.FileSystem * ecs.AutoScalingGroup :=
  let (c, d) := ec2.allowFrom (efs.connections fs) (ecs.connections g) efs.DEFAULT_PORT in
  ({| efs.vpc := efs.vpc fs; efs.encrypted := efs.encrypted fs;
      efs.removalPolicy := efs.removalPolicy fs; efs.connections := c |},
   withConnections g d).

(** [new route53.ARecord(this, `ARecord${record}`, ...)]; [id] is the name
    of the record in the construct tree. *)
Definition newARecord (zone : route53.IHostedZone) (ip : string) (record : string)
  : Synth route53.ARecord :=
  newConstruct ("ARecord" ++ record) ;;;
  ret {| route53.id := sanitizeId ("ARecord" ++ record);
         route53.zone := zone;
         route53.recordName := record;
         route53.target := route53.fromIpAddresses ip |}.

Definition allow (actions resources : list string) : iam.PolicyStatement :=
  {| iam.effect := iam.ALLOW; iam.actions := actions; iam.resources := resources;
     iam.conditions := [] |}.

(** [new ecs.Ec2Service(this, id, { taskDefinition, enableExecuteCommand:
    true, ... })] on the side of the task: the role of the task gets the
    statements that executing commands in its containers needs. *)
Definition enableExecuteCommand (env : Env) (td : ecs.Ec2TaskDefinition)
  : ecs.Ec2TaskDefinition :=
  {| ecs.family := ecs.family td;
     ecs.containers := ecs.containers td;
     ecs.defaultContainer := ecs.defaultContainer td;
     ecs.volumes := ecs.volumes td;
     ecs.taskRolePolicy := (ecs.taskRolePolicy td ++ executeCommandPolicy env)%list |}.

(** The options of the [certbot] container. *)
Definition certbotContainerOptions (email certbotTag : string) (records : list string)
  (logGroup : logs.ILogGroup) : ecs.ContainerDefinitionOptions :=
  {| ecs.image := ecs.fromRegistry ("certbot/dns-route53:" ++ certbotTag);
     ecs.containerName := "certbot";
     ecs.memoryReservationMiB := Some 64;
     ecs.essential := None;
     ecs.entryPoint := None;
     ecs.command :=
       Some ([ Some "certonly"; Some "--verbose"; Some "--preferred-challenges=dns-01";
               Some "--dns-route53"; Some "--dns-route53-propagation-seconds=300";
               Some "--non-interactive"; Some "--agree-tos"; Some "--expand";
               Some "-m"; Some email; Some "--cert-name"; first records ]
             ++ flatMap (fun domain => [ Some "-d"; Some domain ]) records)%list;
     ecs.environment := [];
     ecs.logging := Some (ecs.awsLogs logGroup certbotTag) |}.

(** The options of the [aws-cli] container. *)
Definition awsCliContainerOptions (region awsCliTag : string) (logGroup : logs.ILogGroup)
  : ecs.ContainerDefinitionOptions :=
  {| ecs.image := ecs.fromRegistry ("amazon/aws-cli:" ++ awsCliTag);
     ecs.containerName := "aws-cli";
     ecs.memoryReservationMiB := Some 64;
     ecs.essential := Some false;
     ecs.entryPoint := Some [ "/bin/bash"; "-c" ];
     ecs.command :=
       Some [ Some (GateScript.text region (sfn.stateMachineArn "StateMachine")) ];
     ecs.environment := [];
     ecs.logging := Some (ecs.awsLogs logGroup awsCliTag) |}.

Definition awsCliDependency : ecs.ContainerDependency :=
  {| ecs.container := "aws-cli"; ecs.condition := ecs.COMPLETE |}.

(** [td.defaultContainer?.addContainerDependencies({ container:
    td.addContainer("AWSCliContainer", ...), condition: COMPLETE })]: without
    a default container the argument is not evaluated and no container is
    added. *)
Definition addAwsCliContainer (region awsCliTag : string) (logGroup : logs.ILogGroup)
  (td : ecs.Ec2TaskDefinition) : ecs.Ec2TaskDefinition :=
  ecs.withDefaultContainer td
    (fun defaultContainer =>
       let (td, _) :=
         ecs.addContainer td "AWSCliContainer"
           (awsCliContainerOptions region awsCliTag logGroup) in
       ecs.updateContainer td defaultContainer
         (ecs.addContainerDependencies awsCliDependency)).

(** [td.defaultContainer?.addMountPoints(...)] *)
Definition mountOnDefaultContainer (mp : ecs.MountPoint) (td : ecs.Ec2TaskDefinition)
  : ecs.Ec2TaskDefinition :=
  ecs.withDefaultContainer td
    (fun defaultContainer =>
       ecs.updateContainer td defaultContainer (ecs.addMountPoints mp)).

(** ** The constructor of [EasyCerver] *)
Definition construct (env : Env) (props : Props.EasyCerverProps) : Synth EasyCerverStack :=
  vpc' <-
    match Props.vpc props with
    | Some v => ret (v, None)
    | None =>
        newConstruct "Vpc" ;;;
        ret ({| ec2.vpcId := Ref "Vpc" |},
             Some {| ec2.natGateways := 0;
                     ec2.subnetConfiguration := [ ("PublicSubnet", ec2.PUBLIC) ] |})
    end ;;
  let (vpc, createdVpc) := vpc' in

  newConstruct "Cluster" ;;;
  let cluster := {| ecs.vpc := vpc; ecs.containerInsights := true |} in

  let hostAutoScalingGroup :=
    addCapacity env "HostInstanceCapacity" (hostInstanceCapacity props) in
  let hostAutoScalingGroup := hostSecurity (Props.securityGroup props) hostAutoScalingGroup in
  let hostAutoScalingGroup :=
    addManagedPolicy hostAutoScalingGroup "AmazonSSMManagedInstanceCore" in
  let hostAutoScalingGroup :=
    addToPrincipalPolicy hostAutoScalingGroup
      (allow [ "ec2:DescribeAddresses"; "ec2:AssociateAddress" ] [ "*" ]) in

  newConstruct "HostInstanceIp" ;;;
  let tagUniqueId := uniqueId env "HostInstanceIp" in
  let hostInstanceIp := {| ec2.tags := [ ("Name", tagUniqueId) ] |} in

  let awsCliTag := Props.awsCliDockerTag props ?? "latest" in
  let hostAutoScalingGroup :=
    addUserData hostAutoScalingGroup
      [ "INSTANCE_ID=$(curl --silent http://169.254.169.254/latest/meta-data/instance-id)";
        "ALLOCATION_ID=$(docker run --net=host amazon/aws-cli:" ++ awsCliTag
          ++ " ec2 describe-addresses --region " ++ region env
          ++ " --filter Name=tag:Name,Values=" ++ tagUniqueId
          ++ " --query 'Addresses[].AllocationId' --output text | head)";
        "docker run --net=host amazon/aws-cli:" ++ awsCliTag
          ++ " ec2 associate-address --region " ++ region env
          ++ " --instance-id " ++ dq ++ "$INSTANCE_ID" ++ dq
          ++ " --allocation-id " ++ dq ++ "$ALLOCATION_ID" ++ dq
          ++ " --allow-reassociation" ] in

  newConstruct "FileSystemSecurityGroup" ;;;
  certFileSystem <-
    newFileSystem (validateSnapshotRemovalPolicy env) "FileSystem" vpc
      {| ec2.securityGroupId := GetAtt "FileSystemSecurityGroup" "GroupId";
         ec2.allowAllOutbound := false |}
      (Props.removalPolicy props ?? lib.DESTROY) ;;
  let (certFileSystem, hostAutoScalingGroup) :=
    allowDefaultPortTo certFileSystem hostAutoScalingGroup in
  let (certFileSystem, hostAutoScalingGroup) :=
    allowDefaultPortFrom certFileSystem hostAutoScalingGroup in

  newConstruct "HostedZone" ;;;
  let hostedZone := fromLookup env (Props.hostedZoneDomain props) in
  let records := Props.recordDomainNames props ?? [ route53.zoneName hostedZone ] in
  aRecords <- forEach (newARecord hostedZone (Ref "HostInstanceIp")) records ;;

  logGroup' <-
    match Props.logGroup props with
    | Some g => ret (g, None)
    | None =>
        let p := {| logs.retention := logs.TWO_YEARS;
                    logs.removalPolicy := Props.removalPolicy props ?? lib.DESTROY |} in
        g <- newLogGroup (validateSnapshotRemovalPolicy env) "LogGroup" p ;;
        ret (g, Some p)
    end ;;
  let (logGroup, createdLogGroup) := logGroup' in

  newConstruct "CertbotTaskDefinition" ;;;
  let certbotTaskDefinition := ecs.newEc2TaskDefinition "CertbotTaskDefinition" in
  let certbotTaskDefinition :=
    ecs.addToTaskRolePolicy certbotTaskDefinition
      (allow [ "route53:ListHostedZones"; "route53:GetChange" ] [ "*" ]) in
  let certbotTaskDefinition :=
    ecs.addToTaskRolePolicy certbotTaskDefinition
      (allow [ "route53:ChangeResourceRecordSets" ] [ route53.hostedZoneArn hostedZone ]) in

  let certbotTag := Props.certbotDockerTag props ?? "v1.29.0" in
  let (certbotTaskDefinition, certbotContainer) :=
    ecs.addContainer certbotTaskDefinition "CertbotContainer"
      (certbotContainerOptions (Props.email props) certbotTag records logGroup) in

  let certbotTaskDefinition :=
    ecs.addToTaskRolePolicy certbotTaskDefinition
      (allow [ "elasticfilesystem:ClientWrite" ] [ efs.fileSystemArn "FileSystem" ]) in
  let certbotTaskDefinition := ecs.addVolume certbotTaskDefinition CERT_VOLUME in
  let certbotTaskDefinition :=
    ecs.updateContainer certbotTaskDefinition certbotContainer
      (ecs.addMountPoints (certMountPoint false)) in

  newConstruct "Topic" ;;;
  newConstruct "EmailSubscription" ;;;
  let emailSubscription :=
    {| sns.topic := "Topic"; sns.protocol := sns.EMAIL;
       sns.endpoint := Props.email props |} in

  newConstruct "CreateCertificate" ;;;
  let certbotRunTask :=
    sfn.newState "CreateCertificate"
      (sfn.EcsRunTask "Cluster" "CertbotTaskDefinition" sfn.EcsEc2LaunchTarget
         sfn.RUN_JOB) in
  newConstruct "SendEmailOnFailure" ;;;
  let sendEmailOnFailure :=
    sfn.newState "SendEmailOnFailure" (sfn.SnsPublish "Topic" (sfn.fromJsonPathAt "$")) in
  newConstruct "Fail" ;;;
  let fail := sfn.newState "Fail" sfn.Fail in
  let sendEmailOnFailure := sfn.next sendEmailOnFailure fail in
  let certbotRunTask := sfn.addCatch certbotRunTask sendEmailOnFailure in
  let certbotRunTask := sfn.addRetry certbotRunTask (lib.seconds 20) in
  newConstruct "StateMachine" ;;;
  let certbotStateMachine :=
    {| sfn.definition := sfn.id certbotRunTask;
       sfn.states := [ certbotRunTask; sendEmailOnFailure; fail ] |} in

  interval <- lib.days (Props.certbotScheduleInterval props ?? 60%Z) ;;
  schedule <- events.rate interval ;;
  newConstruct "CertbotScheduleRule" ;;;
  let certbotScheduleRule :=
    {| events.schedule := schedule; events.targets := [ "StateMachine" ] |} in

  serverTaskDefinition <-
    match Props.serverTaskDefinition props with
    | Some td => ret td
    | None => sampleSeverTask records logGroup
    end ;;
  let serverTaskDefinition :=
    ecs.addToTaskRolePolicy serverTaskDefinition
      (allow [ "elasticfilesystem:ClientMount" ] [ efs.fileSystemArn "FileSystem" ]) in
  let serverTaskDefinition := ecs.addVolume serverTaskDefinition CERT_VOLUME in
  let serverTaskDefinition :=
    mountOnDefaultContainer (certMountPoint true) serverTaskDefinition in

  let serverTaskDefinition :=
    addAwsCliContainer (region env) awsCliTag logGroup serverTaskDefinition in
  let serverTaskDefinition :=
    ecs.addToTaskRolePolicy serverTaskDefinition
      (allow [ "states:DescribeExecution" ] [ GetAtt "StateMachine" "ExecutionArn" ]) in
  let serverTaskDefinition :=
    ecs.addToTaskRolePolicy serverTaskDefinition
      (allow [ "states:StartExecution" ] [ sfn.stateMachineArn "StateMachine" ]) in

  newConstruct "Service" ;;;
  let service :=
    {| ecs.cluster := "Cluster";
       ecs.taskDefinition := ecs.family serverTaskDefinition;
       ecs.desiredCount := 1;
       ecs.minHealthyPercent := 0;
       ecs.maxHealthyPercent := 100;
       ecs.circuitBreakerRollback := true;
       ecs.enableExecuteCommand := true |} in
  let serverTaskDefinition := enableExecuteCommand env serverTaskDefinition in

  node <- children ;;
  ret {| node := node;
         createdVpc := createdVpc;
         vpc := vpc;
         cluster := cluster;
         hostAutoScalingGroup := hostAutoScalingGroup;
         hostInstanceIp := hostInstanceIp;
         certFileSystem := certFileSystem;
         hostedZone := hostedZone;
         records := records;
         aRecords := aRecords;
         createdLogGroup := createdLogGroup;
         logGroup := logGroup;
         certbotTaskDefinition := certbotTaskDefinition;
         emailSubscription := emailSubscription;
         certbotStateMachine := certbotStateMachine;
         certbotScheduleRule := certbotScheduleRule;
         serverTaskDefinition := serverTaskDefinition;
         service := service |}.

(** [new EasyCerver(scope, id, props)] *)
Definition EasyCerver (env : Env) (props : Props.EasyCerverProps) : Result EasyCerverStack :=
  run (construct env props).

(** * Vocabulary of the properties

    Names for what the theorems speak of; nothing here is used by the
    constructor. *)

(** The domain names the records and the certificate are made for:
    [props.recordDomainNames ?? [hostedZone.zoneName]]. *)
Definition resolvedRecords (env : Env) (props : Props.EasyCerverProps) : list string :=
  Props.recordDomainNames props
  ?? [ route53.zoneName (fromLookup env (Props.hostedZoneDomain props)) ].

(** The name in the construct tree of the A record of a domain name, and
    the record the loop body creates for it. *)
Definition aRecordId (record : string) : string := sanitizeId ("ARecord" ++ record).

Definition aRecordFor (zone : route53.IHostedZone) (ip : string) (record : string)
  : route53.ARecord :=
  {| route53.id := aRecordId record;
     route53.zone := zone;
     route53.recordName := record;
     route53.target := route53.fromIpAddresses ip |}.

(** The records of a stack that are made for a given name. *)
Definition recordsNamed (r : string) (st : EasyCerverStack) : list route53.ARecord :=
  filter (fun a => route53.recordName a =? r) (aRecords st).

(** The interval of the renewal schedule, in days. *)
Definition resolvedInterval (props : Props.EasyCerverProps) : Z :=
  Props.certbotScheduleInterval props ?? 60%Z.

(** The rules the constructor asks for on the host. *)
Definition webIngressRules : list ec2.Rule :=
  [ {| ec2.direction := ec2.Ingress; ec2.peer := ec2.anyIpv4; ec2.portRange := ec2.tcp 80 |};
    {| ec2.direction := ec2.Ingress; ec2.peer := ec2.anyIpv4; ec2.portRange := ec2.tcp 443 |};
    {| ec2.direction := ec2.Ingress; ec2.peer := ec2.anyIpv6; ec2.portRange := ec2.tcp 80 |};
    {| ec2.direction := ec2.Ingress; ec2.peer := ec2.anyIpv6; ec2.portRange := ec2.tcp 443 |} ].

Definition fileSystemToHost : ec2.Rule :=
  {| ec2.direction := ec2.Ingress; ec2.peer := ec2.connectable "FileSystem";
     ec2.portRange := efs.DEFAULT_PORT |}.

Definition hostToFileSystem : ec2.Rule :=
  {| ec2.direction := ec2.Ingress; ec2.peer := ec2.connectable "HostInstanceCapacity";
     ec2.portRange := efs.DEFAULT_PORT |}.

Definition hostIngressRules (st : EasyCerverStack) : list ec2.Rule :=
  ec2.ingressRules (ecs.connections (hostAutoScalingGroup st)).

Definition fileSystemIngressRules (st : EasyCerverStack) : list ec2.Rule :=
  ec2.ingressRules (efs.connections (certFileSystem st)).

(** Every ingress rule of the stack. *)
Definition ingressRulesCreated (st : EasyCerverStack) : list ec2.Rule :=
  (hostIngressRules st ++ fileSystemIngressRules st)%list.

Definition fromAnyAddress (r : ec2.Rule) : bool :=
  match ec2.peer r with
  | ec2.anyIpv4 => true
  | ec2.anyIpv6 => true
  | ec2.connectable _ => false
  end.

(** A task definition has a mount: one of its containers has the mount
    point. *)
Definition hasMount (td : ecs.Ec2TaskDefinition) (mp : ecs.MountPoint) : Prop :=
  exists c, In c (ecs.containers td) /\ In mp (ecs.mountPoints c).

(** The container objects the constructor creates, as [addContainer] leaves
    them. *)
Definition newContainer (id : string) (opts : ecs.ContainerDefinitionOptions)
  : ecs.ContainerDefinition :=
  {| ecs.id := id; ecs.props := opts; ecs.portMappings := [];
     ecs.mountPoints := []; ecs.containerDependencies := [] |}.

Definition awsCliContainer (env : Env) (props : Props.EasyCerverProps)
  (logGroup : logs.ILogGroup) : ecs.ContainerDefinition :=
  newContainer "AWSCliContainer"
    (awsCliContainerOptions (region env) (Props.awsCliDockerTag props ?? "latest") logGroup).

Definition webPortMappings : list ecs.PortMapping :=
  [ {| ecs.hostPort := 80; ecs.containerPort := 80; ecs.protocol := ecs.TCP |};
    {| ecs.hostPort := 443; ecs.containerPort := 443; ecs.protocol := ecs.TCP |} ].

(** The rounds of the polling loop that found the execution running. *)
Fixpoint waitingRounds (k : nat) (executionArn : string) : list GateScript.Action :=
  match k with
  | 0 => []
  | S k' =>
      GateScript.AwsDescribeExecution executionArn
        :: GateScript.Echo ("Waiting for " ++ executionArn)
        :: GateScript.Sleep 10 :: waitingRounds k' executionArn
  end.

(** The poll leaves the loop going: the status is [RUNNING] or the call
    printed nothing. *)
Definition keepsWaiting (out : option sfn.ExecutionStatus) : Prop :=
  out = Some sfn.RUNNING \/ out = None.

Definition runCalls (evs : list sfn.Event) : nat :=
  length (filter (fun e => match e with sfn.EcsRunTaskCall _ _ => true | _ => false end) evs).

(** *** The objects of a constructed stack, in closed form

    The states of the renewal workflow first, then the containers and the
    tasks. *)

Definition retryEvery20s : sfn.RetryProps :=
  {| sfn.retryErrors := [ sfn.ALL ]; sfn.interval := Some (lib.seconds 20);
     sfn.maxAttempts := None; sfn.backoffRate := None |}.

Definition catchAll : sfn.CatchProps :=
  {| sfn.catchErrors := [ sfn.ALL ]; sfn.resultPath := None;
     sfn.handler := "SendEmailOnFailure" |}.

Definition createCertificate : sfn.State :=
  {| sfn.id := "CreateCertificate";
     sfn.kind :=
       sfn.EcsRunTask "Cluster" "CertbotTaskDefinition" sfn.EcsEc2LaunchTarget
         sfn.RUN_JOB;
     sfn.retries := [ retryEvery20s ];
     sfn.catches := [ catchAll ];
     sfn.nextState := None |}.

Definition sendEmailOnFailure : sfn.State :=
  {| sfn.id := "SendEmailOnFailure";
     sfn.kind := sfn.SnsPublish "Topic" (sfn.fromJsonPathAt "$");
     sfn.retries := [];
     sfn.catches := [];
     sfn.nextState := Some "Fail" |}.

Definition failState : sfn.State :=
  {| sfn.id := "Fail"; sfn.kind := sfn.Fail; sfn.retries := []; sfn.catches := [];
     sfn.nextState := None |}.

(** The renewal workflow of every stack. *)
Definition certbotWorkflow : sfn.StateMachine :=
  {| sfn.definition := "CreateCertificate";
     sfn.states := [ createCertificate; sendEmailOnFailure; failState ] |}.

Definition jobCall : sfn.Event := sfn.EcsRunTaskCall "CreateCertificate" "CertbotTaskDefinition".

Definition publishCall (message : sfn.Json) : sfn.Event :=
  sfn.SnsPublishCall "SendEmailOnFailure" "Topic" message.

(** The attempts of an execution in which the job fails every time. *)
Definition exhaustedAttempts : list sfn.Event :=
  [ jobCall; sfn.Waited 20; jobCall; sfn.Waited 40; jobCall; sfn.Waited 80; jobCall ].

(** The commands of the script before the loop. *)
Definition gatePrologue (region stateMachineArn : string) : list GateScript.Action :=
  [ GateScript.AwsConfigureSet "region" region;
    GateScript.AwsConfigureSet "output" "text";
    GateScript.AwsStartExecution stateMachineArn ].

Definition nginxContainer (records : list string) (logGroup : logs.ILogGroup)
  : ecs.ContainerDefinition :=
  {| ecs.id := "NginxContainer";
     ecs.props :=
       {| ecs.image := ecs.fromAsset "containers/nginx-proxy";
          ecs.containerName := "nginx";
          ecs.memoryReservationMiB := Some 64;
          ecs.essential := Some true;
          ecs.entryPoint := None;
          ecs.command := None;
          ecs.environment :=
            [ ("SERVER_NAME", Some (join " " records));
              ("CERT_NAME", first records) ];
          ecs.logging := Some (ecs.awsLogs logGroup "nginx-proxy") |};
     ecs.portMappings := webPortMappings;
     ecs.mountPoints := [];
     ecs.containerDependencies := [] |}.

(** The task [sampleSeverTask] returns. *)
Definition sampleTask (records : list string) (logGroup : logs.ILogGroup)
  : ecs.Ec2TaskDefinition :=
  {| ecs.family := "NginxTaskDefinition";
     ecs.containers := [ nginxContainer records logGroup ];
     ecs.defaultContainer := Some 0;
     ecs.volumes := [];
     ecs.taskRolePolicy := [] |}.

(** The log group the containers write to. *)
Definition resolvedLogGroup (props : Props.EasyCerverProps) : logs.ILogGroup :=
  Props.logGroup props ?? {| logs.logGroupName := Ref "LogGroup" |}.

Definition resolvedRemovalPolicy (props : Props.EasyCerverProps) : lib.RemovalPolicy :=
  Props.removalPolicy props ?? lib.DESTROY.

Definition certbotContainer (env : Env) (props : Props.EasyCerverProps)
  : ecs.ContainerDefinition :=
  ecs.addMountPoints (certMountPoint false)
    (newContainer "CertbotContainer"
       (certbotContainerOptions (Props.email props)
          (Props.certbotDockerTag props ?? "v1.29.0")
          (resolvedRecords env props) (resolvedLogGroup props))).

(** The issuance task when the constructor returns. *)
Definition certbotTask (env : Env) (props : Props.EasyCerverProps) : ecs.Ec2TaskDefinition :=
  {| ecs.family := "CertbotTaskDefinition";
     ecs.containers := [ certbotContainer env props ];
     ecs.defaultContainer := Some 0;
     ecs.volumes := [ CERT_VOLUME ];
     ecs.taskRolePolicy :=
       [ allow [ "route53:ListHostedZones"; "route53:GetChange" ] [ "*" ];
         allow [ "route53:ChangeResourceRecordSets" ]
           [ route53.hostedZoneArn (fromLookup env (Props.hostedZoneDomain props)) ];
         allow [ "elasticfilesystem:ClientWrite" ] [ efs.fileSystemArn "FileSystem" ] ] |}.

(** What the constructor does to the served task [td], its own sample or
    the user's, before it creates the service. *)
Definition servedTask (env : Env) (props : Props.EasyCerverProps)
  (td : ecs.Ec2TaskDefinition) : ecs.Ec2TaskDefinition :=
  let td :=
    ecs.addToTaskRolePolicy td
      (allow [ "elasticfilesystem:ClientMount" ] [ efs.fileSystemArn "FileSystem" ]) in
  let td := ecs.addVolume td CERT_VOLUME in
  let td := mountOnDefaultContainer (certMountPoint true) td in
  let td :=
    addAwsCliContainer (region env) (Props.awsCliDockerTag props ?? "latest")
      (resolvedLogGroup props) td in
  let td :=
    ecs.addToTaskRolePolicy td
      (allow [ "states:DescribeExecution" ] [ GetAtt "StateMachine" "ExecutionArn" ]) in
  ecs.addToTaskRolePolicy td
    (allow [ "states:StartExecution" ] [ sfn.stateMachineArn "StateMachine" ]).

(** The served task before the constructor touches it. *)
Definition givenTask (env : Env) (props : Props.EasyCerverProps) : ecs.Ec2TaskDefinition :=
  Props.serverTaskDefinition props
  ?? sampleTask (resolvedRecords env props) (resolvedLogGroup props).

Definition hostSecurityGroup : ec2.SecurityGroup :=
  {| ec2.securityGroupId := GetAtt "HostInstanceCapacityInstanceSecurityGroup" "GroupId";
     ec2.allowAllOutbound := true |}.

Definition fileSystemSecurityGroup : ec2.SecurityGroup :=
  {| ec2.securityGroupId := GetAtt "FileSystemSecurityGroup" "GroupId";
     ec2.allowAllOutbound := false |}.

Definition egressTo (id : string) : ec2.Rule :=
  {| ec2.direction := ec2.Egress; ec2.peer := ec2.connectable id;
     ec2.portRange := efs.DEFAULT_PORT |}.

(** The facts about a stack that the constructor has returned. *)
Record Built (env : Env) (props : Props.EasyCerverProps) (st : EasyCerverStack) : Prop := {
  built_distinct : NoDup (map aRecordId (resolvedRecords env props));
  built_policy :
    validateSnapshotRemovalPolicy env = true -> resolvedRemovalPolicy props <> lib.SNAPSHOT;
  built_interval : (0 < resolvedInterval props)%Z;
  built_capacity :
    ecs.capacity (hostAutoScalingGroup st) = hostInstanceCapacity props;
  built_hostGroups :
    ecs.securityGroups (hostAutoScalingGroup st)
    = hostSecurityGroup
        :: match Props.securityGroup props with
           | Some sg => [ sg ]
           | None => []
           end;
  built_connectionGroups :
    ec2.securityGroups (ecs.connections (hostAutoScalingGroup st)) = [ hostSecurityGroup ];
  built_hostRules :
    ec2.rules (ecs.connections (hostAutoScalingGroup st))
    = (match Props.securityGroup props with
       | Some _ => []
       | None => webIngressRules
       end ++ [ fileSystemToHost; egressTo "FileSystem" ])%list;
  built_fileSystem :
    certFileSystem st
    = {| efs.vpc := vpc st;
         efs.encrypted := true;
         efs.removalPolicy := resolvedRemovalPolicy props;
         efs.connections :=
           {| ec2.owner := "FileSystem";
              ec2.securityGroups := [ fileSystemSecurityGroup ];
              ec2.rules := [ egressTo "HostInstanceCapacity"; hostToFileSystem ] |} |};
  built_hostedZone : hostedZone st = fromLookup env (Props.hostedZoneDomain props);
  built_records : records st = resolvedRecords env props;
  built_aRecords :
    aRecords st
    = map (aRecordFor (hostedZone st) (Ref "HostInstanceIp")) (resolvedRecords env props);
  built_createdLogGroup :
    createdLogGroup st
    = match Props.logGroup props with
      | Some _ => None
      | None => Some {| logs.retention := logs.TWO_YEARS;
                        logs.removalPolicy := resolvedRemovalPolicy props |}
      end;
  built_logGroup : logGroup st = resolvedLogGroup props;
  built_certbotTask : certbotTaskDefinition st = certbotTask env props;
  built_stateMachine : certbotStateMachine st = certbotWorkflow;
  built_servedTask :
    serverTaskDefinition st
    = enableExecuteCommand env (servedTask env props (givenTask env props))
}.

(** *** More vocabulary: the construct tree, the host, the tasks and the
    workflow *)

(** [b ? xs : []] *)
Definition whenNone {A : Type} (o : option A) (ids : list string) : list string :=
  match o with
  | Some _ => []
  | None => ids
  end.

(** The children of a constructed stack, in creation order. *)
Definition expectedChildren (env : Env) (props : Props.EasyCerverProps) : Scope :=
  (whenNone (Props.vpc props) [ "Vpc" ]
   ++ [ "Cluster"; "HostInstanceIp"; "FileSystemSecurityGroup"; "FileSystem";
        "HostedZone" ]
   ++ map aRecordId (resolvedRecords env props)
   ++ whenNone (Props.logGroup props) [ "LogGroup" ]
   ++ [ "CertbotTaskDefinition"; "Topic"; "EmailSubscription"; "CreateCertificate";
        "SendEmailOnFailure"; "Fail"; "StateMachine"; "CertbotScheduleRule" ]
   ++ whenNone (Props.serverTaskDefinition props) [ "NginxTaskDefinition" ]
   ++ [ "Service" ])%list.

(** The commands the constructor adds to those the host runs when it
    starts. *)
Definition hostUserData (env : Env) (props : Props.EasyCerverProps) (tag : string)
  : list string :=
  [ "INSTANCE_ID=$(curl --silent http://169.254.169.254/latest/meta-data/instance-id)";
    "ALLOCATION_ID=$(docker run --net=host amazon/aws-cli:"
      ++ (Props.awsCliDockerTag props ?? "latest")
      ++ " ec2 describe-addresses --region " ++ region env
      ++ " --filter Name=tag:Name,Values=" ++ tag
      ++ " --query 'Addresses[].AllocationId' --output text | head)";
    "docker run --net=host amazon/aws-cli:" ++ (Props.awsCliDockerTag props ?? "latest")
      ++ " ec2 associate-address --region " ++ region env
      ++ " --instance-id " ++ dq ++ "$INSTANCE_ID" ++ dq
      ++ " --allocation-id " ++ dq ++ "$ALLOCATION_ID" ++ dq
      ++ " --allow-reassociation" ].

Fixpoint distinctb (l : list string) : bool :=
  match l with
  | [] => true
  | x :: rest => negb (hasChild x rest) && distinctb rest
  end.

Definition notARecordId (id : string) : bool := negb (prefix "ARecord" id).

(** The statements the constructor adds to the role of the served task. *)
Definition servedTaskGrants : list iam.PolicyStatement :=
  [ allow [ "elasticfilesystem:ClientMount" ] [ efs.fileSystemArn "FileSystem" ];
    allow [ "states:DescribeExecution" ] [ GetAtt "StateMachine" "ExecutionArn" ];
    allow [ "states:StartExecution" ] [ sfn.stateMachineArn "StateMachine" ] ].

(** The options before the domain names in the command of [certbot]. *)
Definition certbotOptions (email : string) (certName : JsString) : list JsString :=
  [ Some "certonly"; Some "--verbose"; Some "--preferred-challenges=dns-01";
    Some "--dns-route53"; Some "--dns-route53-propagation-seconds=300";
    Some "--non-interactive"; Some "--agree-tos"; Some "--expand";
    Some "-m"; Some email; Some "--cert-name"; certName ].

(** The domain names a command line asks a certificate for: the arguments
    of its [-d] options. *)
Fixpoint domainsOf (args : list JsString) : list string :=
  match args with
  | Some "-d" :: Some domain :: rest => domain :: domainsOf rest
  | _ :: rest => domainsOf rest
  | [] => []
  end.

(** [k] failed runs of the issuance job and the waits after them, the
    first of them retry number [used + 1]. *)
Fixpoint retried (used k : nat) : list sfn.Event :=
  match k with
  | 0 => []
  | S k' => jobCall :: sfn.Waited (20 * 2 ^ used) :: retried (S used) k'
  end.

Definition isPublish (e : sfn.Event) : bool :=
  match e with sfn.SnsPublishCall _ _ _ => true | _ => false end.

Definition publishCalls (evs : list sfn.Event) : nat := length (filter isPublish evs).

(** An error that a retrier or a catcher on [States.ALL] applies to. *)
Definition retriable (r : sfn.TaskResult) : Prop :=
  exists e c, r = sfn.TaskErr e c /\ sfn.notMatchedByAll e = false.

(** More facts about a stack that the constructor has returned: its
    children and the resources around the tasks. *)
Record Wired (env : Env) (props : Props.EasyCerverProps) (st : EasyCerverStack) : Prop := {
  wired_node : node st = expectedChildren env props;
  wired_vpc : vpc st = Props.vpc props ?? {| ec2.vpcId := Ref "Vpc" |};
  wired_createdVpc :
    createdVpc st
    = match Props.vpc props with
      | Some _ => None
      | None => Some {| ec2.natGateways := 0;
                        ec2.subnetConfiguration := [ ("PublicSubnet", ec2.PUBLIC) ] |}
      end;
  wired_cluster : cluster st = {| ecs.vpc := vpc st; ecs.containerInsights := true |};
  wired_ip : hostInstanceIp st = {| ec2.tags := [ ("Name", uniqueId env "HostInstanceIp") ] |};
  wired_userData :
    ecs.userData (hostAutoScalingGroup st)
    = (capacityUserData env ++ hostUserData env props (uniqueId env "HostInstanceIp"))%list;
  wired_managedPolicies :
    ecs.managedPolicies (hostAutoScalingGroup st) = [ "AmazonSSMManagedInstanceCore" ];
  wired_principalPolicy :
    ecs.principalPolicy (hostAutoScalingGroup st)
    = (capacityRolePolicy env
       ++ [ allow [ "ec2:DescribeAddresses"; "ec2:AssociateAddress" ] [ "*" ] ])%list;
  wired_subscription :
    emailSubscription st
    = {| sns.topic := "Topic"; sns.protocol := sns.EMAIL;
         sns.endpoint := Props.email props |};
  wired_rule :
    certbotScheduleRule st
    = {| events.schedule :=
           events.rateExpression
             {| lib.amount := Z.to_nat (resolvedInterval props); lib.timeUnit := lib.Days |};
         events.targets := [ "StateMachine" ] |};
  wired_service :
    service st
    = {| ecs.cluster := "Cluster";
         ecs.taskDefinition := ecs.family (serverTaskDefinition st);
         ecs.desiredCount := 1;
         ecs.minHealthyPercent := 0;
         ecs.maxHealthyPercent := 100;
         ecs.circuitBreakerRollback := true;
         ecs.enableExecuteCommand := true |}
}.

(** *** Specifications of a computation in [Synth] *)

(** [post c Q sc]: when [c] runs to completion from scope [sc], its result
    and the scope it leaves satisfy [Q]. *)
Definition post {A : Type} (c : Synth A) (Q : A -> Scope -> Prop) (sc : Scope) : Prop :=
  forall a sc', c sc = OK (a, sc') -> Q a sc'.

(** *** Sample configurations *)

(** An application in the default context, with what the library adds to a
    capacity group and to the role of a task there. *)
Definition exampleEnv : Env :=
  {| region := "ap-northeast-1";
     uniqueId := fun id => "EasyCerver" ++ id;
     fromLookup := fun domain =>
       {| route53.hostedZoneId := "Z0123456789"; route53.zoneName := domain |};
     validateSnapshotRemovalPolicy := false;
     capacityUserData :=
       [ "echo ECS_CLUSTER=" ++ Ref "Cluster" ++ " >> /etc/ecs/ecs.config";
         "sudo iptables --insert FORWARD 1 --in-interface docker+ "
           ++ "--destination 169.254.169.254/32 --jump DROP";
         "sudo service iptables save";
         "echo ECS_AWSVPC_BLOCK_IMDS=true >> /etc/ecs/ecs.config" ];
     capacityRolePolicy :=
       [ allow [ "ecs:DeregisterContainerInstance"; "ecs:RegisterContainerInstance";
                 "ecs:Submit*" ] [ GetAtt "Cluster" "Arn" ];
         {| iam.effect := iam.ALLOW;
            iam.actions := [ "ecs:Poll"; "ecs:StartTelemetrySession" ];
            iam.resources := [ "*" ];
            iam.conditions := [ ("ArnEquals", "ecs:cluster", GetAtt "Cluster" "Arn") ] |};
         allow [ "ecs:DiscoverPollEndpoint"; "ecr:GetAuthorizationToken";
                 "logs:CreateLogStream"; "logs:PutLogEvents" ] [ "*" ] ];
     executeCommandPolicy :=
       [ allow [ "ssmmessages:CreateControlChannel"; "ssmmessages:CreateDataChannel";
                 "ssmmessages:OpenControlChannel"; "ssmmessages:OpenDataChannel" ] [ "*" ];
         allow [ "logs:DescribeLogGroups" ] [ "*" ];
         allow [ "logs:CreateLogStream"; "logs:DescribeLogStreams"; "logs:PutLogEvents" ]
           [ "*" ] ] |}.

(** The same application with the context flag that validates snapshot
    policies. *)
Definition validatingEnv : Env :=
  {| region := region exampleEnv;
     uniqueId := uniqueId exampleEnv;
     fromLookup := fromLookup exampleEnv;
     validateSnapshotRemovalPolicy := true;
     capacityUserData := capacityUserData exampleEnv;
     capacityRolePolicy := capacityRolePolicy exampleEnv;
     executeCommandPolicy := executeCommandPolicy exampleEnv |}.

Definition exampleProps : Props.EasyCerverProps :=
  {| Props.hostedZoneDomain := "example.com";
     Props.email := "admin@example.com";
     Props.recordDomainNames := None;
     Props.vpc := None;
     Props.securityGroup := None;
     Props.hostInstanceType := None;
     Props.hostInstanceSpotPrice := None;
     Props.logGroup := None;
     Props.certbotDockerTag := None;
     Props.certbotScheduleInterval := None;
     Props.awsCliDockerTag := None;
     Props.removalPolicy := None;
     Props.serverTaskDefinition := None |}.

Definition withRecordDomainNames (rs : list string) (p : Props.EasyCerverProps)
  : Props.EasyCerverProps :=
  {| Props.hostedZoneDomain := Props.hostedZoneDomain p;
     Props.email := Props.email p;
     Props.recordDomainNames := Some rs;
     Props.vpc := Props.vpc p;
     Props.securityGroup := Props.securityGroup p;
     Props.hostInstanceType := Props.hostInstanceType p;
     Props.hostInstanceSpotPrice := Props.hostInstanceSpotPrice p;
     Props.logGroup := Props.logGroup p;
     Props.certbotDockerTag := Props.certbotDockerTag p;
     Props.certbotScheduleInterval := Props.certbotScheduleInterval p;
     Props.awsCliDockerTag := Props.awsCliDockerTag p;
     Props.removalPolicy := Props.removalPolicy p;
     Props.serverTaskDefinition := Props.serverTaskDefinition p |}.

Definition withSecurityGroup (sg : ec2.SecurityGroup) (p : Props.EasyCerverProps)
  : Props.EasyCerverProps :=
  {| Props.hostedZoneDomain := Props.hostedZoneDomain p;
     Props.email := Props.email p;
     Props.recordDomainNames := Props.recordDomainNames p;
     Props.vpc := Props.vpc p;
     Props.securityGroup := Some sg;
     Props.hostInstanceType := Props.hostInstanceType p;
     Props.hostInstanceSpotPrice := Props.hostInstanceSpotPrice p;
     Props.logGroup := Props.logGroup p;
     Props.certbotDockerTag := Props.certbotDockerTag p;
     Props.certbotScheduleInterval := Props.certbotScheduleInterval p;
     Props.awsCliDockerTag := Props.awsCliDockerTag p;
     Props.removalPolicy := Props.removalPolicy p;
     Props.serverTaskDefinition := Props.serverTaskDefinition p |}.

Definition withRemovalPolicy (rp : lib.RemovalPolicy) (p : Props.EasyCerverProps)
  : Props.EasyCerverProps :=
  {| Props.hostedZoneDomain := Props.hostedZoneDomain p;
     Props.email := Props.email p;
     Props.recordDomainNames := Props.recordDomainNames p;
     Props.vpc := Props.vpc p;
     Props.securityGroup := Props.securityGroup p;
     Props.hostInstanceType := Props.hostInstanceType p;
     Props.hostInstanceSpotPrice := Props.hostInstanceSpotPrice p;
     Props.logGroup := Props.logGroup p;
     Props.certbotDockerTag := Props.certbotDockerTag p;
     Props.certbotScheduleInterval := Props.certbotScheduleInterval p;
     Props.awsCliDockerTag := Props.awsCliDockerTag p;
     Props.removalPolicy := Some rp;
     Props.serverTaskDefinition := Props.serverTaskDefinition p |}.

Definition withServerTaskDefinition (td : ecs.Ec2TaskDefinition)
  (p : Props.EasyCerverProps) : Props.EasyCerverProps :=
  {| Props.hostedZoneDomain := Props.hostedZoneDomain p;
     Props.email := Props.email p;
     Props.recordDomainNames := Props.recordDomainNames p;
     Props.vpc := Props.vpc p;
     Props.securityGroup := Props.securityGroup p;
     Props.hostInstanceType := Props.hostInstanceType p;
     Props.hostInstanceSpotPrice := Props.hostInstanceSpotPrice p;
     Props.logGroup := Props.logGroup p;
     Props.certbotDockerTag := Props.certbotDockerTag p;
     Props.certbotScheduleInterval := Props.certbotScheduleInterval p;
     Props.awsCliDockerTag := Props.awsCliDockerTag p;
     Props.removalPolicy := Props.removalPolicy p;
     Props.serverTaskDefinition := Some td |}.

Definition withScheduleInterval (days : Z) (p : Props.EasyCerverProps)
  : Props.EasyCerverProps :=
  {| Props.hostedZoneDomain := Props.hostedZoneDomain p;
     Props.email := Props.email p;
     Props.recordDomainNames := Props.recordDomainNames p;
     Props.vpc := Props.vpc p;
     Props.securityGroup := Props.securityGroup p;
     Props.hostInstanceType := Props.hostInstanceType p;
     Props.hostInstanceSpotPrice := Props.hostInstanceSpotPrice p;
     Props.logGroup := Props.logGroup p;
     Props.certbotDockerTag := Props.certbotDockerTag p;
     Props.certbotScheduleInterval := Some days;
     Props.awsCliDockerTag := Props.awsCliDockerTag p;
     Props.removalPolicy := Props.removalPolicy p;
     Props.serverTaskDefinition := Props.serverTaskDefinition p |}.

(** A security group of the user's own. *)
Definition userSecurityGroup : ec2.SecurityGroup :=
  {| ec2.securityGroupId := "sg-0a1b2c3d"; ec2.allowAllOutbound := true |}.

(** A task definition the user has not yet added a container to. *)
Definition emptyTaskDefinition : ecs.Ec2TaskDefinition :=
  ecs.newEc2TaskDefinition "UserTaskDefinition".

(** The command line answers: both settings and the start succeed, the
    execution is found running twice and failed at the third poll. *)
Definition exampleCli : GateScript.AwsCli :=
  {| GateScript.configureSet := fun _ _ => 0;
     GateScript.startExecution := fun _ => (0, "arn:aws:states:execution:1");
     GateScript.describeExecution := fun n _ =>
       match n with
       | 0 => Some sfn.RUNNING
       | 1 => Some sfn.RUNNING
       | _ => Some sfn.FAILED
       end |}.

(** The execution never leaves the running state. *)
Definition stuckCli : GateScript.AwsCli :=
  {| GateScript.configureSet := fun _ _ => 0;
     GateScript.startExecution := fun _ => (0, "arn:aws:states:execution:1");
     GateScript.describeExecution := fun _ _ => Some sfn.RUNNING |}.

(** The issuance job fails at every run; publishing works. *)
Definition failingServices : sfn.Services :=
  {| sfn.runTask := fun _ => sfn.TaskErr "States.TaskFailed" "certbot exited with 1";
     sfn.publish := fun _ _ => sfn.TaskOk sfn.JNull |}.

(** The input of a scheduled execution. *)
Definition scheduledInput : sfn.Json :=
  sfn.JObject [ ("source", sfn.JString "aws.events");
                ("detail-type", sfn.JString "Scheduled Event") ].

(** A task definition of the user's with two containers, the first the
    default one. *)
Definition userTaskDefinition : ecs.Ec2TaskDefinition :=
  let td := ecs.newEc2TaskDefinition "UserTaskDefinition" in
  let (td, app) :=
    ecs.addContainer td "App"
      {| ecs.image := ecs.fromRegistry "example/app:1";
         ecs.containerName := "app";
         ecs.memoryReservationMiB := Some 128;
         ecs.essential := None;
         ecs.entryPoint := None;
         ecs.command := None;
         ecs.environment := [];
         ecs.logging := None |} in
  let td :=
    ecs.updateContainer td app
      (fun c => ecs.addPortMappings c
         [ {| ecs.hostPort := 3000; ecs.containerPort := 3000; ecs.protocol := ecs.TCP |} ]) in
  let (td, _) :=
    ecs.addContainer td "Sidecar"
      {| ecs.image := ecs.fromRegistry "example/sidecar:1";
         ecs.containerName := "sidecar";
         ecs.memoryReservationMiB := Some 32;
         ecs.essential := Some false;
         ecs.entryPoint := None;
         ecs.command := None;
         ecs.environment := [];
         ecs.logging := None |} in
  td.

(** The issuance job fails at its first run and succeeds at the second. *)
Definition flakyServices : sfn.Services :=
  {| sfn.runTask := fun n =>
       match n with
       | 0 => sfn.TaskErr "States.TaskFailed" "certbot exited with 1"
       | _ => sfn.TaskOk sfn.JNull
       end;
     sfn.publish := fun _ _ => sfn.TaskOk sfn.JNull |}.

(** The command line is not allowed to start an execution. *)
Definition deniedCli : GateScript.AwsCli :=
  {| GateScript.configureSet := fun _ _ => 0;
     GateScript.startExecution := fun _ => (254, "");
     GateScript.describeExecution := fun _ _ => None |}.

(** A configuration that brings its own network and log group. *)
Definition sharedResourcesProps : Props.EasyCerverProps :=
  {| Props.hostedZoneDomain := "example.com";
     Props.email := "admin@example.com";
     Props.recordDomainNames := Some [ "example.com"; "www.example.com" ];
     Props.vpc := Some {| ec2.vpcId := "vpc-0a1b2c3d" |};
     Props.securityGroup := None;
     Props.hostInstanceType := None;
     Props.hostInstanceSpotPrice := None;
     Props.logGroup := Some {| logs.logGroupName := "/shared/web" |};
     Props.certbotDockerTag := Some "v2.0.0";
     Props.certbotScheduleInterval := Some 30%Z;
     Props.awsCliDockerTag := None;
     Props.removalPolicy := Some lib.RETAIN;
     Props.serverTaskDefinition := None |}.

(** * Reasoning about the constructor

    Rules that follow the constructor statement by statement, backwards
    from a returned stack ([post]). *)

Lemma post_ret {A : Type} (a : A) (Q : A -> Scope -> Prop) (sc : Scope) :
  Q a sc -> post (ret a) Q sc.
Proof.
  intros HQ b sc' E. unfold ret in E. inversion E; subst. exact HQ.
Qed.

Lemma post_bind {A B : Type} (c : Synth A) (k : A -> Synth B)
  (Q : B -> Scope -> Prop) (sc : Scope) :
  post c (fun a sc1 => post (k a) Q sc1) sc -> post (bind c k) Q sc.
Proof.
  intros Hc b sc' E. unfold bind in E.
  destruct (c sc) as [[a sc1]|e] eqn:Ec; [|discriminate].
  exact (Hc a sc1 Ec b sc' E).
Qed.

Lemma post_newConstruct (id : string) (Q : unit -> Scope -> Prop) (sc : Scope) :
  (hasChild (sanitizeId id) sc = false -> Q tt (sc ++ [sanitizeId id])%list) ->
  post (newConstruct id) Q sc.
Proof.
  intros HQ [] sc' E. unfold newConstruct in E. cbv zeta in E.
  destruct (hasChild (sanitizeId id) sc); [discriminate|].
  inversion E; subst. apply HQ. reflexivity.
Qed.

(** An id without a path separator is the name of its construct. *)
Lemma post_newConstruct_plain (id : string) (Q : unit -> Scope -> Prop) (sc : Scope) :
  sanitizeId id = id ->
  (hasChild id sc = false -> Q tt (sc ++ [id])%list) -> post (newConstruct id) Q sc.
Proof.
  intros Hid HQ. apply post_newConstruct. rewrite Hid. exact HQ.
Qed.

Lemma post_children (Q : Scope -> Scope -> Prop) (sc : Scope) :
  Q sc sc -> post children Q sc.
Proof.
  intros HQ a sc' E. unfold children in E. inversion E; subst. exact HQ.
Qed.

Lemma post_applyRemovalPolicy (validate : bool) (ty : string) (p : lib.RemovalPolicy)
  (Q : unit -> Scope -> Prop) (sc : Scope) :
  lib.snapshottable ty = false ->
  ((validate = true -> p <> lib.SNAPSHOT) -> Q tt sc) ->
  post (lib.applyRemovalPolicy validate ty p) Q sc.
Proof.
  intros Hty HQ [] sc' E. unfold lib.applyRemovalPolicy in E.
  destruct p; try rewrite Hty in E; try destruct validate; try discriminate;
    unfold ret in E; inversion E; subst; apply HQ; intros; discriminate.
Qed.

Lemma post_newFileSystem (validate : bool) (id : string) (v : ec2.IVpc)
  (sg : ec2.SecurityGroup) (p : lib.RemovalPolicy)
  (Q : efs.FileSystem -> Scope -> Prop) (sc : Scope) :
  sanitizeId id = id ->
  (hasChild id sc = false -> (validate = true -> p <> lib.SNAPSHOT) ->
   Q {| efs.vpc := v; efs.encrypted := true; efs.removalPolicy := p;
        efs.connections :=
          {| ec2.owner := id; ec2.securityGroups := [sg]; ec2.rules := [] |} |}
     (sc ++ [id])%list) ->
  post (newFileSystem validate id v sg p) Q sc.
Proof.
  intros Hplain HQ. unfold newFileSystem.
  apply post_bind, post_newConstruct_plain; [exact Hplain|]. intros Hid.
  apply post_bind, post_applyRemovalPolicy; [reflexivity|]. intros Hp.
  apply post_ret. exact (HQ Hid Hp).
Qed.

Lemma post_newLogGroup (validate : bool) (id : string) (p : logs.LogGroupProps)
  (Q : logs.ILogGroup -> Scope -> Prop) (sc : Scope) :
  sanitizeId id = id ->
  (hasChild id sc = false -> (validate = true -> logs.removalPolicy p <> lib.SNAPSHOT) ->
   Q {| logs.logGroupName := Ref id |} (sc ++ [id])%list) ->
  post (newLogGroup validate id p) Q sc.
Proof.
  intros Hplain HQ. unfold newLogGroup.
  apply post_bind, post_newConstruct_plain; [exact Hplain|]. intros Hid.
  apply post_bind, post_applyRemovalPolicy; [reflexivity|]. intros Hp.
  apply post_ret. exact (HQ Hid Hp).
Qed.

Lemma post_days (n : Z) (Q : lib.Duration -> Scope -> Prop) (sc : Scope) :
  ((0 <= n)%Z -> Q {| lib.amount := Z.to_nat n; lib.timeUnit := lib.Days |} sc) ->
  post (lib.days n) Q sc.
Proof.
  intros HQ d sc' E. unfold lib.days in E.
  destruct (Z.ltb_spec n 0) as [Hneg|Hpos]; [discriminate|].
  unfold ret in E. inversion E; subst. exact (HQ Hpos).
Qed.

Lemma post_rate (d : lib.Duration) (Q : events.Schedule -> Scope -> Prop) (sc : Scope) :
  (lib.isZero d = false -> Q (events.rateExpression d) sc) -> post (events.rate d) Q sc.
Proof.
  intros HQ s sc' E. unfold events.rate in E.
  destruct (lib.isZero d); [discriminate|].
  unfold ret in E. inversion E; subst. apply HQ. reflexivity.
Qed.

(** The test of [Schedule.rate] is the test of the source. *)
Lemma isZero_toSeconds (d : lib.Duration) :
  lib.isZero d = true <-> lib.toSeconds d = 0.
Proof.
  unfold lib.isZero, lib.toSeconds. rewrite Nat.eqb_eq.
  destruct (lib.timeUnit d); lia.
Qed.

Lemma positive_days (n : Z) :
  (0 <= n)%Z ->
  lib.isZero {| lib.amount := Z.to_nat n; lib.timeUnit := lib.Days |} = false ->
  (0 < n)%Z.
Proof.
  unfold lib.isZero. cbn [lib.amount]. intros Hn Hz.
  apply Nat.eqb_neq in Hz. lia.
Qed.

Lemma hasChild_app (id : string) (sc sc' : Scope) :
  hasChild id (sc ++ sc')%list = hasChild id sc || hasChild id sc'.
Proof. unfold hasChild. apply existsb_app. Qed.

Lemma hasChild_false_iff (id : string) (sc : Scope) :
  hasChild id sc = false <-> ~ In id sc.
Proof.
  unfold hasChild. split.
  - intros H Hin.
    assert (existsb (String.eqb id) sc = true) as E.
    { apply existsb_exists. exists id. split; [exact Hin|apply String.eqb_refl]. }
    congruence.
  - intros H. destruct (existsb (String.eqb id) sc) eqn:E; [|reflexivity].
    apply existsb_exists in E. destruct E as (x & Hx & Heq).
    apply String.eqb_eq in Heq. subst. contradiction.
Qed.

(** The name of a record is [ARecord] followed by the domain name with its
    separators replaced. *)
Lemma aRecordId_sanitized (r : string) : aRecordId r = "ARecord" ++ sanitizeId r.
Proof. reflexivity. Qed.

(** Two domain names with the same record name are equal after the
    replacement; equal names have the same record name. *)
Lemma aRecordId_eq (r r' : string) :
  aRecordId r = aRecordId r' <-> sanitizeId r = sanitizeId r'.
Proof.
  rewrite !aRecordId_sanitized. split.
  - cbn. intros H. injection H. auto.
  - intros ->. reflexivity.
Qed.

(** Records with distinct names are for distinct domain names. *)
Lemma NoDup_aRecordIds_names (rs : list string) : NoDup (map aRecordId rs) -> NoDup rs.
Proof.
  induction rs as [|r rs IH]; intros H; [constructor|].
  cbn [map] in H. inversion H as [|? ? Hr Hnd]; subst.
  constructor; [|exact (IH Hnd)].
  intros Hin. apply Hr. apply in_map. exact Hin.
Qed.

(** The loop over the domain names: one record per name, in order; it
    completes only when the names of the records are pairwise distinct
    and free. *)
Lemma post_forEach_newARecord (zone : route53.IHostedZone) (ip : string)
  (rs : list string) (Q : list route53.ARecord -> Scope -> Prop) (sc : Scope) :
  (NoDup (map aRecordId rs) -> (forall r, In r rs -> ~ In (aRecordId r) sc) ->
   Q (map (aRecordFor zone ip) rs) (sc ++ map aRecordId rs)%list) ->
  post (forEach (newARecord zone ip) rs) Q sc.
Proof.
  revert Q sc. induction rs as [|r rs IH]; intros Q sc HQ; cbn [forEach].
  - apply post_ret. cbn in HQ. rewrite app_nil_r in HQ.
    apply HQ; [constructor|intros r []].
  - apply post_bind. unfold newARecord at 1.
    apply post_bind, post_newConstruct. intros Hr.
    apply post_ret, post_bind, IH. intros Hnd Hfree.
    apply post_ret. cbn [map]. rewrite <- app_assoc in *. cbn [app] in *.
    fold (aRecordId r) in *. fold (aRecordFor zone ip r).
    apply hasChild_false_iff in Hr.
    apply HQ.
    + constructor; [|exact Hnd].
      intros Hin. apply in_map_iff in Hin. destruct Hin as (r' & Heq & Hin).
      apply (Hfree r' Hin). rewrite Heq. apply in_or_app. right. left. reflexivity.
    + intros r' [<-|Hin]; [exact Hr|].
      intros Hsc. apply (Hfree r' Hin). apply in_or_app. left. exact Hsc.
Qed.

Lemma EasyCerver_post (env : Env) (props : Props.EasyCerverProps)
  (P : EasyCerverStack -> Prop) :
  post (construct env props) (fun st _ => P st) [] ->
  forall st, EasyCerver env props = OK st -> P st.
Proof.
  intros H st E. unfold EasyCerver, run in E.
  destruct (construct env props []) as [[st' sc]|e] eqn:Ec; [|discriminate].
  inversion E; subst. exact (H st sc Ec).
Qed.

Lemma post_sampleSeverTask (rs : list string) (lg : logs.ILogGroup)
  (Q : ecs.Ec2TaskDefinition -> Scope -> Prop) (sc : Scope) :
  (hasChild "NginxTaskDefinition" sc = false ->
   Q (sampleTask rs lg) (sc ++ [ "NginxTaskDefinition" ])%list) ->
  post (sampleSeverTask rs lg) Q sc.
Proof.
  intros HQ. unfold sampleSeverTask.
  apply post_bind, post_newConstruct_plain; [reflexivity|]. intros Hid.
  apply post_ret. exact (HQ Hid).
Qed.

(** One step through the constructor. *)
Ltac synth_step :=
  lazymatch goal with
  | |- let _ := _ in _ => intro
  | |- post (bind _ _) _ _ => apply post_bind
  | |- post (ret _) _ _ => apply post_ret; cbv beta iota
  | |- post (newConstruct _) _ _ =>
      apply post_newConstruct_plain; [reflexivity|intros _]
  | |- post children _ _ => apply post_children
  | |- post (newFileSystem _ _ _ _ _) _ _ =>
      apply post_newFileSystem; [reflexivity|intros _ ?]
  | |- post (newLogGroup _ _ _) _ _ => apply post_newLogGroup; [reflexivity|intros _ _]
  | |- post (lib.days _) _ _ => apply post_days; intros ?
  | |- post (events.rate _) _ _ => apply post_rate; intros ?
  | |- post (forEach (newARecord _ _) _) _ _ =>
      apply post_forEach_newARecord; intros ? _
  | |- post (sampleSeverTask _ _) _ _ => apply post_sampleSeverTask; intros _
  | |- post (match ?x with Some _ => _ | None => _ end) _ _ => destruct x eqn:?
  | |- post (let (_, _) := _ in _) _ _ =>
      cbv beta iota zeta
        delta [allowDefaultPortTo allowDefaultPortFrom ec2.allowTo ec2.allowFrom
               ecs.addContainer]
  end.

Ltac props_cbn :=
  cbn [Props.hostedZoneDomain Props.email Props.recordDomainNames Props.vpc
       Props.securityGroup Props.hostInstanceType Props.hostInstanceSpotPrice
       Props.logGroup Props.certbotDockerTag Props.certbotScheduleInterval
       Props.awsCliDockerTag Props.removalPolicy Props.serverTaskDefinition] in *.

Ltac stack_cbn :=
  cbn [node createdVpc vpc cluster hostAutoScalingGroup hostInstanceIp certFileSystem
       hostedZone records aRecords createdLogGroup logGroup certbotTaskDefinition
       emailSubscription certbotStateMachine certbotScheduleRule serverTaskDefinition
       service].

Ltac synth := unfold construct; props_cbn; repeat synth_step.

(** Everything the later proofs need to know about a constructed stack. *)
Lemma EasyCerver_built (env : Env) (props : Props.EasyCerverProps) (st : EasyCerverStack) :
  EasyCerver env props = OK st -> Built env props st.
Proof.
  revert st. apply EasyCerver_post. destruct props as [? ? ? ? sg ? ? ? ? ? ? ? ?]. synth.
  all: constructor;
         unfold resolvedRecords, resolvedRemovalPolicy, resolvedLogGroup, resolvedInterval,
           givenTask, servedTask, certbotTask, certbotContainer in *;
         props_cbn; stack_cbn; try assumption; try reflexivity.
  all: try (eapply positive_days; eassumption).
  all: destruct sg; reflexivity.
Qed.

(** The children of the stack and the resources around the tasks. *)
Lemma EasyCerver_wired (env : Env) (props : Props.EasyCerverProps) (st : EasyCerverStack) :
  EasyCerver env props = OK st -> Wired env props st.
Proof.
  revert st. apply EasyCerver_post. destruct props as [? ? ? ? sg ? ? ? ? ? ? ? ?]. synth.
  all: constructor;
         unfold expectedChildren, resolvedRecords, hostUserData, whenNone in *;
         props_cbn; stack_cbn; try reflexivity.
  all: try (destruct sg; reflexivity).
  all: cbn [app]; rewrite <- ?app_assoc; reflexivity.
Qed.

(** ** The constructor at some configurations

    A stack for the sample configuration; a repeated domain name, two names
    that differ only in how they write [--], an interval of no days and,
    with the context flag, the snapshot policy are refused. *)

Example sample_accepted :
  exists st, EasyCerver exampleEnv exampleProps = OK st.
Proof. eexists. vm_compute. reflexivity. Qed.

Example repeated_name_refused :
  EasyCerver exampleEnv
    (withRecordDomainNames [ "example.com"; "example.com" ] exampleProps)
  = Throw (DuplicateConstructId "ARecordexample.com").
Proof. vm_compute. reflexivity. Qed.

Example separator_name_refused :
  EasyCerver exampleEnv
    (withRecordDomainNames [ "a/b"; "a--b"; "a/b" ] exampleProps)
  = Throw (DuplicateConstructId "ARecorda--b").
Proof. vm_compute. reflexivity. Qed.

Example zero_interval_refused :
  EasyCerver exampleEnv (withScheduleInterval 0 exampleProps) = Throw ZeroDuration.
Proof. vm_compute. reflexivity. Qed.

Example snapshot_policy_refused :
  EasyCerver validatingEnv (withRemovalPolicy lib.SNAPSHOT exampleProps)
  = Throw (SnapshotNotSupported "AWS::EFS::FileSystem").
Proof. vm_compute. reflexivity. Qed.

(** * The host capacity group *)

(** C3.  Whatever the options, the capacity group of the host is created
    with a minimum capacity of 1 and a maximum capacity of 1. *)
Theorem C3_single_host (env : Env) (props : Props.EasyCerverProps) (st : EasyCerverStack) :
  EasyCerver env props = OK st ->
  ecs.minCapacity (ecs.capacity (hostAutoScalingGroup st)) = Some 1
  /\ ecs.maxCapacity (ecs.capacity (hostAutoScalingGroup st)) = Some 1.
Proof.
  intros E. rewrite (built_capacity _ _ _ (EasyCerver_built env props st E)).
  split; reflexivity.
Qed.

Lemma C3_single_host_witness :
  exists st, EasyCerver exampleEnv exampleProps = OK st
    /\ ecs.minCapacity (ecs.capacity (hostAutoScalingGroup st)) = Some 1
    /\ ecs.maxCapacity (ecs.capacity (hostAutoScalingGroup st)) = Some 1.
Proof.
  eexists. split.
  - vm_compute. reflexivity.
  - apply (C3_single_host exampleEnv exampleProps). vm_compute. reflexivity.
Defined.

(** * The DNS records *)

Lemma recordName_aRecordFor (zone : route53.IHostedZone) (ip r : string) :
  route53.recordName (aRecordFor zone ip r) = r.
Proof. reflexivity. Qed.

Lemma filter_named_absent (zone : route53.IHostedZone) (ip r : string) (rs : list string) :
  ~ In r rs ->
  filter (fun a => route53.recordName a =? r) (map (aRecordFor zone ip) rs) = [].
Proof.
  induction rs as [|x rs IH]; intros Hin; cbn [map filter]; [reflexivity|].
  rewrite recordName_aRecordFor.
  destruct (String.eqb_spec x r) as [->|_].
  - exfalso. apply Hin. left. reflexivity.
  - apply IH. intros H. apply Hin. right. exact H.
Qed.

Lemma filter_named_once (zone : route53.IHostedZone) (ip r : string) (rs : list string) :
  NoDup rs -> In r rs ->
  filter (fun a => route53.recordName a =? r) (map (aRecordFor zone ip) rs)
  = [ aRecordFor zone ip r ].
Proof.
  induction 1 as [|x rs Hx Hnd IH]; intros Hin; [destruct Hin|].
  cbn [map filter]. rewrite recordName_aRecordFor.
  destruct (String.eqb_spec x r) as [->|Hne].
  - rewrite filter_named_absent by exact Hx. reflexivity.
  - destruct Hin as [->|Hin]; [contradiction|]. exact (IH Hin).
Qed.

(** C6.  A valid configuration is one the constructor returns a stack for.
    The stack has one A record for each entry of the resolved list of
    domain names, in the order of the list, and no other: the entries are
    pairwise distinct, the record of an entry is named after it and
    targets the address of the host.  The resolved list is
    [recordDomainNames] when it is given and otherwise the name of the
    hosted zone alone. *)
Theorem C6_one_record_per_name (env : Env) (props : Props.EasyCerverProps)
  (st : EasyCerverStack) :
  EasyCerver env props = OK st ->
  (forall rs, Props.recordDomainNames props = Some rs -> records st = rs)
  /\ (Props.recordDomainNames props = None ->
      records st = [ route53.zoneName (hostedZone st) ])
  /\ aRecords st = map (aRecordFor (hostedZone st) (Ref "HostInstanceIp")) (records st)
  /\ length (aRecords st) = length (records st)
  /\ NoDup (records st)
  /\ (forall r, In r (records st) ->
      recordsNamed r st = [ aRecordFor (hostedZone st) (Ref "HostInstanceIp") r ])
  /\ (forall a, In a (aRecords st) ->
      In (route53.recordName a) (records st)
      /\ route53.target a = route53.fromIpAddresses (Ref "HostInstanceIp")).
Proof.
  intros E.
  destruct (EasyCerver_built env props st E)
    as [Hnd _ _ _ _ _ _ _ Hzone Hrec Harec _ _ _ _ _].
  apply NoDup_aRecordIds_names in Hnd.
  rewrite <- Hrec in Harec, Hnd.
  split; [|split; [|split; [|split; [|split; [|split]]]]].
  - intros rs Hrs. rewrite Hrec. unfold resolvedRecords. rewrite Hrs. reflexivity.
  - intros Hrs. rewrite Hrec, Hzone. unfold resolvedRecords. rewrite Hrs. reflexivity.
  - exact Harec.
  - rewrite Harec at 1. apply length_map.
  - exact Hnd.
  - intros r Hin. unfold recordsNamed. rewrite Harec.
    apply filter_named_once; assumption.
  - intros a Ha. rewrite Harec in Ha. apply in_map_iff in Ha.
    destruct Ha as (r & <- & Hin). split; [exact Hin|reflexivity].
Qed.

Lemma C6_one_record_per_name_witness :
  exists st,
    EasyCerver exampleEnv
      (withRecordDomainNames [ "example.com"; "www.example.com" ] exampleProps) = OK st
    /\ records st = [ "example.com"; "www.example.com" ]
    /\ length (aRecords st) = length (records st)
    /\ recordsNamed "www.example.com" st
       = [ aRecordFor (hostedZone st) (Ref "HostInstanceIp") "www.example.com" ].
Proof.
  eexists. split; [vm_compute; reflexivity|].
  destruct (C6_one_record_per_name exampleEnv
              (withRecordDomainNames [ "example.com"; "www.example.com" ] exampleProps) _
              ltac:(vm_compute; reflexivity))
    as (Hrs & _ & _ & Hlen & _ & Hone & _).
  split; [exact (Hrs _ eq_refl)|]. split; [exact Hlen|].
  apply Hone. rewrite (Hrs _ eq_refl). simpl. auto.
Defined.

(** * Removal policy *)

(** C9, as the code has it.  The file system, and the log group when the
    constructor creates it, get the configured removal policy, [DESTROY]
    when none is configured.  With the option unset or set to [DESTROY] the
    policy is [DESTROY] and neither resource is kept when the stack is
    removed.  With another policy both resources get that policy; they are
    kept when the policy is a retaining one, and with the snapshot policy,
    which the constructor passes on only when the context flag that
    validates it is unset, they are not. *)
Theorem C9_removal_policy (env : Env) (props : Props.EasyCerverProps) (st : EasyCerverStack) :
  EasyCerver env props = OK st ->
  efs.removalPolicy (certFileSystem st) = resolvedRemovalPolicy props
  /\ (Props.logGroup props = None ->
      exists p, createdLogGroup st = Some p
                /\ logs.removalPolicy p = resolvedRemovalPolicy props)
  /\ (forall g, Props.logGroup props = Some g -> createdLogGroup st = None)
  /\ (Props.removalPolicy props = None \/ Props.removalPolicy props = Some lib.DESTROY ->
      resolvedRemovalPolicy props = lib.DESTROY
      /\ lib.retainedOnStackRemoval (resolvedRemovalPolicy props) = false)
  /\ (forall p, Props.removalPolicy props = Some p -> p <> lib.DESTROY ->
      resolvedRemovalPolicy props = p
      /\ (p <> lib.SNAPSHOT ->
          lib.retainedOnStackRemoval (resolvedRemovalPolicy props) = true)
      /\ (p = lib.SNAPSHOT ->
          validateSnapshotRemovalPolicy env = false
          /\ lib.retainedOnStackRemoval (resolvedRemovalPolicy props) = false)).
Proof.
  intros E.
  destruct (EasyCerver_built env props st E) as [_ Hp _ _ _ _ _ Hfs _ _ _ Hlg _ _ _ _].
  rewrite Hfs, Hlg. cbn [efs.removalPolicy].
  split; [reflexivity|]. split; [|split; [|split]].
  - intros ->. eexists. split; reflexivity.
  - intros g ->. reflexivity.
  - unfold resolvedRemovalPolicy. intros [-> | ->]; split; reflexivity.
  - unfold resolvedRemovalPolicy in *. intros p Hcfg Hne. rewrite Hcfg in *.
    cbn [nullish] in *. split; [reflexivity|]. split.
    + intros Hs. destruct p; try reflexivity; contradiction.
    + intros ->. split; [|reflexivity].
      destruct (validateSnapshotRemovalPolicy env); [|reflexivity].
      exfalso. apply Hp; reflexivity.
Qed.

Lemma C9_removal_policy_witness :
  exists st,
    EasyCerver exampleEnv (withRemovalPolicy lib.RETAIN exampleProps) = OK st
    /\ efs.removalPolicy (certFileSystem st) = lib.RETAIN
    /\ (exists p, createdLogGroup st = Some p /\ logs.removalPolicy p = lib.RETAIN)
    /\ lib.retainedOnStackRemoval lib.RETAIN = true.
Proof.
  eexists. split; [vm_compute; reflexivity|].
  destruct (C9_removal_policy exampleEnv (withRemovalPolicy lib.RETAIN exampleProps) _
              ltac:(vm_compute; reflexivity)) as (Hfs & Hlg & _ & _ & Hkeep).
  split; [exact Hfs|]. split; [exact (Hlg eq_refl)|].
  destruct (Hkeep lib.RETAIN eq_refl ltac:(discriminate)) as (_ & Hretain & _).
  apply Hretain. discriminate.
Defined.

(** C9 as stated fails: with the snapshot policy, which is not the
    default one, the constructor returns a stack in the default context,
    the file system has the policy, and it is not kept when the stack is
    removed. *)
Lemma C9_counterexample :
  ~ (forall env props st p,
       EasyCerver env props = OK st ->
       Props.removalPolicy props = Some p -> p <> lib.DESTROY ->
       efs.removalPolicy (certFileSystem st) = p
       /\ lib.retainedOnStackRemoval (efs.removalPolicy (certFileSystem st)) = true).
Proof.
  intros H.
  destruct (H exampleEnv (withRemovalPolicy lib.SNAPSHOT exampleProps) _ lib.SNAPSHOT
              ltac:(vm_compute; reflexivity) eq_refl ltac:(discriminate)) as [_ Hkept].
  vm_compute in Hkept. discriminate.
Qed.

(** * Security groups *)

Lemma ingressRules_app (c : ec2.Connections) (rs1 rs2 : list ec2.Rule) :
  ec2.rules c = (rs1 ++ rs2)%list ->
  ec2.ingressRules c = (filter ec2.isIngress rs1 ++ filter ec2.isIngress rs2)%list.
Proof. intros H. unfold ec2.ingressRules. rewrite H. apply filter_app. Qed.

(** C10, as the code has it.  With a security group of the user's, the
    group is added to the groups of the host's launch configuration and the
    constructor asks for no rule that admits traffic from any address: the
    only ingress rules of the stack are the two on the NFS port between the
    file system and the host, which every configuration gets.  The four
    rules that admit TCP 80 and 443 from any IPv4 and any IPv6 address exist
    exactly when the option is omitted.  The rules of the host are asked
    through its connections, which hold the group the host was created
    with and, in either case, no other. *)
Theorem C10_security_group (env : Env) (props : Props.EasyCerverProps)
  (st : EasyCerverStack) :
  EasyCerver env props = OK st ->
  (forall sg, Props.securityGroup props = Some sg ->
     ecs.securityGroups (hostAutoScalingGroup st) = [ hostSecurityGroup; sg ]
     /\ filter fromAnyAddress (ingressRulesCreated st) = []
     /\ hostIngressRules st = [ fileSystemToHost ]
     /\ fileSystemIngressRules st = [ hostToFileSystem ])
  /\ (Props.securityGroup props = None ->
      ecs.securityGroups (hostAutoScalingGroup st) = [ hostSecurityGroup ]
      /\ filter fromAnyAddress (ingressRulesCreated st) = webIngressRules
      /\ hostIngressRules st = (webIngressRules ++ [ fileSystemToHost ])%list
      /\ fileSystemIngressRules st = [ hostToFileSystem ])
  /\ (forall r, In r webIngressRules ->
      (In r (ingressRulesCreated st) <-> Props.securityGroup props = None))
  /\ ec2.securityGroups (ecs.connections (hostAutoScalingGroup st)) = [ hostSecurityGroup ].
Proof.
  intros E.
  destruct (EasyCerver_built env props st E)
    as [_ _ _ _ Hsg Hconn Hrules Hfs _ _ _ _ _ _ _ _].
  unfold ingressRulesCreated, hostIngressRules, fileSystemIngressRules.
  rewrite (ingressRules_app _ _ _ Hrules), Hfs, Hsg, Hconn.
  destruct (Props.securityGroup props) as [sg|];
    (split; [|split; [|split; [|reflexivity]]]).
  - intros sg' H. injection H as <-. repeat split; reflexivity.
  - discriminate.
  - intros r Hr. split; [|discriminate]. intros Hin. exfalso.
    cbn in Hr, Hin. intuition (subst; discriminate).
  - discriminate.
  - intros _. repeat split; reflexivity.
  - intros r Hr. split; [reflexivity|]. intros _.
    cbn in Hr |- *. intuition.
Qed.

Lemma C10_security_group_witness :
  exists st,
    EasyCerver exampleEnv (withSecurityGroup userSecurityGroup exampleProps) = OK st
    /\ ecs.securityGroups (hostAutoScalingGroup st)
       = [ hostSecurityGroup; userSecurityGroup ]
    /\ filter fromAnyAddress (ingressRulesCreated st) = []
    /\ hostIngressRules st = [ fileSystemToHost ]
    /\ fileSystemIngressRules st = [ hostToFileSystem ].
Proof.
  eexists. split; [vm_compute; reflexivity|].
  apply (C10_security_group exampleEnv (withSecurityGroup userSecurityGroup exampleProps));
    [vm_compute; reflexivity|reflexivity].
Defined.

(** C10 as stated fails: with a security group of the user's the
    constructor still creates ingress rules of its own, among them one on
    the host, from the file system. *)
Lemma C10_counterexample :
  ~ (forall env props sg st,
       Props.securityGroup props = Some sg ->
       EasyCerver env props = OK st ->
       In sg (ecs.securityGroups (hostAutoScalingGroup st))
       /\ hostIngressRules st = []).
Proof.
  intros H.
  destruct (H exampleEnv (withSecurityGroup userSecurityGroup exampleProps)
              userSecurityGroup _ eq_refl ltac:(vm_compute; reflexivity)) as [_ Hnone].
  vm_compute in Hnone. discriminate.
Qed.

(** * The served task *)

Lemma nth_error_mapNth {A : Type} (f : A -> A) (l : list A) (i : nat) :
  nth_error (ecs.mapNth i f l) i = option_map f (nth_error l i).
Proof.
  revert i. induction l as [|x l IH]; intros [|i]; cbn; try reflexivity. apply IH.
Qed.

Lemma length_mapNth {A : Type} (f : A -> A) (l : list A) (i : nat) :
  length (ecs.mapNth i f l) = length l.
Proof.
  revert i. induction l as [|x l IH]; intros [|i]; cbn; try reflexivity.
  f_equal. apply IH.
Qed.

Lemma mapNth_app {A : Type} (f : A -> A) (l l' : list A) (i : nat) :
  i < length l -> ecs.mapNth i f (l ++ l') = (ecs.mapNth i f l ++ l')%list.
Proof.
  revert i. induction l as [|x l IH]; intros [|i] Hi; cbn in *; try lia; try reflexivity.
  f_equal. apply IH. lia.
Qed.

Lemma mapNth_mapNth {A : Type} (f g : A -> A) (l : list A) (i : nat) :
  ecs.mapNth i f (ecs.mapNth i g l) = ecs.mapNth i (fun x => f (g x)) l.
Proof.
  revert i. induction l as [|x l IH]; intros [|i]; cbn; try reflexivity.
  f_equal. apply IH.
Qed.

Lemma withDefaultContainer_some (td : ecs.Ec2TaskDefinition)
  (k : nat -> ecs.Ec2TaskDefinition) (i : nat) (c : ecs.ContainerDefinition) :
  ecs.defaultContainer td = Some i ->
  nth_error (ecs.containers td) i = Some c ->
  ecs.withDefaultContainer td k = k i.
Proof.
  intros Hi Hc. unfold ecs.withDefaultContainer, ecs.defaultContainerOf.
  rewrite Hi, Hc. reflexivity.
Qed.

Lemma withDefaultContainer_none (td : ecs.Ec2TaskDefinition)
  (k : nat -> ecs.Ec2TaskDefinition) :
  ecs.defaultContainerOf td = None -> ecs.withDefaultContainer td k = td.
Proof.
  intros Hnone. unfold ecs.withDefaultContainer. rewrite Hnone.
  destruct (ecs.defaultContainer td); reflexivity.
Qed.

(** The service changes the role of its task and nothing else. *)
Lemma containers_enableExecuteCommand (env : Env) (td : ecs.Ec2TaskDefinition) :
  ecs.containers (enableExecuteCommand env td) = ecs.containers td.
Proof. reflexivity. Qed.

Lemma defaultContainerOf_enableExecuteCommand (env : Env) (td : ecs.Ec2TaskDefinition) :
  ecs.defaultContainerOf (enableExecuteCommand env td) = ecs.defaultContainerOf td.
Proof. reflexivity. Qed.

Lemma volumes_enableExecuteCommand (env : Env) (td : ecs.Ec2TaskDefinition) :
  ecs.volumes (enableExecuteCommand env td) = ecs.volumes td.
Proof. reflexivity. Qed.

Lemma family_enableExecuteCommand (env : Env) (td : ecs.Ec2TaskDefinition) :
  ecs.family (enableExecuteCommand env td) = ecs.family td.
Proof. reflexivity. Qed.

Lemma hasMount_enableExecuteCommand (env : Env) (td : ecs.Ec2TaskDefinition)
  (mp : ecs.MountPoint) :
  hasMount (enableExecuteCommand env td) mp = hasMount td mp.
Proof. reflexivity. Qed.

Ltac served_cbn :=
  rewrite ?containers_enableExecuteCommand, ?defaultContainerOf_enableExecuteCommand,
    ?volumes_enableExecuteCommand, ?hasMount_enableExecuteCommand,
    ?family_enableExecuteCommand.

Lemma servedTask_default (env : Env) (props : Props.EasyCerverProps)
  (td : ecs.Ec2TaskDefinition) (i : nat) (c : ecs.ContainerDefinition) :
  ecs.defaultContainer td = Some i ->
  nth_error (ecs.containers td) i = Some c ->
  ecs.containers (servedTask env props td)
  = (ecs.mapNth i
       (fun c => ecs.addContainerDependencies awsCliDependency
                   (ecs.addMountPoints (certMountPoint true) c))
       (ecs.containers td)
     ++ [ awsCliContainer env props (resolvedLogGroup props) ])%list
  /\ ecs.defaultContainerOf (servedTask env props td)
     = Some (ecs.addContainerDependencies awsCliDependency
               (ecs.addMountPoints (certMountPoint true) c)).
Proof.
  intros Hi Hc.
  assert (i < length (ecs.containers td)) as Hlt.
  { apply nth_error_Some. rewrite Hc. discriminate. }
  unfold servedTask, mountOnDefaultContainer, addAwsCliContainer.
  rewrite (withDefaultContainer_some (ecs.addVolume _ _) _ i c) by (first [exact Hi|exact Hc|exact Hd]).
  rewrite (withDefaultContainer_some _ _ i (ecs.addMountPoints (certMountPoint true) c)).
  2: exact Hi.
  2: { cbn [ecs.updateContainer ecs.containers ecs.addVolume ecs.addToTaskRolePolicy].
       rewrite nth_error_mapNth, Hc. reflexivity. }
  unfold ecs.defaultContainerOf.
  cbn [ecs.addContainer ecs.updateContainer ecs.containers ecs.defaultContainer
       ecs.addVolume ecs.addToTaskRolePolicy].
  rewrite mapNth_app by (rewrite length_mapNth; exact Hlt).
  rewrite mapNth_mapNth.
  split; [reflexivity|].
  unfold ecs.defaultContainerOf.
  cbn [ecs.updateContainer ecs.containers ecs.defaultContainer
       ecs.addVolume ecs.addToTaskRolePolicy].
  rewrite Hi, nth_error_mapNth, Hc. cbn [option_map].
  rewrite nth_error_app1 by (rewrite length_mapNth; exact Hlt).
  rewrite nth_error_mapNth, Hc. reflexivity.
Qed.



(** Without a default container the constructor leaves the containers of
    the task alone. *)
Lemma servedTask_no_default (env : Env) (props : Props.EasyCerverProps)
  (td : ecs.Ec2TaskDefinition) :
  ecs.defaultContainerOf td = None ->
  ecs.containers (servedTask env props td) = ecs.containers td
  /\ ecs.defaultContainerOf (servedTask env props td) = None.
Proof.
  intros Hnone.
  unfold servedTask, mountOnDefaultContainer, addAwsCliContainer.
  rewrite (withDefaultContainer_none (ecs.addVolume _ _) _) by exact Hnone.
  rewrite (withDefaultContainer_none _ _) by exact Hnone.
  split; [reflexivity|exact Hnone].
Qed.

Lemma servedTask_volumes (env : Env) (props : Props.EasyCerverProps)
  (td : ecs.Ec2TaskDefinition) :
  ecs.volumes (servedTask env props td) = (ecs.volumes td ++ [ CERT_VOLUME ])%list.
Proof.
  destruct (ecs.defaultContainerOf td) as [c|] eqn:Hd.
  - unfold ecs.defaultContainerOf in Hd.
    destruct (ecs.defaultContainer td) as [i|] eqn:Hi; [|discriminate].
    unfold servedTask, mountOnDefaultContainer, addAwsCliContainer.
    rewrite (withDefaultContainer_some (ecs.addVolume _ _) _ i c)
      by (first [exact Hi|exact Hd]).
    rewrite (withDefaultContainer_some _ _ i (ecs.addMountPoints (certMountPoint true) c)).
    + reflexivity.
    + exact Hi.
    + cbn [ecs.updateContainer ecs.containers ecs.addVolume ecs.addToTaskRolePolicy].
      rewrite nth_error_mapNth, Hd. reflexivity.
  - unfold servedTask, mountOnDefaultContainer, addAwsCliContainer.
    rewrite (withDefaultContainer_none (ecs.addVolume _ _) _) by exact Hd.
    rewrite (withDefaultContainer_none _ _) by exact Hd.
    reflexivity.
Qed.

Lemma in_mapNth {A : Type} (f : A -> A) (l : list A) (i : nat) (x : A) :
  nth_error l i = Some x -> In (f x) (ecs.mapNth i f l).
Proof.
  intros H. apply (nth_error_In _ i). rewrite nth_error_mapNth, H. reflexivity.
Qed.

(** C2, as the code has it.  In every constructed stack the issuance task
    has the certificate volume and its [certbot] container mounts it
    read-write at [/etc/letsencrypt].  The served task has the same volume;
    its default container, when the task has one, mounts it read-only at the
    same path, and the generated sample task always has one.  A task of the
    user's without a default container gets the volume and no mount. *)
Theorem C2_certificate_mounts (env : Env) (props : Props.EasyCerverProps)
  (st : EasyCerverStack) :
  EasyCerver env props = OK st ->
  (ecs.containers (certbotTaskDefinition st) = [ certbotContainer env props ]
   /\ ecs.containerName (ecs.props (certbotContainer env props)) = "certbot"
   /\ ecs.mountPoints (certbotContainer env props) = [ certMountPoint false ]
   /\ ecs.volumes (certbotTaskDefinition st) = [ CERT_VOLUME ])
  /\ In CERT_VOLUME (ecs.volumes (serverTaskDefinition st))
  /\ (forall c, ecs.defaultContainerOf (serverTaskDefinition st) = Some c ->
      In (certMountPoint true) (ecs.mountPoints c)
      /\ hasMount (serverTaskDefinition st) (certMountPoint true))
  /\ (Props.serverTaskDefinition props = None ->
      hasMount (serverTaskDefinition st) (certMountPoint true))
  /\ (ecs.defaultContainerOf (givenTask env props) = None ->
      ecs.containers (serverTaskDefinition st) = ecs.containers (givenTask env props)).
Proof.
  intros E.
  destruct (EasyCerver_built env props st E) as [_ _ _ _ _ _ _ _ _ _ _ _ _ Hcb _ Hsv].
  rewrite Hcb, Hsv. served_cbn.
  assert (forall c0, ecs.defaultContainerOf (givenTask env props) = Some c0 ->
            ecs.defaultContainerOf (servedTask env props (givenTask env props))
            = Some (ecs.addContainerDependencies awsCliDependency
                      (ecs.addMountPoints (certMountPoint true) c0))
            /\ hasMount (servedTask env props (givenTask env props)) (certMountPoint true))
    as Hdef.
  { intros c0 Hc0. unfold ecs.defaultContainerOf in Hc0.
    destruct (ecs.defaultContainer (givenTask env props)) as [i|] eqn:Hi; [|discriminate].
    destruct (servedTask_default env props _ i c0 Hi Hc0) as [Hcs Hd].
    split; [exact Hd|].
    exists (ecs.addContainerDependencies awsCliDependency
              (ecs.addMountPoints (certMountPoint true) c0)).
    split.
    - rewrite Hcs. apply in_or_app. left.
      apply (in_mapNth (fun c => ecs.addContainerDependencies awsCliDependency
                                   (ecs.addMountPoints (certMountPoint true) c))).
      exact Hc0.
    - cbn. apply in_or_app. right. left. reflexivity. }
  split; [repeat split; reflexivity|].
  split; [rewrite servedTask_volumes; apply in_or_app; right; left; reflexivity|].
  split; [|split].
  - intros c Hc.
    destruct (ecs.defaultContainerOf (givenTask env props)) as [c0|] eqn:Hg.
    + destruct (Hdef c0 eq_refl) as [Hd Hm]. split; [|exact Hm].
      rewrite Hd in Hc. injection Hc as <-.
      cbn. apply in_or_app. right. left. reflexivity.
    + destruct (servedTask_no_default env props _ Hg) as [_ Hn].
      rewrite Hn in Hc. discriminate.
  - intros Hnone. unfold givenTask in *. rewrite Hnone in *.
    exact (proj2 (Hdef _ eq_refl)).
  - intros Hg. exact (proj1 (servedTask_no_default env props _ Hg)).
Qed.

Lemma C2_certificate_mounts_witness :
  exists st,
    EasyCerver exampleEnv exampleProps = OK st
    /\ hasMount (certbotTaskDefinition st) (certMountPoint false)
    /\ hasMount (serverTaskDefinition st) (certMountPoint true).
Proof.
  eexists. split; [vm_compute; reflexivity|].
  destruct (C2_certificate_mounts exampleEnv exampleProps _ ltac:(vm_compute; reflexivity))
    as ((Hc & _ & Hm & _) & _ & _ & Hs & _).
  split; [|exact (Hs eq_refl)].
  eexists. split; [rewrite Hc; left; reflexivity|rewrite Hm; left; reflexivity].
Defined.

(** C2 as stated fails: a task definition of the user's that has no
    default container comes out of the constructor without any mount. *)
Lemma C2_counterexample :
  ~ (forall env props st,
       EasyCerver env props = OK st ->
       hasMount (serverTaskDefinition st) (certMountPoint true)
       /\ hasMount (certbotTaskDefinition st) (certMountPoint false)).
Proof.
  intros H.
  destruct (H exampleEnv (withServerTaskDefinition emptyTaskDefinition exampleProps) _
              ltac:(vm_compute; reflexivity)) as [(c & Hin & _) _].
  vm_compute in Hin. exact Hin.
Qed.

(** C8.  Without [serverTaskDefinition], [sampleSeverTask] generates a task
    with one container, [nginx]; the container has the two port mappings
    80 to 80 and 443 to 443, both TCP, and an environment made from the
    resolved domain names: [SERVER_NAME] is the names joined by spaces and
    [CERT_NAME] is the first name.  In the stack the container is the
    default container of the served task, with these port mappings and
    this environment; the one other container of the task is the [aws-cli]
    container that the constructor adds afterwards, which maps no port. *)
Theorem C8_sample_task (env : Env) (props : Props.EasyCerverProps) (st : EasyCerverStack) :
  EasyCerver env props = OK st ->
  Props.serverTaskDefinition props = None ->
  (forall sc, hasChild "NginxTaskDefinition" sc = false ->
     sampleSeverTask (records st) (logGroup st) sc
     = OK (sampleTask (records st) (logGroup st), (sc ++ [ "NginxTaskDefinition" ])%list))
  /\ records st = resolvedRecords env props
  /\ ecs.containers (sampleTask (records st) (logGroup st))
     = [ nginxContainer (records st) (logGroup st) ]
  /\ ecs.portMappings (nginxContainer (records st) (logGroup st))
     = [ {| ecs.hostPort := 80; ecs.containerPort := 80; ecs.protocol := ecs.TCP |};
         {| ecs.hostPort := 443; ecs.containerPort := 443; ecs.protocol := ecs.TCP |} ]
  /\ ecs.environment (ecs.props (nginxContainer (records st) (logGroup st)))
     = [ ("SERVER_NAME", Some (String.concat " " (records st)));
         ("CERT_NAME", nth_error (records st) 0) ]
  /\ (exists nginx,
        ecs.defaultContainerOf (serverTaskDefinition st) = Some nginx
        /\ ecs.id nginx = "NginxContainer"
        /\ ecs.props nginx = ecs.props (nginxContainer (records st) (logGroup st))
        /\ ecs.portMappings nginx
           = ecs.portMappings (nginxContainer (records st) (logGroup st))
        /\ ecs.containers (serverTaskDefinition st)
           = [ nginx; awsCliContainer env props (logGroup st) ]
        /\ ecs.portMappings (awsCliContainer env props (logGroup st)) = [])
  /\ flat_map ecs.portMappings (ecs.containers (serverTaskDefinition st))
     = ecs.portMappings (nginxContainer (records st) (logGroup st)).
Proof.
  intros E Hnone.
  destruct (EasyCerver_built env props st E) as [_ _ _ _ _ _ _ _ _ Hrec _ _ Hlg _ _ Hsv].
  rewrite Hsv, Hrec, Hlg. served_cbn. unfold givenTask. rewrite Hnone. cbn [nullish].
  destruct (servedTask_default env props
              (sampleTask (resolvedRecords env props) (resolvedLogGroup props)) 0
              (nginxContainer (resolvedRecords env props) (resolvedLogGroup props))
              eq_refl eq_refl) as [_ Hd].
  split; [|split; [|split; [|split; [|split; [|split]]]]]; try reflexivity.
  - intros sc Hsc. unfold sampleSeverTask, bind, newConstruct.
    change (sanitizeId "NginxTaskDefinition") with "NginxTaskDefinition".
    cbv zeta. rewrite Hsc. reflexivity.
  - eexists. split; [exact Hd|]. repeat split; reflexivity.
Qed.

Lemma C8_sample_task_witness :
  exists st,
    EasyCerver exampleEnv exampleProps = OK st
    /\ ecs.containers (sampleTask (records st) (logGroup st))
       = [ nginxContainer (records st) (logGroup st) ]
    /\ ecs.environment (ecs.props (nginxContainer (records st) (logGroup st)))
       = [ ("SERVER_NAME", Some "example.com"); ("CERT_NAME", Some "example.com") ]
    /\ flat_map ecs.portMappings (ecs.containers (serverTaskDefinition st))
       = webPortMappings.
Proof.
  eexists. split; [vm_compute; reflexivity|].
  destruct (C8_sample_task exampleEnv exampleProps _ ltac:(vm_compute; reflexivity) eq_refl)
    as (_ & _ & Hc & _ & He & _ & Hp).
  split; [exact Hc|]. split; [exact He|exact Hp].
Defined.

(** * The renewal workflow *)

Lemma errorEquals_ALL (e : string) :
  sfn.errorEquals [ sfn.ALL ] e = negb (sfn.notMatchedByAll e).
Proof.
  unfold sfn.errorEquals. cbn [existsb]. rewrite String.eqb_refl, orb_false_r.
  cbn [andb]. destruct (sfn.notMatchedByAll e) eqn:Hn; [|apply orb_true_r].
  cbn [negb]. rewrite orb_false_r.
  unfold sfn.notMatchedByAll in Hn. apply orb_true_iff in Hn.
  destruct Hn as [Hn|Hn]; apply String.eqb_eq in Hn; subst; reflexivity.
Qed.

Lemma exec_fail (fuel : nat) (svc : sfn.Services) (input : sfn.Json) (used jobs : nat) :
  sfn.exec (S fuel) certbotWorkflow svc "Fail" input used jobs
  = ([ sfn.ReachedFail "Fail" ], Some sfn.FAILED).
Proof. reflexivity. Qed.

Lemma exec_publish (fuel : nat) (svc : sfn.Services) (input : sfn.Json) (used jobs : nat) :
  sfn.exec (S fuel) certbotWorkflow svc "SendEmailOnFailure" input used jobs
  = match sfn.publish svc "Topic" input with
    | sfn.TaskOk out =>
        let (evs, st) := sfn.exec fuel certbotWorkflow svc "Fail" out 0 jobs in
        (publishCall input :: evs, st)
    | sfn.TaskErr _ _ => ([ publishCall input ], Some sfn.FAILED)
    end.
Proof.
  cbn [sfn.exec].
  change (sfn.findState certbotWorkflow "SendEmailOnFailure") with (Some sendEmailOnFailure).
  cbn [sfn.kind sfn.perform sfn.id sfn.nextState sfn.retries sfn.catches
       sendEmailOnFailure sfn.evalTaskInput].
  change (sfn.evalPath "$" input) with (Some input).
  cbv beta iota.
  destruct (sfn.publish svc "Topic" input) as [out|e c]; reflexivity.
Qed.

Lemma exec_job (fuel : nat) (svc : sfn.Services) (input : sfn.Json) (used jobs : nat) :
  sfn.exec (S fuel) certbotWorkflow svc "CreateCertificate" input used jobs
  = match sfn.runTask svc jobs with
    | sfn.TaskOk _ => ([ jobCall ], Some sfn.SUCCEEDED)
    | sfn.TaskErr e c =>
        if sfn.notMatchedByAll e then ([ jobCall ], Some sfn.FAILED)
        else if Nat.ltb used 3 then
          let (evs, st) :=
            sfn.exec fuel certbotWorkflow svc "CreateCertificate" input (S used) (S jobs) in
          (jobCall :: sfn.Waited (20 * 2 ^ used) :: evs, st)
        else
          let (evs, st) :=
            sfn.exec fuel certbotWorkflow svc "SendEmailOnFailure"
              (sfn.errorOutput e c) 0 (S jobs) in
          (jobCall :: evs, st)
    end.
Proof.
  cbn [sfn.exec].
  change (sfn.findState certbotWorkflow "CreateCertificate") with (Some createCertificate).
  cbn [sfn.kind sfn.perform sfn.id sfn.nextState sfn.retries sfn.catches createCertificate].
  destruct (sfn.runTask svc jobs) as [out|e c]; [reflexivity|].
  unfold sfn.findRetry, sfn.findCatch. cbn [find sfn.retryErrors sfn.catchErrors
    retryEvery20s catchAll].
  rewrite errorEquals_ALL.
  destruct (sfn.notMatchedByAll e); cbn [negb]; [reflexivity|].
  change (sfn.maxAttempts retryEvery20s ?? sfn.DEFAULT_MAX_ATTEMPTS) with 3.
  destruct (Nat.ltb used 3); reflexivity.
Qed.

Lemma runCalls_cons_job (evs : list sfn.Event) : runCalls (jobCall :: evs) = S (runCalls evs).
Proof. reflexivity. Qed.

Lemma runCalls_handler (fuel : nat) (svc : sfn.Services) (input : sfn.Json) (used jobs : nat) :
  runCalls (fst (sfn.exec fuel certbotWorkflow svc "SendEmailOnFailure" input used jobs)) = 0.
Proof.
  destruct fuel as [|fuel]; [reflexivity|]. rewrite exec_publish.
  destruct (sfn.publish svc "Topic" input) as [out|e c]; [|reflexivity].
  destruct fuel as [|fuel]; [reflexivity|]. rewrite exec_fail. reflexivity.
Qed.

(** The issuance job runs at most four times in an execution: once and
    three retries. *)
Lemma runCalls_job (fuel : nat) (svc : sfn.Services) (input : sfn.Json) (used jobs : nat) :
  used <= 3 ->
  runCalls (fst (sfn.exec fuel certbotWorkflow svc "CreateCertificate" input used jobs))
  <= 4 - used.
Proof.
  revert used jobs. induction fuel as [|fuel IH]; intros used jobs Hu; [change (0 <= 4 - used); lia|].
  rewrite exec_job.
  destruct (sfn.runTask svc jobs) as [out|e c];
    [change (1 <= 4 - used); lia|].
  destruct (sfn.notMatchedByAll e); [change (1 <= 4 - used); lia|].
  destruct (Nat.ltb_spec used 3) as [Hlt|Hge].
  - specialize (IH (S used) (S jobs) Hlt).
    destruct (sfn.exec fuel certbotWorkflow svc "CreateCertificate" input (S used) (S jobs))
      as [evs st].
    cbn [fst] in *. rewrite runCalls_cons_job.
    change (runCalls (sfn.Waited (20 * 2 ^ used) :: evs)) with (runCalls evs). lia.
  - pose proof (runCalls_handler fuel svc (sfn.errorOutput e c) 0 (S jobs)) as H0.
    destruct (sfn.exec fuel certbotWorkflow svc "SendEmailOnFailure"
                (sfn.errorOutput e c) 0 (S jobs)) as [evs st].
    cbn [fst] in *. rewrite runCalls_cons_job, H0. lia.
Qed.

(** No wait happens after the catch is taken. *)
Lemma waits_handler (fuel : nat) (svc : sfn.Services) (input : sfn.Json) (used jobs : nat)
  (secs : nat) :
  ~ In (sfn.Waited secs)
       (fst (sfn.exec fuel certbotWorkflow svc "SendEmailOnFailure" input used jobs)).
Proof.
  destruct fuel as [|fuel]; [intros []|].
  rewrite exec_publish.
  destruct (sfn.publish svc "Topic" input) as [out|e c].
  - destruct fuel as [|fuel]; [|rewrite exec_fail]; cbn;
      intros H; decompose [or] H; try discriminate; contradiction.
  - cbn. intros [H|[]]. discriminate H.
Qed.

(** The wait before retry number [k + 1] is 20 seconds doubled [k] times,
    and an execution has no other wait. *)
Lemma waits_job (fuel : nat) (svc : sfn.Services) (input : sfn.Json) :
  forall used jobs secs,
    In (sfn.Waited secs)
       (fst (sfn.exec fuel certbotWorkflow svc "CreateCertificate" input used jobs)) ->
    exists k, used <= k < 3 /\ secs = 20 * 2 ^ k.
Proof.
  induction fuel as [|fuel IH]; intros used jobs secs Hin; [destruct Hin|].
  rewrite exec_job in Hin.
  destruct (sfn.runTask svc jobs) as [out|e c].
  { destruct Hin as [H|[]]. discriminate H. }
  destruct (sfn.notMatchedByAll e).
  { destruct Hin as [H|[]]. discriminate H. }
  destruct (Nat.ltb_spec used 3) as [Hlt|Hge].
  - destruct (sfn.exec fuel certbotWorkflow svc "CreateCertificate" input (S used) (S jobs))
      as [evs st'] eqn:Hnext.
    cbn [fst] in Hin. destruct Hin as [H|[H|Hin]]; [discriminate H| |].
    + injection H as <-. exists used. split; [lia|reflexivity].
    + specialize (IH (S used) (S jobs) secs). rewrite Hnext in IH.
      destruct (IH Hin) as (k & Hk & ->). exists k. split; [lia|reflexivity].
  - destruct (sfn.exec fuel certbotWorkflow svc "SendEmailOnFailure"
                (sfn.errorOutput e c) 0 (S jobs)) as [evs st'] eqn:Hh.
    cbn [fst] in Hin. destruct Hin as [H|Hin]; [discriminate H|].
    exfalso. apply (waits_handler fuel svc (sfn.errorOutput e c) 0 (S jobs) secs).
    rewrite Hh. exact Hin.
Qed.

(** C7, as the code has it.  In every constructed stack the issuance job
    has one retrier: it applies to every error, its interval is 20 seconds,
    and back-off rate and number of attempts are left at their defaults, 2
    and three retries.  So the interval is where the waits start, not what
    they all are: the wait before retry number [k + 1] is 20 seconds
    doubled [k] times, the waits of an execution are of 20, 40 and 80
    seconds, and the job runs at most four times.  The workflow, and the
    retrier with it, is the same for every configuration: no option reaches
    it. *)
Theorem C7_retry_interval (env : Env) (props : Props.EasyCerverProps) (st : EasyCerverStack) :
  EasyCerver env props = OK st ->
  exists job retry,
    sfn.findState (certbotStateMachine st) (sfn.definition (certbotStateMachine st)) = Some job
    /\ sfn.kind job
       = sfn.EcsRunTask "Cluster" "CertbotTaskDefinition" sfn.EcsEc2LaunchTarget
           sfn.RUN_JOB
    /\ sfn.retries job = [ retry ]
    /\ sfn.retryErrors retry = [ sfn.ALL ]
    /\ sfn.interval retry = Some (lib.seconds 20)
    /\ lib.toSeconds (sfn.interval retry ?? sfn.DEFAULT_INTERVAL) = 20
    /\ sfn.retryDelay retry 0 = 20
    /\ sfn.maxAttempts retry ?? sfn.DEFAULT_MAX_ATTEMPTS = 3
    /\ (forall fuel svc input,
          runCalls (fst (sfn.startExecution fuel (certbotStateMachine st) svc input)) <= 4)
    /\ (forall env' props' st',
          EasyCerver env' props' = OK st' -> certbotStateMachine st' = certbotStateMachine st)
    /\ sfn.backoffRate retry = None
    /\ sfn.backoffRate retry ?? sfn.DEFAULT_BACKOFF_RATE = 2
    /\ (forall k, sfn.retryDelay retry k = 20 * 2 ^ k)
    /\ map (sfn.retryDelay retry) [ 0; 1; 2 ] = [ 20; 40; 80 ]
    /\ (forall fuel svc input secs,
          In (sfn.Waited secs)
             (fst (sfn.startExecution fuel (certbotStateMachine st) svc input)) ->
          secs = 20 \/ secs = 40 \/ secs = 80).
Proof.
  intros E.
  rewrite (built_stateMachine _ _ _ (EasyCerver_built env props st E)).
  exists createCertificate, retryEvery20s.
  repeat (split; [reflexivity|]). split; [|split; [|repeat (split; [reflexivity|])]].
  - intros fuel svc input. unfold sfn.startExecution.
    apply (runCalls_job fuel svc input 0 0). lia.
  - intros env' props' st' E'.
    exact (built_stateMachine _ _ _ (EasyCerver_built env' props' st' E')).
  - intros fuel svc input secs Hin. unfold sfn.startExecution in Hin.
    destruct (waits_job fuel svc input 0 0 secs Hin) as (k & Hk & ->).
    assert (k = 0 \/ k = 1 \/ k = 2) as [-> | [-> | ->]] by lia; auto.
Qed.

Lemma C7_retry_interval_witness :
  exists st job retry,
    EasyCerver exampleEnv exampleProps = OK st
    /\ sfn.findState (certbotStateMachine st) (sfn.definition (certbotStateMachine st))
       = Some job
    /\ sfn.retries job = [ retry ]
    /\ sfn.interval retry = Some (lib.seconds 20)
    /\ map (sfn.retryDelay retry) [ 0; 1; 2 ] = [ 20; 40; 80 ].
Proof.
  eexists.
  destruct (C7_retry_interval exampleEnv exampleProps _ ltac:(vm_compute; reflexivity))
    as (job & retry & Hj & _ & Hr & _ & Hi & _ & _ & _ & _ & _ & _ & _ & _ & Hw & _).
  exists job, retry. split; [vm_compute; reflexivity|].
  split; [exact Hj|]. split; [exact Hr|]. split; [exact Hi|exact Hw].
Defined.

(** C7 as stated fails: the retries do not go by a fixed interval of 20
    seconds.  When the job keeps failing, the second retry comes 40 seconds
    after the failure before it. *)
Lemma C7_counterexample :
  ~ (forall env props st svc input fuel secs,
       EasyCerver env props = OK st ->
       In (sfn.Waited secs)
          (fst (sfn.startExecution fuel (certbotStateMachine st) svc input)) ->
       secs = 20).
Proof.
  intros H.
  assert (40 = 20) as Hno; [|discriminate Hno].
  apply (H exampleEnv exampleProps _ failingServices scheduledInput 6 40
           ltac:(vm_compute; reflexivity)).
  vm_compute. right. right. right. left. reflexivity.
Qed.

(** C4, as the code has it.  When the issuance job has failed four times,
    the first run and its three retries, the workflow publishes one message
    to the topic and ends in the terminal state [Fail]: nothing is run again
    after the catch is taken, and a failed publish ends the execution as
    failed too.  The catch branch is the publish step followed by [Fail];
    the publish step has no retrier and no catcher.  The message is the
    whole input of the publish step, and that input is the error output of
    the last failure, which the catch puts in place of the input of the
    execution. *)
Theorem C4_failure_branch (env : Env) (props : Props.EasyCerverProps)
  (st : EasyCerverStack) (svc : sfn.Services) (input : sfn.Json) (e c : nat -> string) :
  EasyCerver env props = OK st ->
  (forall n, n < 4 ->
     sfn.runTask svc n = sfn.TaskErr (e n) (c n) /\ sfn.notMatchedByAll (e n) = false) ->
  (forall fuel, 6 <= fuel ->
     sfn.startExecution fuel (certbotStateMachine st) svc input
     = match sfn.publish svc "Topic" (sfn.errorOutput (e 3) (c 3)) with
       | sfn.TaskOk _ =>
           ((exhaustedAttempts
               ++ [ publishCall (sfn.errorOutput (e 3) (c 3)); sfn.ReachedFail "Fail" ])%list,
            Some sfn.FAILED)
       | sfn.TaskErr _ _ =>
           ((exhaustedAttempts ++ [ publishCall (sfn.errorOutput (e 3) (c 3)) ])%list,
            Some sfn.FAILED)
       end)
  /\ (exists job, sfn.findState (certbotStateMachine st) "CreateCertificate" = Some job
                  /\ sfn.catches job
                     = [ {| sfn.catchErrors := [ sfn.ALL ]; sfn.resultPath := None;
                            sfn.handler := "SendEmailOnFailure" |} ])
  /\ (exists publish,
        sfn.findState (certbotStateMachine st) "SendEmailOnFailure" = Some publish
        /\ sfn.kind publish = sfn.SnsPublish "Topic" (sfn.fromJsonPathAt "$")
        /\ sfn.retries publish = []
        /\ sfn.catches publish = []
        /\ sfn.nextState publish = Some "Fail")
  /\ (exists failed,
        sfn.findState (certbotStateMachine st) "Fail" = Some failed
        /\ sfn.kind failed = sfn.Fail).
Proof.
  intros E Hfail.
  rewrite (built_stateMachine _ _ _ (EasyCerver_built env props st E)).
  split; [|split; [|split]].
  - intros fuel Hfuel.
    destruct fuel as [|[|[|[|[|[|fuel]]]]]]; try lia.
    unfold sfn.startExecution.
    change (sfn.definition certbotWorkflow) with "CreateCertificate".
    destruct (Hfail 0 ltac:(lia)) as [R0 N0]. destruct (Hfail 1 ltac:(lia)) as [R1 N1].
    destruct (Hfail 2 ltac:(lia)) as [R2 N2]. destruct (Hfail 3 ltac:(lia)) as [R3 N3].
    rewrite exec_job, R0, N0. cbn [Nat.ltb Nat.leb].
    rewrite exec_job, R1, N1. cbn [Nat.ltb Nat.leb].
    rewrite exec_job, R2, N2. cbn [Nat.ltb Nat.leb].
    rewrite exec_job, R3, N3. cbn [Nat.ltb Nat.leb].
    rewrite exec_publish.
    destruct (sfn.publish svc "Topic" (sfn.errorOutput (e 3) (c 3))); [|reflexivity].
    rewrite exec_fail. reflexivity.
  - exists createCertificate. split; reflexivity.
  - exists sendEmailOnFailure. repeat split; reflexivity.
  - exists failState. split; reflexivity.
Qed.

Lemma C4_failure_branch_witness :
  sfn.startExecution 6 certbotWorkflow failingServices scheduledInput
  = ((exhaustedAttempts
        ++ [ publishCall (sfn.errorOutput "States.TaskFailed" "certbot exited with 1");
             sfn.ReachedFail "Fail" ])%list,
     Some sfn.FAILED).
Proof.
  destruct (C4_failure_branch exampleEnv exampleProps _ failingServices scheduledInput
              (fun _ => "States.TaskFailed") (fun _ => "certbot exited with 1")
              ltac:(vm_compute; reflexivity)
              ltac:(intros n _; split; reflexivity)) as [Hrun _].
  exact (Hrun 6 ltac:(lia)).
Defined.

(** C4 as stated fails: the message that is published does not contain the
    input that triggered the execution. *)
Lemma C4_counterexample :
  ~ (forall env props st svc input fuel evs status message,
       EasyCerver env props = OK st ->
       (forall n, n < 4 -> exists e c,
          sfn.runTask svc n = sfn.TaskErr e c /\ sfn.notMatchedByAll e = false) ->
       sfn.startExecution fuel (certbotStateMachine st) svc input = (evs, status) ->
       In (publishCall message) evs ->
       sfn.contains message input = true).
Proof.
  intros H.
  specialize (H exampleEnv exampleProps _ failingServices scheduledInput 6 _ _
                (sfn.errorOutput "States.TaskFailed" "certbot exited with 1")
                ltac:(vm_compute; reflexivity)
                ltac:(intros n _; eexists; eexists; split; reflexivity)
                ltac:(vm_compute; reflexivity)).
  assert (sfn.contains (sfn.errorOutput "States.TaskFailed" "certbot exited with 1")
            scheduledInput = true) as Hc.
  { apply H. do 7 right. left. reflexivity. }
  vm_compute in Hc. discriminate.
Qed.

(** * The startup gate *)

Lemma test_ne_left (out : option sfn.ExecutionStatus) :
  GateScript.test_ne (GateScript.words out) "RUNNING" = 0
  <-> exists s, out = Some s /\ s <> sfn.RUNNING.
Proof.
  split.
  - destruct out as [[]|]; cbn; intros H; try discriminate;
      eexists; (split; [reflexivity|discriminate]).
  - intros (s & -> & Hs). destruct s; try reflexivity. contradiction.
Qed.

Lemma test_ne_waiting (out : option sfn.ExecutionStatus) :
  keepsWaiting out -> exists n, GateScript.test_ne (GateScript.words out) "RUNNING" = S n.
Proof. intros [-> | ->]; eexists; reflexivity. Qed.

Lemma not_left_waiting (out : option sfn.ExecutionStatus) :
  GateScript.test_ne (GateScript.words out) "RUNNING" <> 0 -> keepsWaiting out.
Proof.
  destruct out as [[]|]; cbn; intros H; try contradiction; try (left; reflexivity).
  right. reflexivity.
Qed.

(** While every poll finds the execution running, the loop goes on. *)
Lemma until_waiting (k : nat) (cli : GateScript.AwsCli) (arn : string) (n : nat) :
  (forall i, i < k -> keepsWaiting (GateScript.describeExecution cli (n + i) arn)) ->
  GateScript.until k cli arn n = (waitingRounds k arn, None).
Proof.
  revert n. induction k as [|k IH]; intros n Hw; [reflexivity|].
  cbn [GateScript.until waitingRounds].
  destruct (test_ne_waiting _ (Hw 0 ltac:(lia))) as (m & Hm).
  rewrite Nat.add_0_r in Hm. rewrite Hm.
  rewrite IH; [reflexivity|].
  intros i Hi. replace (S n + i) with (n + S i) by lia. apply Hw. lia.
Qed.

(** The loop ends at the first poll that finds a status other than
    [RUNNING], with exit status 0. *)
Lemma until_done (k extra : nat) (cli : GateScript.AwsCli) (arn : string) (n : nat)
  (s : sfn.ExecutionStatus) :
  (forall i, i < k -> keepsWaiting (GateScript.describeExecution cli (n + i) arn)) ->
  GateScript.describeExecution cli (n + k) arn = Some s -> s <> sfn.RUNNING ->
  GateScript.until (S k + extra) cli arn n
  = ((waitingRounds k arn ++ [ GateScript.AwsDescribeExecution arn ])%list, Some 0).
Proof.
  revert n. induction k as [|k IH]; intros n Hw Hs Hne.
  - cbn [GateScript.until waitingRounds Nat.add app]. rewrite Nat.add_0_r in Hs.
    rewrite (proj2 (test_ne_left _)); [reflexivity|].
    exists s. split; assumption.
  - change (S (S k) + extra) with (S (S k + extra)).
    cbn [GateScript.until waitingRounds app].
    destruct (test_ne_waiting _ (Hw 0 ltac:(lia))) as (m & Hm).
    rewrite Nat.add_0_r in Hm. rewrite Hm.
    rewrite (IH (S n)); [reflexivity| |  |exact Hne].
    + intros i Hi. replace (S n + i) with (n + S i) by lia. apply Hw. lia.
    + replace (S n + k) with (n + S k) by lia. exact Hs.
Qed.

(** A loop that has ended has seen a status other than [RUNNING]. *)
Lemma until_exit (fuel : nat) (cli : GateScript.AwsCli) (arn : string) (n : nat)
  (acts : list GateScript.Action) (code : nat) :
  GateScript.until fuel cli arn n = (acts, Some code) ->
  code = 0
  /\ exists k s,
       k < fuel
       /\ (forall i, i < k -> keepsWaiting (GateScript.describeExecution cli (n + i) arn))
       /\ GateScript.describeExecution cli (n + k) arn = Some s /\ s <> sfn.RUNNING
       /\ acts = (waitingRounds k arn ++ [ GateScript.AwsDescribeExecution arn ])%list.
Proof.
  revert n acts. induction fuel as [|fuel IH]; intros n acts H; [discriminate|].
  cbn [GateScript.until] in H.
  destruct (GateScript.test_ne (GateScript.words (GateScript.describeExecution cli n arn))
              "RUNNING") as [|m] eqn:Ht.
  - injection H as <- <-. split; [reflexivity|].
    apply test_ne_left in Ht. destruct Ht as (s & Hs & Hne).
    exists 0, s. rewrite Nat.add_0_r.
    repeat split; try assumption; [lia|intros i Hi; lia].
  - destruct (GateScript.until fuel cli arn (S n)) as [acts' status] eqn:Hu.
    injection H as <- ->.
    destruct (IH _ _ Hu) as (Hcode & k & s & Hk & Hw & Hs & Hne & Hacts).
    split; [exact Hcode|]. exists (S k), s.
    replace (n + S k) with (S n + k) by lia.
    repeat split; try assumption; [lia| |rewrite Hacts; reflexivity].
    intros [|i] Hi.
    + rewrite Nat.add_0_r. apply not_left_waiting. rewrite Ht. discriminate.
    + replace (n + S i) with (S n + i) by lia. apply Hw. lia.
Qed.

Lemma sleeps_waitingRounds (k : nat) (arn : string) :
  GateScript.sleeps (waitingRounds k arn) = repeat 10 k.
Proof. induction k as [|k IH]; [reflexivity|]. cbn. f_equal. exact IH. Qed.

Lemma polls_waitingRounds (k : nat) (arn : string) :
  length (filter GateScript.isPoll (waitingRounds k arn)) = k.
Proof. induction k as [|k IH]; [reflexivity|]. cbn. f_equal. exact IH. Qed.

Lemma starts_waitingRounds (k : nat) (arn : string) :
  filter GateScript.isStart (waitingRounds k arn) = [].
Proof. induction k as [|k IH]; [reflexivity|]. cbn. exact IH. Qed.

Lemma run_started (fuel : nat) (cli : GateScript.AwsCli) (region sm arn : string) :
  GateScript.configureSet cli "region" region = 0 ->
  GateScript.configureSet cli "output" "text" = 0 ->
  GateScript.startExecution cli sm = (0, arn) ->
  GateScript.run fuel cli region sm
  = ((gatePrologue region sm ++ fst (GateScript.until fuel cli arn 0))%list,
     snd (GateScript.until fuel cli arn 0)).
Proof.
  intros H1 H2 H3. unfold GateScript.run. rewrite H1, H2, H3.
  destruct (GateScript.until fuel cli arn 0). reflexivity.
Qed.

(** An execution that has ended has succeeded or failed. *)
Lemma exec_ended (fuel : nat) (sm : sfn.StateMachine) (svc : sfn.Services) (cur : string)
  (input : sfn.Json) (used jobs : nat) (s : sfn.ExecutionStatus) :
  snd (sfn.exec fuel sm svc cur input used jobs) = Some s ->
  s = sfn.SUCCEEDED \/ s = sfn.FAILED.
Proof.
  revert cur input used jobs.
  induction fuel as [|fuel IH]; intros cur input used jobs H; [discriminate|].
  cbn [sfn.exec] in H.
  repeat match type of H with
         | snd (let (_, _) := ?x in _) = _ =>
             let E := fresh "E" in
             destruct x as [? ?] eqn:E; cbn [snd] in H;
             try (apply (f_equal snd) in E; cbn [snd] in E; rewrite H in E;
                  exact (IH _ _ _ _ E))
         | snd (match ?x with _ => _ end) = _ => destruct x
         end;
    cbn [snd] in H; try discriminate;
    injection H as <-; auto.
Qed.

(** C1.  The [aws-cli] container starts one execution of the renewal
    workflow, polls its status every 10 seconds until the status is no
    longer [RUNNING] and then exits with status 0, whatever that status is,
    provided its commands succeed: with the execution found running at the
    first [k] polls and in state [s] at the next, the script makes the one
    start, [k + 1] polls and [k] sleeps of 10 seconds, and an execution of
    the workflow that has ended, in success or in failure, shows such an
    [s].  When the served task has a main (default) container, the helper
    is a container of the task, not essential, running the script under
    bash, and the main container depends on it with condition [COMPLETE]:
    it is not started before the helper has exited, and any exit lets it
    start.  When the task has no default container the constructor adds
    nothing to its containers.  So in no configuration does the outcome of
    the issuance keep the served container from starting. *)
Theorem C1_startup_gate (env : Env) (props : Props.EasyCerverProps) (st : EasyCerverStack)
  (cli : GateScript.AwsCli) (arn : string) (k : nat) (s : sfn.ExecutionStatus) :
  EasyCerver env props = OK st ->
  GateScript.configureSet cli "region" (region env) = 0 ->
  GateScript.configureSet cli "output" "text" = 0 ->
  GateScript.startExecution cli (sfn.stateMachineArn "StateMachine") = (0, arn) ->
  (forall i, i < k -> GateScript.describeExecution cli i arn = Some sfn.RUNNING) ->
  GateScript.describeExecution cli k arn = Some s ->
  s <> sfn.RUNNING ->
  let gate := awsCliContainer env props (logGroup st) in
  let sm := sfn.stateMachineArn "StateMachine" in
  let trace :=
    (gatePrologue (region env) sm
       ++ waitingRounds k arn ++ [ GateScript.AwsDescribeExecution arn ])%list in
  (forall fuel, k < fuel -> GateScript.run fuel cli (region env) sm = (trace, Some 0))
  /\ (length (filter GateScript.isStart trace) = 1
      /\ length (filter GateScript.isPoll trace) = S k
      /\ GateScript.sleeps trace = repeat 10 k)
  /\ (forall fuel svc input t,
        snd (sfn.startExecution fuel (certbotStateMachine st) svc input) = Some t ->
        t <> sfn.RUNNING)
  /\ (ecs.containerName (ecs.props gate) = "aws-cli"
      /\ ecs.isEssential gate = false
      /\ ecs.entryPoint (ecs.props gate) = Some [ "/bin/bash"; "-c" ]
      /\ ecs.command (ecs.props gate) = Some [ Some (GateScript.text (region env) sm) ])
  /\ (forall main, ecs.defaultContainerOf (serverTaskDefinition st) = Some main ->
        In gate (ecs.containers (serverTaskDefinition st))
        /\ In awsCliDependency (ecs.containerDependencies main)
        /\ (forall states, ecs.mayStart states main = true ->
              exists code, states "aws-cli" = ecs.Exited code))
  /\ (forall states code, states "aws-cli" = ecs.Exited code ->
        ecs.dependencyMet states awsCliDependency = true)
  /\ (ecs.defaultContainerOf (serverTaskDefinition st) = None ->
      ecs.containers (serverTaskDefinition st) = ecs.containers (givenTask env props)).
Proof.
  intros E Hc1 Hc2 Hstart Hrun Hs Hne gate sm trace.
  destruct (EasyCerver_built env props st E) as [_ _ _ _ _ _ _ _ _ _ _ _ Hlg _ Hsm Hsv].
  subst gate. rewrite Hlg, Hsv, Hsm. served_cbn.
  split; [|split; [|split; [|split; [|split; [|split]]]]].
  - intros fuel Hfuel.
    rewrite (run_started fuel cli (region env) sm arn Hc1 Hc2 Hstart).
    replace fuel with (S k + (fuel - S k)) by lia.
    rewrite (until_done k (fuel - S k) cli arn 0 s); [reflexivity| |exact Hs|exact Hne].
    intros i Hi. left. apply Hrun. exact Hi.
  - subst trace. split; [|split].
    + rewrite !filter_app, starts_waitingRounds. reflexivity.
    + rewrite !filter_app, !length_app, polls_waitingRounds. cbn. lia.
    + unfold GateScript.sleeps. rewrite !flat_map_app.
      fold (GateScript.sleeps (waitingRounds k arn)). rewrite sleeps_waitingRounds.
      cbn. apply app_nil_r.
  - intros fuel svc input t Ht. unfold sfn.startExecution in Ht.
    destruct (exec_ended _ _ _ _ _ _ _ _ Ht) as [-> | ->]; discriminate.
  - repeat split; reflexivity.
  - intros main Hmain.
    assert (In awsCliDependency (ecs.containerDependencies main)
            /\ In (awsCliContainer env props (resolvedLogGroup props))
                 (ecs.containers (servedTask env props (givenTask env props))))
      as [Hdep Hin].
    { destruct (ecs.defaultContainerOf (givenTask env props)) as [c0|] eqn:Hg.
      - unfold ecs.defaultContainerOf in Hg.
        destruct (ecs.defaultContainer (givenTask env props)) as [i|] eqn:Hi;
          [|discriminate].
        destruct (servedTask_default env props _ i c0 Hi Hg) as [Hcs Hd].
        rewrite Hd in Hmain. injection Hmain as <-. split.
        + cbn. apply in_or_app. right. left. reflexivity.
        + rewrite Hcs. apply in_or_app. right. left. reflexivity.
      - destruct (servedTask_no_default env props _ Hg) as [_ Hn].
        rewrite Hn in Hmain. discriminate. }
    split; [exact Hin|]. split; [exact Hdep|].
    intros states Hmay. unfold ecs.mayStart in Hmay.
    rewrite forallb_forall in Hmay. specialize (Hmay _ Hdep).
    unfold ecs.dependencyMet in Hmay.
    cbn [awsCliDependency ecs.condition ecs.container] in Hmay.
    destruct (states "aws-cli") as [|h|code]; try discriminate.
    exists code. reflexivity.
  - intros states code Hex. unfold ecs.dependencyMet.
    cbn [awsCliDependency ecs.condition ecs.container]. rewrite Hex. reflexivity.
  - intros Hnone.
    destruct (ecs.defaultContainerOf (givenTask env props)) as [c0|] eqn:Hg.
    + unfold ecs.defaultContainerOf in Hg.
      destruct (ecs.defaultContainer (givenTask env props)) as [i|] eqn:Hi;
        [|discriminate].
      destruct (servedTask_default env props _ i c0 Hi Hg) as [_ Hd].
      rewrite Hd in Hnone. discriminate.
    + exact (proj1 (servedTask_no_default env props _ Hg)).
Qed.

Lemma C1_startup_gate_witness :
  exists st main,
    EasyCerver exampleEnv exampleProps = OK st
    /\ ecs.defaultContainerOf (serverTaskDefinition st) = Some main
    /\ In awsCliDependency (ecs.containerDependencies main)
    /\ GateScript.run 3 exampleCli (region exampleEnv) (sfn.stateMachineArn "StateMachine")
       = ((gatePrologue (region exampleEnv) (sfn.stateMachineArn "StateMachine")
             ++ waitingRounds 2 "arn:aws:states:execution:1"
             ++ [ GateScript.AwsDescribeExecution "arn:aws:states:execution:1" ])%list,
          Some 0).
Proof.
  eexists. eexists.
  split; [vm_compute; reflexivity|]. split; [vm_compute; reflexivity|].
  destruct (C1_startup_gate exampleEnv exampleProps _ exampleCli
              "arn:aws:states:execution:1" 2 sfn.FAILED
              ltac:(vm_compute; reflexivity) eq_refl eq_refl eq_refl
              ltac:(intros [|[|i]] Hi; [reflexivity|reflexivity|lia])
              eq_refl ltac:(discriminate))
    as (Hrun & _ & _ & _ & Hmain & _).
  split; [|exact (Hrun 3 ltac:(lia))].
  exact (proj1 (proj2 (Hmain _ ltac:(vm_compute; reflexivity)))).
Defined.

(** C5.  The script of the [aws-cli] container bounds its loop by nothing
    but the status it polls.  Once the execution is started, as long as
    every poll finds it running (or fails), the script is still in the loop
    after any number [n] of polls, having slept 10 seconds after each; it
    leaves the loop only at a poll that shows a status other than
    [RUNNING], and then with exit status 0.  If the execution never leaves
    the running state the script never exits. *)
Theorem C5_unbounded_wait (env : Env) (props : Props.EasyCerverProps)
  (logGroup : logs.ILogGroup) (cli : GateScript.AwsCli) (arn : string) :
  GateScript.configureSet cli "region" (region env) = 0 ->
  GateScript.configureSet cli "output" "text" = 0 ->
  GateScript.startExecution cli (sfn.stateMachineArn "StateMachine") = (0, arn) ->
  let sm := sfn.stateMachineArn "StateMachine" in
  ecs.command (ecs.props (awsCliContainer env props logGroup))
  = Some [ Some (GateScript.text (region env) sm) ]
  /\ (forall n,
        (forall i, i < n -> keepsWaiting (GateScript.describeExecution cli i arn)) ->
        GateScript.run n cli (region env) sm
        = ((gatePrologue (region env) sm ++ waitingRounds n arn)%list, None)
        /\ GateScript.sleeps (gatePrologue (region env) sm ++ waitingRounds n arn)
           = repeat 10 n)
  /\ (forall fuel acts code,
        GateScript.run fuel cli (region env) sm = (acts, Some code) ->
        code = 0
        /\ exists k t,
             k < fuel
             /\ GateScript.describeExecution cli k arn = Some t /\ t <> sfn.RUNNING
             /\ (forall i, i < k -> keepsWaiting (GateScript.describeExecution cli i arn))
             /\ acts = (gatePrologue (region env) sm ++ waitingRounds k arn
                          ++ [ GateScript.AwsDescribeExecution arn ])%list)
  /\ ((forall i, GateScript.describeExecution cli i arn = Some sfn.RUNNING) ->
      forall fuel, snd (GateScript.run fuel cli (region env) sm) = None).
Proof.
  intros Hc1 Hc2 Hstart sm.
  assert (forall n,
            (forall i, i < n -> keepsWaiting (GateScript.describeExecution cli i arn)) ->
            GateScript.run n cli (region env) sm
            = ((gatePrologue (region env) sm ++ waitingRounds n arn)%list, None)) as Hgo.
  { intros n Hw. rewrite (run_started n cli (region env) sm arn Hc1 Hc2 Hstart).
    rewrite (until_waiting n cli arn 0 Hw). reflexivity. }
  split; [reflexivity|]. split; [|split].
  - intros n Hw. split; [exact (Hgo n Hw)|].
    unfold GateScript.sleeps. rewrite flat_map_app.
    fold (GateScript.sleeps (waitingRounds n arn)). rewrite sleeps_waitingRounds.
    reflexivity.
  - intros fuel acts code Hr.
    rewrite (run_started fuel cli (region env) sm arn Hc1 Hc2 Hstart) in Hr.
    destruct (GateScript.until fuel cli arn 0) as [acts' status] eqn:Hu.
    cbn [fst snd] in Hr. injection Hr as <- ->.
    destruct (until_exit fuel cli arn 0 _ _ Hu) as (Hcode & k & t & Hk & Hw & Ht & Hne & Ha).
    split; [exact Hcode|]. exists k, t. cbn [Nat.add] in *.
    repeat split; try assumption. rewrite Ha. reflexivity.
  - intros Hstuck fuel. rewrite (Hgo fuel); [reflexivity|].
    intros i _. left. apply Hstuck.
Qed.

Lemma C5_unbounded_wait_witness :
  snd (GateScript.run 100 stuckCli (region exampleEnv) (sfn.stateMachineArn "StateMachine"))
  = None.
Proof.
  destruct (C5_unbounded_wait exampleEnv exampleProps (resolvedLogGroup exampleProps)
              stuckCli "arn:aws:states:execution:1" eq_refl eq_refl eq_refl)
    as (_ & _ & _ & Hstuck).
  apply Hstuck. intros i. reflexivity.
Defined.

(** * What the constructor refuses

    Three conditions on the configuration that a returned stack implies:
    a configuration that breaks one of them gets no stack. *)

(** X1.  With the context flag that validates snapshot policies, the
    snapshot removal policy is refused whatever the rest of the
    configuration is: the constructor throws and returns no stack.  Without
    the flag the policy does not stop the constructor. *)
Theorem X1_snapshot_refused (env : Env) (props : Props.EasyCerverProps) :
  validateSnapshotRemovalPolicy env = true ->
  Props.removalPolicy props = Some lib.SNAPSHOT ->
  exists e, EasyCerver env props = Throw e.
Proof.
  intros Hflag Hp.
  destruct (EasyCerver env props) as [st|e] eqn:E; [|exists e; reflexivity].
  exfalso.
  apply (built_policy _ _ _ (EasyCerver_built env props st E) Hflag).
  unfold resolvedRemovalPolicy. rewrite Hp. reflexivity.
Qed.

Lemma X1_snapshot_refused_witness :
  exists e, EasyCerver validatingEnv (withRemovalPolicy lib.SNAPSHOT exampleProps) = Throw e.
Proof.
  apply (X1_snapshot_refused validatingEnv (withRemovalPolicy lib.SNAPSHOT exampleProps));
    reflexivity.
Defined.

Lemma NoDup_map_injective {A B : Type} (f : A -> B) (l : list A) :
  NoDup (map f l) -> forall x y, In x l -> In y l -> f x = f y -> x = y.
Proof.
  induction l as [|a l IH]; intros H x y Hx Hy Heq; [destruct Hx|].
  cbn [map] in H. inversion H as [|? ? Ha Hnd]; subst.
  destruct Hx as [->|Hx], Hy as [->|Hy].
  - reflexivity.
  - exfalso. apply Ha. rewrite Heq. apply in_map. exact Hy.
  - exfalso. apply Ha. rewrite <- Heq. apply in_map. exact Hx.
  - exact (IH Hnd x y Hx Hy Heq).
Qed.

Lemma NoDup_sanitized (rs : list string) :
  NoDup (map aRecordId rs) -> NoDup (map sanitizeId rs).
Proof.
  induction rs as [|r rs IH]; intros H; [constructor|].
  cbn [map] in *. inversion H as [|? ? Hr Hnd]; subst.
  constructor; [|exact (IH Hnd)].
  intros Hin. apply Hr. apply in_map_iff in Hin. destruct Hin as (r' & Heq & Hin).
  apply in_map_iff. exists r'. split; [|exact Hin].
  apply aRecordId_eq. exact Heq.
Qed.

(** X2.  A list of domain names in which a name occurs twice is refused,
    and so is a list with two names that differ only in writing [/] for
    [--]: in a constructed stack the domain names are pairwise distinct
    even after every [/] is replaced by [--], as the construct tree does
    with the ids of the records. *)
Theorem X2_repeated_name_refused (env : Env) (props : Props.EasyCerverProps)
  (st : EasyCerverStack) :
  EasyCerver env props = OK st ->
  NoDup (map sanitizeId (records st))
  /\ NoDup (records st)
  /\ (forall r r', In r (records st) -> In r' (records st) ->
        sanitizeId r = sanitizeId r' -> r = r').
Proof.
  intros E.
  destruct (EasyCerver_built env props st E) as [Hnd _ _ _ _ _ _ _ _ Hrec _ _ _ _ _ _].
  rewrite Hrec. apply NoDup_sanitized in Hnd.
  split; [exact Hnd|]. split.
  - clear -Hnd. induction (resolvedRecords env props) as [|r rs IH]; [constructor|].
    cbn [map] in Hnd. inversion Hnd as [|? ? Hr Hnd']; subst.
    constructor; [|exact (IH Hnd')]. intros Hin. apply Hr. apply in_map. exact Hin.
  - exact (NoDup_map_injective sanitizeId _ Hnd).
Qed.

Lemma X2_repeated_name_refused_witness :
  exists st,
    EasyCerver exampleEnv
      (withRecordDomainNames [ "example.com"; "www.example.com" ] exampleProps) = OK st
    /\ NoDup (map sanitizeId (records st))
    /\ NoDup (records st).
Proof.
  eexists. split; [vm_compute; reflexivity|].
  destruct (X2_repeated_name_refused exampleEnv
              (withRecordDomainNames [ "example.com"; "www.example.com" ] exampleProps) _
              ltac:(vm_compute; reflexivity)) as (Hs & Hn & _).
  split; [exact Hs|exact Hn].
Defined.

(** X3.  A renewal interval of no days, or of a negative number of days, is
    refused: in a constructed stack the interval, 60 days when none is
    configured, is positive, and the rule runs the state machine at that
    rate. *)
Theorem X3_interval_positive (env : Env) (props : Props.EasyCerverProps)
  (st : EasyCerverStack) :
  EasyCerver env props = OK st ->
  (0 < Props.certbotScheduleInterval props ?? 60)%Z
  /\ (Props.certbotScheduleInterval props = None ->
      certbotScheduleRule st
      = {| events.schedule := events.rateExpression {| lib.amount := 60;
                                                       lib.timeUnit := lib.Days |};
           events.targets := [ "StateMachine" ] |})
  /\ (forall n, Props.certbotScheduleInterval props = Some n ->
      (0 < n)%Z
      /\ certbotScheduleRule st
         = {| events.schedule :=
                events.rateExpression {| lib.amount := Z.to_nat n;
                                         lib.timeUnit := lib.Days |};
              events.targets := [ "StateMachine" ] |}).
Proof.
  intros E.
  destruct (EasyCerver_wired env props st E) as [_ _ _ _ _ _ _ _ _ Hrule _].
  pose proof (built_interval _ _ _ (EasyCerver_built env props st E)) as Hpos.
  rewrite Hrule. unfold resolvedInterval in *.
  split; [exact Hpos|]. split.
  - intros ->. reflexivity.
  - intros n Hn. rewrite Hn in *. split; [exact Hpos|reflexivity].
Qed.

Lemma X3_interval_positive_witness :
  exists st,
    EasyCerver exampleEnv sharedResourcesProps = OK st
    /\ certbotScheduleRule st
       = {| events.schedule :=
              events.rateExpression {| lib.amount := 30; lib.timeUnit := lib.Days |};
            events.targets := [ "StateMachine" ] |}.
Proof.
  eexists. split; [vm_compute; reflexivity|].
  destruct (X3_interval_positive exampleEnv sharedResourcesProps _
              ltac:(vm_compute; reflexivity)) as (_ & _ & Hn).
  exact (proj2 (Hn 30%Z eq_refl)).
Defined.

(** * The construct tree and the resources of the user *)

Lemma servedTask_frame (env : Env) (props : Props.EasyCerverProps)
  (td : ecs.Ec2TaskDefinition) :
  ecs.family (servedTask env props td) = ecs.family td
  /\ ecs.defaultContainer (servedTask env props td) = ecs.defaultContainer td
  /\ ecs.taskRolePolicy (servedTask env props td)
     = (ecs.taskRolePolicy td ++ servedTaskGrants)%list.
Proof.
  destruct (ecs.defaultContainerOf td) as [c|] eqn:Hd.
  - unfold ecs.defaultContainerOf in Hd.
    destruct (ecs.defaultContainer td) as [i|] eqn:Hi; [|discriminate].
    unfold servedTask, mountOnDefaultContainer, addAwsCliContainer.
    rewrite (withDefaultContainer_some (ecs.addVolume _ _) _ i c)
      by (first [exact Hi|exact Hd]).
    rewrite (withDefaultContainer_some _ _ i (ecs.addMountPoints (certMountPoint true) c)).
    + cbn [ecs.addContainer ecs.updateContainer ecs.addVolume ecs.addToTaskRolePolicy
           ecs.family ecs.defaultContainer ecs.taskRolePolicy ecs.containers].
      unfold ecs.defaultContainerOf.
      cbn [ecs.addContainer ecs.updateContainer ecs.addVolume ecs.addToTaskRolePolicy
           ecs.family ecs.defaultContainer ecs.taskRolePolicy ecs.containers].
      rewrite Hi, nth_error_mapNth, Hd. cbn [option_map].
      rewrite <- !app_assoc. repeat split; reflexivity.
    + exact Hi.
    + cbn [ecs.updateContainer ecs.containers ecs.addVolume ecs.addToTaskRolePolicy].
      rewrite nth_error_mapNth, Hd. reflexivity.
  - unfold servedTask, mountOnDefaultContainer, addAwsCliContainer.
    rewrite (withDefaultContainer_none (ecs.addVolume _ _) _) by exact Hd.
    rewrite (withDefaultContainer_none _ _) by exact Hd.
    cbn [ecs.addVolume ecs.addToTaskRolePolicy
         ecs.family ecs.defaultContainer ecs.taskRolePolicy].
    rewrite <- !app_assoc. repeat split; reflexivity.
Qed.

Lemma distinctb_NoDup (l : list string) : distinctb l = true -> NoDup l.
Proof.
  induction l as [|x l IH]; intros H; [constructor|].
  cbn [distinctb] in H. apply andb_true_iff in H. destruct H as [Hx Hl].
  constructor; [|exact (IH Hl)].
  apply hasChild_false_iff. destruct (hasChild x l); [discriminate|reflexivity].
Qed.

Lemma aRecordId_prefix (r : string) : prefix "ARecord" (aRecordId r) = true.
Proof. rewrite aRecordId_sanitized. cbn. destruct (sanitizeId r); reflexivity. Qed.

Lemma NoDup_around_records (c1 c2 rs : list string) :
  distinctb (c1 ++ c2) = true ->
  forallb notARecordId (c1 ++ c2) = true ->
  NoDup (map aRecordId rs) ->
  NoDup (c1 ++ map aRecordId rs ++ c2).
Proof.
  intros Hd Hp Hrs. apply distinctb_NoDup in Hd.
  rewrite forallb_forall in Hp.
  assert (forall x, In x (map aRecordId rs) -> ~ In x (c1 ++ c2)) as Hsep.
  { intros x Hx Hin. apply in_map_iff in Hx. destruct Hx as (r & <- & _).
    specialize (Hp _ Hin). unfold notARecordId in Hp.
    rewrite aRecordId_prefix in Hp. discriminate. }
  apply NoDup_app.
  - exact (NoDup_app_remove_r _ _ Hd).
  - apply NoDup_app.
    + exact Hrs.
    + exact (NoDup_app_remove_l _ _ Hd).
    + intros x Hx Hin. apply (Hsep x Hx). apply in_or_app. right. exact Hin.
  - intros x Hx Hin. apply in_app_or in Hin. destruct Hin as [Hin|Hin].
    + apply (Hsep x Hin). apply in_or_app. left. exact Hx.
    + clear -Hd Hx Hin. induction c1 as [|y c1 IH]; [destruct Hx|].
      cbn [app] in Hd. inversion Hd as [|? ? Hy Hd']; subst.
      destruct Hx as [->|Hx]; [|exact (IH Hd' Hx)].
      apply Hy. apply in_or_app. right. exact Hin.
Qed.

(** X4.  The children of a constructed stack are those of
    [expectedChildren], in creation order, and their names are pairwise
    distinct; the A records are the children named [ARecord<name>] with
    every [/] of the name replaced by [--], one for each domain name, in
    the order of the names. *)
Theorem X4_children (env : Env) (props : Props.EasyCerverProps) (st : EasyCerverStack) :
  EasyCerver env props = OK st ->
  node st = expectedChildren env props
  /\ NoDup (node st)
  /\ map route53.id (aRecords st) = map aRecordId (records st)
  /\ (forall a, In a (aRecords st) -> In (route53.id a) (node st)).
Proof.
  intros E.
  destruct (EasyCerver_wired env props st E) as [Hnode _ _ _ _ _ _ _ _ _ _].
  destruct (EasyCerver_built env props st E) as [Hnd _ _ _ _ _ _ _ _ Hrec Harec _ _ _ _ _].
  assert (map route53.id (aRecords st) = map aRecordId (records st)) as Hids.
  { rewrite Harec, Hrec, map_map. reflexivity. }
  split; [exact Hnode|]. split; [|split; [exact Hids|]].
  - rewrite Hnode. unfold expectedChildren, whenNone.
    destruct (Props.vpc props), (Props.logGroup props), (Props.serverTaskDefinition props);
      cbn [app];
      match goal with
      | |- NoDup (?a :: ?b :: ?c :: ?d :: ?e :: ?f :: map aRecordId ?rs ++ ?c2) =>
          apply (NoDup_around_records [a; b; c; d; e; f] c2 rs); [reflexivity|reflexivity|exact Hnd]
      | |- NoDup (?a :: ?b :: ?c :: ?d :: ?e :: map aRecordId ?rs ++ ?c2) =>
          apply (NoDup_around_records [a; b; c; d; e] c2 rs); [reflexivity|reflexivity|exact Hnd]
      end.
  - intros a Hin. rewrite Hnode. unfold expectedChildren.
    apply in_or_app. right. apply in_or_app. right. apply in_or_app. left.
    rewrite <- Hrec, <- Hids. apply in_map. exact Hin.
Qed.

Lemma X4_children_witness :
  exists st,
    EasyCerver exampleEnv
      (withRecordDomainNames [ "example.com"; "example.com/blog" ] exampleProps) = OK st
    /\ node st
       = [ "Vpc"; "Cluster"; "HostInstanceIp"; "FileSystemSecurityGroup"; "FileSystem";
           "HostedZone"; "ARecordexample.com"; "ARecordexample.com--blog"; "LogGroup";
           "CertbotTaskDefinition"; "Topic"; "EmailSubscription"; "CreateCertificate";
           "SendEmailOnFailure"; "Fail"; "StateMachine"; "CertbotScheduleRule";
           "NginxTaskDefinition"; "Service" ]
    /\ NoDup (node st).
Proof.
  eexists. split; [vm_compute; reflexivity|].
  destruct (X4_children exampleEnv
              (withRecordDomainNames [ "example.com"; "example.com/blog" ] exampleProps) _
              ltac:(vm_compute; reflexivity))
    as (Hn & Hd & _).
  split; [exact Hn|exact Hd].
Defined.

Ltac absent :=
  let Hin := fresh "Hin" in
  let r := fresh "r" in
  let Hr := fresh "Hr" in
  intros Hin;
  repeat (destruct Hin as [Hin|Hin]; [discriminate Hin|]);
  apply in_app_or in Hin; destruct Hin as [Hin|Hin];
  [ apply in_map_iff in Hin; destruct Hin as (r & Hr & _);
    rewrite aRecordId_sanitized in Hr; cbn in Hr; discriminate Hr
  | repeat (destruct Hin as [Hin|Hin]; [discriminate Hin|]); exact Hin ].

(** X5.  A resource that the configuration supplies is used and not
    created again: with [vpc] the cluster and the file system are in that
    network and the stack has no child [Vpc]; with [logGroup] no log group
    is created; with [serverTaskDefinition] the service runs that task and
    no sample task is created.  Without the option the resource is a child
    of the stack. *)
Theorem X5_supplied_resources (env : Env) (props : Props.EasyCerverProps)
  (st : EasyCerverStack) :
  EasyCerver env props = OK st ->
  (ecs.vpc (cluster st) = vpc st /\ efs.vpc (certFileSystem st) = vpc st)
  /\ (forall v, Props.vpc props = Some v ->
        vpc st = v /\ createdVpc st = None /\ ~ In "Vpc" (node st))
  /\ (Props.vpc props = None ->
        createdVpc st
        = Some {| ec2.natGateways := 0;
                  ec2.subnetConfiguration := [ ("PublicSubnet", ec2.PUBLIC) ] |}
        /\ In "Vpc" (node st))
  /\ (forall g, Props.logGroup props = Some g ->
        logGroup st = g /\ createdLogGroup st = None /\ ~ In "LogGroup" (node st))
  /\ (Props.logGroup props = None ->
        logGroup st = {| logs.logGroupName := Ref "LogGroup" |}
        /\ In "LogGroup" (node st))
  /\ (forall td, Props.serverTaskDefinition props = Some td ->
        ecs.taskDefinition (service st) = ecs.family td
        /\ ~ In "NginxTaskDefinition" (node st))
  /\ (Props.serverTaskDefinition props = None ->
        ecs.taskDefinition (service st) = "NginxTaskDefinition"
        /\ In "NginxTaskDefinition" (node st)).
Proof.
  intros E.
  destruct (EasyCerver_wired env props st E)
    as [Hnode Hvpc Hcv Hcl _ _ _ _ _ _ Hsvc].
  destruct (EasyCerver_built env props st E)
    as [_ _ _ _ _ _ _ Hfs _ _ _ Hclg Hlg _ _ Hsv].
  rewrite Hnode, Hcl, Hfs, Hvpc, Hcv, Hclg, Hlg, Hsvc, Hsv. served_cbn.
  rewrite (proj1 (servedTask_frame env props (givenTask env props))).
  unfold expectedChildren, whenNone, resolvedLogGroup, givenTask.
  cbn [ecs.vpc efs.vpc ecs.taskDefinition].
  split; [split; reflexivity|].
  destruct (Props.vpc props) as [v|], (Props.logGroup props) as [g|],
    (Props.serverTaskDefinition props) as [td|]; cbn [nullish app].
  all: repeat match goal with
         | |- _ /\ _ => split
         | |- forall _, Some _ = Some _ -> _ => intros ? [= <-]
         | |- forall _, None = Some _ -> _ => intros ? [=]
         | |- None = None -> _ => intros _
         | |- Some _ = None -> _ => intros [=]
         | |- ~ In _ _ => absent
         | |- In _ _ => cbn; rewrite ?in_app_iff; cbn; tauto
         | |- _ = _ => reflexivity
         end.
Qed.

Lemma X5_supplied_resources_witness :
  exists st,
    EasyCerver exampleEnv sharedResourcesProps = OK st
    /\ vpc st = {| ec2.vpcId := "vpc-0a1b2c3d" |}
    /\ createdVpc st = None
    /\ ~ In "Vpc" (node st)
    /\ logGroup st = {| logs.logGroupName := "/shared/web" |}
    /\ In "NginxTaskDefinition" (node st).
Proof.
  eexists. split; [vm_compute; reflexivity|].
  destruct (X5_supplied_resources exampleEnv sharedResourcesProps _
              ltac:(vm_compute; reflexivity))
    as (_ & Hv & _ & Hg & _ & _ & Ht).
  destruct (Hv _ eq_refl) as (Hv1 & Hv2 & Hv3).
  destruct (Hg _ eq_refl) as (Hg1 & _).
  destruct (Ht eq_refl) as (_ & Ht2).
  repeat split; assumption.
Defined.

(** * The address of the host and the command of [certbot] *)

(** X6.  The host runs what the cluster gives every capacity group to run
    and then the three commands of the constructor, which look the address
    up by the very [Name] tag the constructor puts on the elastic address;
    besides what the cluster allows it, the host may describe and
    associate addresses; and every A record points at that address. *)
Theorem X6_elastic_ip (env : Env) (props : Props.EasyCerverProps) (st : EasyCerverStack) :
  EasyCerver env props = OK st ->
  exists tag,
    ec2.tags (hostInstanceIp st) = [ ("Name", tag) ]
    /\ tag = uniqueId env "HostInstanceIp"
    /\ ecs.userData (hostAutoScalingGroup st)
       = (capacityUserData env ++ hostUserData env props tag)%list
    /\ skipn (length (capacityUserData env)) (ecs.userData (hostAutoScalingGroup st))
       = hostUserData env props tag
    /\ ecs.principalPolicy (hostAutoScalingGroup st)
       = (capacityRolePolicy env
          ++ [ allow [ "ec2:DescribeAddresses"; "ec2:AssociateAddress" ] [ "*" ] ])%list
    /\ (forall a, In a (aRecords st) ->
          route53.target a = route53.fromIpAddresses (Ref "HostInstanceIp")).
Proof.
  intros E.
  destruct (EasyCerver_wired env props st E) as [_ _ _ _ Hip Hud _ Hpp _ _ _].
  destruct (EasyCerver_built env props st E) as [_ _ _ _ _ _ _ _ _ _ Harec _ _ _ _ _].
  exists (uniqueId env "HostInstanceIp").
  rewrite Hip, Hud, Hpp, Harec.
  split; [reflexivity|]. split; [reflexivity|]. split; [reflexivity|].
  split; [|split; [reflexivity|]].
  - rewrite skipn_app, skipn_all, Nat.sub_diag. reflexivity.
  - intros a Hin. apply in_map_iff in Hin. destruct Hin as (r & <- & _). reflexivity.
Qed.

Lemma X6_elastic_ip_witness :
  exists st,
    EasyCerver exampleEnv exampleProps = OK st
    /\ ec2.tags (hostInstanceIp st) = [ ("Name", "EasyCerverHostInstanceIp") ]
    /\ length (ecs.userData (hostAutoScalingGroup st)) = 7
    /\ skipn 4 (ecs.userData (hostAutoScalingGroup st))
       = hostUserData exampleEnv exampleProps "EasyCerverHostInstanceIp".
Proof.
  eexists. split; [vm_compute; reflexivity|].
  destruct (X6_elastic_ip exampleEnv exampleProps _ ltac:(vm_compute; reflexivity))
    as (tag & Ht & -> & Hu & Hs & _).
  split; [exact Ht|]. split; [rewrite Hu; reflexivity|exact Hs].
Defined.

Lemma length_domainArgs (rs : list string) :
  length (flatMap (fun domain => [ Some "-d"; Some domain ]) rs) = 2 * length rs.
Proof.
  unfold flatMap. induction rs as [|r rs IH]; [reflexivity|].
  cbn [flat_map app length]. rewrite IH. lia.
Qed.

Lemma nth_error_domainArgs (rs : list string) (i : nat) (r : string) :
  nth_error rs i = Some r ->
  nth_error (flatMap (fun domain => [ Some "-d"; Some domain ]) rs) (2 * i) = Some (Some "-d")
  /\ nth_error (flatMap (fun domain => [ Some "-d"; Some domain ]) rs) (S (2 * i))
     = Some (Some r).
Proof.
  unfold flatMap. revert i.
  induction rs as [|x rs IH]; intros [|i] H; cbn [nth_error] in H; try discriminate.
  - injection H as ->. split; reflexivity.
  - replace (2 * S i) with (S (S (2 * i))) by lia.
    cbn [flat_map app nth_error]. apply IH. exact H.
Qed.

Lemma domainsOf_domainArgs (rs : list string) :
  domainsOf (flatMap (fun domain => [ Some "-d"; Some domain ]) rs) = rs.
Proof.
  unfold flatMap. induction rs as [|r rs IH]; [reflexivity|].
  cbn [flat_map app]. change (domainsOf (Some "-d" :: Some r :: ?t)) with (r :: domainsOf t).
  rewrite IH. reflexivity.
Qed.

Lemma certbot_command (env : Env) (props : Props.EasyCerverProps) :
  ecs.containers (certbotTask env props) = [ certbotContainer env props ]
  /\ ecs.command (ecs.props (certbotContainer env props))
     = Some (certbotOptions (Props.email props) (first (resolvedRecords env props))
             ++ flatMap (fun domain => [ Some "-d"; Some domain ])
                  (resolvedRecords env props))%list.
Proof. split; reflexivity. Qed.

(** X7.  The command of the [certbot] container is the twelve fixed
    options, among them the e-mail address of the configuration after [-m]
    and the first domain name after [--cert-name], followed by one [-d]
    option for each domain name in order, so that the domain names can be
    read back from it; the notifications go to the same e-mail address. *)
Theorem X7_certbot_command (env : Env) (props : Props.EasyCerverProps)
  (st : EasyCerverStack) :
  EasyCerver env props = OK st ->
  exists certbot cmd,
    ecs.containers (certbotTaskDefinition st) = [ certbot ]
    /\ ecs.command (ecs.props certbot) = Some cmd
    /\ length cmd = 12 + 2 * length (records st)
    /\ firstn 12 cmd = certbotOptions (Props.email props) (first (records st))
    /\ (forall i r, nth_error (records st) i = Some r ->
          nth_error cmd (12 + 2 * i) = Some (Some "-d")
          /\ nth_error cmd (13 + 2 * i) = Some (Some r))
    /\ domainsOf (skipn 12 cmd) = records st
    /\ sns.endpoint (emailSubscription st) = Props.email props.
Proof.
  intros E.
  destruct (EasyCerver_wired env props st E) as [_ _ _ _ _ _ _ _ Hsub _ _].
  destruct (EasyCerver_built env props st E) as [_ _ _ _ _ _ _ _ _ Hrec _ _ _ Hct _ _].
  destruct (certbot_command env props) as [Hc Hcmd].
  rewrite Hct, Hrec, Hsub.
  eexists. eexists. split; [exact Hc|]. split; [exact Hcmd|].
  split; [|split; [|split; [|split]]].
  - rewrite length_app, length_domainArgs. reflexivity.
  - reflexivity.
  - intros i r Hr.
    destruct (nth_error_domainArgs _ i r Hr) as [Hd Hv].
    split.
    + rewrite nth_error_app2 by (cbn; lia).
      replace (12 + 2 * i - length (certbotOptions (Props.email props)
                                      (first (resolvedRecords env props))))
        with (2 * i) by (cbn; lia).
      exact Hd.
    + rewrite nth_error_app2 by (cbn; lia).
      replace (13 + 2 * i - length (certbotOptions (Props.email props)
                                      (first (resolvedRecords env props))))
        with (S (2 * i)) by (cbn; lia).
      exact Hv.
  - change (skipn 12 (certbotOptions ?e ?c ++ ?t)%list) with t.
    apply domainsOf_domainArgs.
  - reflexivity.
Qed.

Lemma X7_certbot_command_witness :
  exists st certbot cmd,
    EasyCerver exampleEnv sharedResourcesProps = OK st
    /\ ecs.containers (certbotTaskDefinition st) = [ certbot ]
    /\ ecs.command (ecs.props certbot) = Some cmd
    /\ length cmd = 16
    /\ domainsOf (skipn 12 cmd) = [ "example.com"; "www.example.com" ].
Proof.
  eexists.
  destruct (X7_certbot_command exampleEnv sharedResourcesProps _
              ltac:(vm_compute; reflexivity))
    as (certbot & cmd & Hc & Hcmd & Hlen & _ & _ & Hd & _).
  exists certbot, cmd. split; [vm_compute; reflexivity|].
  split; [exact Hc|]. split; [exact Hcmd|]. split; [exact Hlen|exact Hd].
Defined.



Lemma nth_error_mapNth_other {A : Type} (f : A -> A) (l : list A) (i j : nat) :
  i <> j -> nth_error (ecs.mapNth i f l) j = nth_error l j.
Proof.
  revert i j. induction l as [|x l IH]; intros [|i] [|j] H; cbn; try reflexivity.
  - contradiction.
  - apply IH. intros ->. apply H. reflexivity.
Qed.

(** X9.  A task definition of the user's keeps what it had: family,
    default container and every container other than the default one are
    unchanged; volumes and role statements are only appended to, the role
    getting the three statements of the constructor and then those of the
    service.  The default container keeps its id, options, port mappings, mounts and
    dependencies and gets one mount and one dependency more, and the
    [aws-cli] container is added last.  Without a default container no
    container changes. *)
Theorem X9_user_task_preserved (env : Env) (props : Props.EasyCerverProps)
  (st : EasyCerverStack) (td : ecs.Ec2TaskDefinition) :
  EasyCerver env props = OK st ->
  Props.serverTaskDefinition props = Some td ->
  let td' := serverTaskDefinition st in
  ecs.family td' = ecs.family td
  /\ ecs.defaultContainer td' = ecs.defaultContainer td
  /\ ecs.volumes td' = (ecs.volumes td ++ [ CERT_VOLUME ])%list
  /\ ecs.taskRolePolicy td'
     = (ecs.taskRolePolicy td ++ servedTaskGrants ++ executeCommandPolicy env)%list
  /\ (forall j c,
        nth_error (ecs.containers td) j = Some c ->
        ecs.defaultContainer td <> Some j ->
        nth_error (ecs.containers td') j = Some c)
  /\ (forall i c,
        ecs.defaultContainer td = Some i ->
        nth_error (ecs.containers td) i = Some c ->
        nth_error (ecs.containers td') i
        = Some {| ecs.id := ecs.id c;
                  ecs.props := ecs.props c;
                  ecs.portMappings := ecs.portMappings c;
                  ecs.mountPoints := (ecs.mountPoints c ++ [ certMountPoint true ])%list;
                  ecs.containerDependencies :=
                    (ecs.containerDependencies c ++ [ awsCliDependency ])%list |}
        /\ length (ecs.containers td') = S (length (ecs.containers td))
        /\ nth_error (ecs.containers td') (length (ecs.containers td))
           = Some (awsCliContainer env props (logGroup st)))
  /\ (ecs.defaultContainerOf td = None -> ecs.containers td' = ecs.containers td).
Proof.
  intros E Htd td'. subst td'.
  destruct (EasyCerver_built env props st E) as [_ _ _ _ _ _ _ _ _ _ _ _ Hlg _ _ Hsv].
  rewrite Hsv, Hlg. served_cbn. unfold givenTask. rewrite Htd. cbn [nullish].
  destruct (servedTask_frame env props td) as (Hf & Hdc & Hp).
  split; [exact Hf|]. split; [exact Hdc|].
  split; [apply servedTask_volumes|].
  split; [cbn [enableExecuteCommand ecs.taskRolePolicy]; rewrite Hp, <- app_assoc;
          reflexivity|].
  split; [|split].
  - intros j c Hj Hne.
    assert (j < length (ecs.containers td)) as Hlt.
    { apply nth_error_Some. rewrite Hj. discriminate. }
    destruct (ecs.defaultContainerOf td) as [d|] eqn:Hd.
    + unfold ecs.defaultContainerOf in Hd.
      destruct (ecs.defaultContainer td) as [i|] eqn:Hi; [|discriminate].
      destruct (servedTask_default env props td i d Hi Hd) as [Hcs _].
      rewrite Hcs, nth_error_app1 by (rewrite length_mapNth; exact Hlt).
      rewrite nth_error_mapNth_other; [exact Hj|].
      intros ->. apply Hne. reflexivity.
    + destruct (servedTask_no_default env props td Hd) as [Hcs _].
      rewrite Hcs. exact Hj.
  - intros i c Hi Hc.
    assert (i < length (ecs.containers td)) as Hlt.
    { apply nth_error_Some. rewrite Hc. discriminate. }
    destruct (servedTask_default env props td i c Hi Hc) as [Hcs _].
    rewrite Hcs. split; [|split].
    + rewrite nth_error_app1 by (rewrite length_mapNth; exact Hlt).
      rewrite nth_error_mapNth, Hc. reflexivity.
    + rewrite length_app, length_mapNth. cbn. lia.
    + rewrite nth_error_app2 by (rewrite length_mapNth; lia).
      rewrite length_mapNth, Nat.sub_diag. reflexivity.
  - intros Hd. exact (proj1 (servedTask_no_default env props td Hd)).
Qed.

Lemma X9_user_task_preserved_witness :
  exists st,
    EasyCerver exampleEnv (withServerTaskDefinition userTaskDefinition exampleProps) = OK st
    /\ ecs.family (serverTaskDefinition st) = "UserTaskDefinition"
    /\ ecs.defaultContainer (serverTaskDefinition st) = Some 0
    /\ map ecs.id (ecs.containers (serverTaskDefinition st))
       = [ "App"; "Sidecar"; "AWSCliContainer" ]
    /\ nth_error (ecs.containers (serverTaskDefinition st)) 1
       = nth_error (ecs.containers userTaskDefinition) 1.
Proof.
  eexists. split; [vm_compute; reflexivity|].
  destruct (X9_user_task_preserved exampleEnv
              (withServerTaskDefinition userTaskDefinition exampleProps) _
              userTaskDefinition ltac:(vm_compute; reflexivity) eq_refl)
    as (Hf & Hd & _ & _ & Hother & _).
  split; [exact Hf|]. split; [exact Hd|]. split; [reflexivity|].
  rewrite (Hother 1 _ eq_refl ltac:(discriminate)). reflexivity.
Defined.

(** X10.  The permissions are those of the resources of the stack.  The
    issuance task may change record sets in the hosted zone of the A
    records only and may write to the certificate file system.  A statement
    of the role of the served task is one the task came with, one of the
    three the constructor grants, none of which is on every resource or
    allows writing to the file system, or one that the service adds; and
    the execution the task may start is that of the state machine its
    [aws-cli] container starts. *)
Theorem X10_scoped_permissions (env : Env) (props : Props.EasyCerverProps)
  (st : EasyCerverStack) :
  EasyCerver env props = OK st ->
  ecs.taskRolePolicy (certbotTaskDefinition st)
  = [ allow [ "route53:ListHostedZones"; "route53:GetChange" ] [ "*" ];
      allow [ "route53:ChangeResourceRecordSets" ] [ route53.hostedZoneArn (hostedZone st) ];
      allow [ "elasticfilesystem:ClientWrite" ] [ efs.fileSystemArn "FileSystem" ] ]
  /\ (forall a, In a (aRecords st) -> route53.zone a = hostedZone st)
  /\ ecs.volumes (certbotTaskDefinition st)
     = [ {| ecs.name := "certVolume";
            ecs.efsVolumeConfiguration :=
              Some {| ecs.fileSystemId := efs.fileSystemId "FileSystem" |} |} ]
  /\ ecs.taskRolePolicy (serverTaskDefinition st)
     = (ecs.taskRolePolicy (givenTask env props) ++ servedTaskGrants
        ++ executeCommandPolicy env)%list
  /\ (forall s, In s (ecs.taskRolePolicy (serverTaskDefinition st)) ->
        In s (ecs.taskRolePolicy (givenTask env props))
        \/ (In s servedTaskGrants
            /\ ~ In "elasticfilesystem:ClientWrite" (iam.actions s)
            /\ iam.resources s <> [ "*" ])
        \/ In s (executeCommandPolicy env))
  /\ ecs.command (ecs.props (awsCliContainer env props (logGroup st)))
     = Some [ Some (GateScript.text (region env) (sfn.stateMachineArn "StateMachine")) ]
  /\ In (allow [ "states:StartExecution" ] [ sfn.stateMachineArn "StateMachine" ])
        (ecs.taskRolePolicy (serverTaskDefinition st)).
Proof.
  intros E.
  destruct (EasyCerver_built env props st E)
    as [_ _ _ _ _ _ _ _ Hz _ Harec _ _ Hct _ Hsv].
  destruct (servedTask_frame env props (givenTask env props)) as (_ & _ & Hp).
  assert (ecs.taskRolePolicy (serverTaskDefinition st)
          = (ecs.taskRolePolicy (givenTask env props) ++ servedTaskGrants
             ++ executeCommandPolicy env)%list) as Hrole.
  { rewrite Hsv. cbn [enableExecuteCommand ecs.taskRolePolicy].
    rewrite Hp, <- app_assoc. reflexivity. }
  rewrite Hrole, Hct, Harec, Hz.
  split; [reflexivity|]. split.
  { intros a Hin. apply in_map_iff in Hin. destruct Hin as (r & <- & _). reflexivity. }
  split; [reflexivity|]. split; [reflexivity|]. split.
  { intros s Hs. apply in_app_or in Hs. destruct Hs as [Hs|Hs]; [left; exact Hs|].
    apply in_app_or in Hs. destruct Hs as [Hs|Hs]; [|right; right; exact Hs].
    right. left. split; [exact Hs|]. cbn in Hs.
    destruct Hs as [<-|[<-|[<-|[]]]]; split; cbn; intros H;
      try discriminate H; destruct H as [H|[]]; discriminate H. }
  split; [reflexivity|].
  apply in_or_app. right. apply in_or_app. left. cbn. tauto.
Qed.

Lemma X10_scoped_permissions_witness :
  exists st,
    EasyCerver exampleEnv exampleProps = OK st
    /\ ecs.taskRolePolicy (serverTaskDefinition st)
       = (servedTaskGrants ++ executeCommandPolicy exampleEnv)%list
    /\ In (allow [ "states:StartExecution" ] [ sfn.stateMachineArn "StateMachine" ])
          (ecs.taskRolePolicy (serverTaskDefinition st)).
Proof.
  eexists. split; [vm_compute; reflexivity|].
  destruct (X10_scoped_permissions exampleEnv exampleProps _ ltac:(vm_compute; reflexivity))
    as (_ & _ & _ & Hp & _ & _ & Hin).
  split; [exact Hp|exact Hin].
Defined.

(** X11.  The containers the constructor creates write to one log group,
    the one of the configuration when it has one: [certbot] and [aws-cli]
    under a stream prefix that is the tag of their image, the sample
    [nginx] container under [nginx-proxy]; the commands that the
    constructor gives the host use the same [aws-cli] tag. *)
Theorem X11_shared_log_group (env : Env) (props : Props.EasyCerverProps)
  (st : EasyCerverStack) :
  EasyCerver env props = OK st ->
  let certbotTag := Props.certbotDockerTag props ?? "v1.29.0" in
  let awsCliTag := Props.awsCliDockerTag props ?? "latest" in
  logGroup st = Props.logGroup props ?? {| logs.logGroupName := Ref "LogGroup" |}
  /\ map (fun c => (ecs.image (ecs.props c), ecs.logging (ecs.props c)))
         (ecs.containers (certbotTaskDefinition st))
     = [ (ecs.fromRegistry ("certbot/dns-route53:" ++ certbotTag),
          Some (ecs.awsLogs (logGroup st) certbotTag)) ]
  /\ (Props.serverTaskDefinition props = None ->
      map (fun c => (ecs.image (ecs.props c), ecs.logging (ecs.props c)))
          (ecs.containers (serverTaskDefinition st))
      = [ (ecs.fromAsset "containers/nginx-proxy",
           Some (ecs.awsLogs (logGroup st) "nginx-proxy"));
          (ecs.fromRegistry ("amazon/aws-cli:" ++ awsCliTag),
           Some (ecs.awsLogs (logGroup st) awsCliTag)) ])
  /\ (forall td main,
        Props.serverTaskDefinition props = Some td ->
        ecs.defaultContainerOf td = Some main ->
        exists gate,
          nth_error (ecs.containers (serverTaskDefinition st)) (length (ecs.containers td))
          = Some gate
          /\ ecs.image (ecs.props gate) = ecs.fromRegistry ("amazon/aws-cli:" ++ awsCliTag)
          /\ ecs.logging (ecs.props gate) = Some (ecs.awsLogs (logGroup st) awsCliTag))
  /\ ecs.userData (hostAutoScalingGroup st)
     = (capacityUserData env
        ++ hostUserData env props (uniqueId env "HostInstanceIp"))%list.
Proof.
  intros E certbotTag awsCliTag. subst certbotTag awsCliTag.
  destruct (EasyCerver_wired env props st E) as [_ _ _ _ _ Hud _ _ _ _ _].
  destruct (EasyCerver_built env props st E) as [_ _ _ _ _ _ _ _ _ _ _ _ Hlg Hct _ Hsv].
  rewrite Hlg, Hct, Hsv, Hud. served_cbn. unfold givenTask.
  split; [reflexivity|]. split; [reflexivity|]. split; [|split; [|reflexivity]].
  - intros Hnone. rewrite Hnone. cbn [nullish].
    destruct (servedTask_default env props
                (sampleTask (resolvedRecords env props) (resolvedLogGroup props)) 0
                (nginxContainer (resolvedRecords env props) (resolvedLogGroup props))
                eq_refl eq_refl) as [Hcs _].
    rewrite Hcs. reflexivity.
  - intros td main Htd Hmain. rewrite Htd. cbn [nullish].
    unfold ecs.defaultContainerOf in Hmain.
    destruct (ecs.defaultContainer td) as [i|] eqn:Hi; [|discriminate].
    destruct (servedTask_default env props td i main Hi Hmain) as [Hcs _].
    rewrite Hcs. exists (awsCliContainer env props (resolvedLogGroup props)).
    split; [|split; reflexivity].
    rewrite nth_error_app2 by (rewrite length_mapNth; lia).
    rewrite length_mapNth, Nat.sub_diag. reflexivity.
Qed.

Lemma X11_shared_log_group_witness :
  exists st,
    EasyCerver exampleEnv sharedResourcesProps = OK st
    /\ logGroup st = {| logs.logGroupName := "/shared/web" |}
    /\ map (fun c => (ecs.image (ecs.props c), ecs.logging (ecs.props c)))
           (ecs.containers (certbotTaskDefinition st))
       = [ (ecs.fromRegistry "certbot/dns-route53:v2.0.0",
            Some (ecs.awsLogs {| logs.logGroupName := "/shared/web" |} "v2.0.0")) ].
Proof.
  eexists. split; [vm_compute; reflexivity|].
  destruct (X11_shared_log_group exampleEnv sharedResourcesProps _
              ltac:(vm_compute; reflexivity))
    as (Hg & Hc & _).
  split; [exact Hg|exact Hc].
Defined.

(** * Other outcomes of the renewal workflow *)

Lemma exec_retried (svc : sfn.Services) (input : sfn.Json) (k : nat) :
  forall used fuel,
    used + k <= 3 ->
    (forall n, used <= n < used + k -> retriable (sfn.runTask svc n)) ->
    sfn.exec (k + fuel) certbotWorkflow svc "CreateCertificate" input used used
    = let (evs, st) :=
        sfn.exec fuel certbotWorkflow svc "CreateCertificate" input (used + k) (used + k) in
      ((retried used k ++ evs)%list, st).
Proof.
  induction k as [|k IH]; intros used fuel Hk Hfail.
  - rewrite Nat.add_0_r. cbn [Nat.add retried app].
    destruct (sfn.exec fuel certbotWorkflow svc "CreateCertificate" input used used).
    reflexivity.
  - change (S k + fuel) with (S (k + fuel)). rewrite exec_job.
    destruct (Hfail used ltac:(lia)) as (e & c & -> & ->).
    assert (Nat.ltb used 3 = true) as -> by (apply Nat.ltb_lt; lia).
    rewrite (IH (S used) fuel) by (first [lia | intros n Hn; apply Hfail; lia]).
    replace (S used + k) with (used + S k) by lia.
    destruct (sfn.exec fuel certbotWorkflow svc "CreateCertificate" input
                (used + S k) (used + S k)).
    reflexivity.
Qed.

Lemma calls_retried (used k : nat) :
  runCalls (retried used k ++ [ jobCall ]) = S k
  /\ publishCalls (retried used k ++ [ jobCall ]) = 0.
Proof.
  revert used. induction k as [|k IH]; intros used; [split; reflexivity|].
  destruct (IH (S used)) as [Hr Hp]. cbn [retried app]. split.
  - rewrite runCalls_cons_job. unfold runCalls in *. cbn [filter]. rewrite Hr. reflexivity.
  - unfold publishCalls in *. cbn [filter isPublish jobCall]. exact Hp.
Qed.

(** X12.  When the issuance job succeeds at its first run or after up to
    three failed runs, the execution succeeds: the waits before the retries
    are 20, 40 and 80 seconds, the job has run once more than it failed,
    and nothing is published. *)
Theorem X12_success_after_retries (env : Env) (props : Props.EasyCerverProps)
  (st : EasyCerverStack) (svc : sfn.Services) (input out : sfn.Json) (k : nat) :
  EasyCerver env props = OK st ->
  k <= 3 ->
  (forall n, n < k -> retriable (sfn.runTask svc n)) ->
  sfn.runTask svc k = sfn.TaskOk out ->
  forall fuel, k < fuel ->
    sfn.startExecution fuel (certbotStateMachine st) svc input
    = ((retried 0 k ++ [ jobCall ])%list, Some sfn.SUCCEEDED)
    /\ runCalls (retried 0 k ++ [ jobCall ]) = S k
    /\ publishCalls (retried 0 k ++ [ jobCall ]) = 0.
Proof.
  intros E Hk Hfail Hok fuel Hfuel.
  destruct (EasyCerver_built env props st E) as [_ _ _ _ _ _ _ _ _ _ _ _ _ _ Hsm _].
  rewrite Hsm. unfold sfn.startExecution. cbn [sfn.definition certbotWorkflow].
  split; [|apply calls_retried].
  replace fuel with (k + S (fuel - S k)) by lia.
  rewrite exec_retried by (first [lia | intros n Hn; apply Hfail; lia]).
  cbn [Nat.add]. rewrite exec_job, Hok. reflexivity.
Qed.

Lemma X12_success_after_retries_witness :
  sfn.startExecution 2 certbotWorkflow flakyServices scheduledInput
  = ([ jobCall; sfn.Waited 20; jobCall ], Some sfn.SUCCEEDED).
Proof.
  refine (proj1 (X12_success_after_retries exampleEnv exampleProps _ flakyServices
                   scheduledInput sfn.JNull 1
                   ltac:(vm_compute; reflexivity) ltac:(lia) _ eq_refl 2 ltac:(lia))).
  intros n Hn. destruct n; [|lia].
  eexists. eexists. split; reflexivity.
Defined.

(** The publish step and the terminal state: two transitions. *)
Lemma exec_handler (svc : sfn.Services) (message : sfn.Json) (used jobs : nat) :
  exists evs,
    (forall fuel, 2 <= fuel ->
       sfn.exec fuel certbotWorkflow svc "SendEmailOnFailure" message used jobs
       = (publishCall message :: evs, Some sfn.FAILED))
    /\ (evs = [] \/ evs = [ sfn.ReachedFail "Fail" ]).
Proof.
  destruct (sfn.publish svc "Topic" message) as [out|e c] eqn:Hp.
  - exists [ sfn.ReachedFail "Fail" ]. split; [|right; reflexivity].
    intros [|[|fuel]] Hfuel; try lia.
    rewrite exec_publish, Hp, exec_fail. reflexivity.
  - exists []. split; [|left; reflexivity].
    intros [|fuel] Hfuel; try lia.
    rewrite exec_publish, Hp. reflexivity.
Qed.

(** From retry number [used] on, the job state reaches an end within
    [6 - used] transitions. *)
Lemma exec_job_ends (svc : sfn.Services) (input : sfn.Json) (m : nat) :
  forall used jobs,
    used + m = 3 ->
    exists evs s,
      (forall fuel, 3 + m <= fuel ->
         sfn.exec fuel certbotWorkflow svc "CreateCertificate" input used jobs
         = (evs, Some s))
      /\ (s = sfn.SUCCEEDED \/ s = sfn.FAILED)
      /\ length evs <= 3 + 2 * m
      /\ runCalls evs <= S m
      /\ publishCalls evs <= 1
      /\ (s = sfn.SUCCEEDED -> publishCalls evs = 0).
Proof.
  induction m as [|m IH]; intros used jobs Hm.
  - destruct (sfn.runTask svc jobs) as [out|e c] eqn:Hr.
    + exists [ jobCall ], sfn.SUCCEEDED. split.
      * intros [|fuel] Hfuel; [lia|]. rewrite exec_job, Hr. reflexivity.
      * repeat split; cbn; auto.
    + destruct (sfn.notMatchedByAll e) eqn:Hun.
      * exists [ jobCall ], sfn.FAILED. split.
        -- intros [|fuel] Hfuel; [lia|]. rewrite exec_job, Hr, Hun. reflexivity.
        -- repeat split; cbn; auto.
      * destruct (exec_handler svc (sfn.errorOutput e c) 0 (S jobs)) as (evs & Hh & Hevs).
        exists (jobCall :: publishCall (sfn.errorOutput e c) :: evs), sfn.FAILED. split.
        -- intros [|fuel] Hfuel; [lia|]. rewrite exec_job, Hr, Hun.
           assert (Nat.ltb used 3 = false) as -> by (apply Nat.ltb_ge; lia).
           rewrite Hh by lia. reflexivity.
        -- destruct Hevs as [-> | ->]; repeat split; cbn; auto; try lia; discriminate.
  - destruct (sfn.runTask svc jobs) as [out|e c] eqn:Hr.
    + exists [ jobCall ], sfn.SUCCEEDED. split.
      * intros [|fuel] Hfuel; [lia|]. rewrite exec_job, Hr. reflexivity.
      * repeat split; cbn; auto; lia.
    + destruct (sfn.notMatchedByAll e) eqn:Hun.
      * exists [ jobCall ], sfn.FAILED. split.
        -- intros [|fuel] Hfuel; [lia|]. rewrite exec_job, Hr, Hun. reflexivity.
        -- repeat split; cbn; auto; lia.
      * destruct (IH (S used) (S jobs) ltac:(lia))
          as (evs & s & Hrun & Hs & Hlen & Hrc & Hpc & Hok).
        exists (jobCall :: sfn.Waited (20 * 2 ^ used) :: evs), s. split.
        -- intros [|fuel] Hfuel; [lia|]. rewrite exec_job, Hr, Hun.
           assert (Nat.ltb used 3 = true) as -> by (apply Nat.ltb_lt; lia).
           rewrite Hrun by lia. reflexivity.
        -- split; [exact Hs|]. split; [cbn [length]; lia|].
           split; [rewrite runCalls_cons_job; unfold runCalls in *; cbn [filter]; lia|].
           split; [exact Hpc|exact Hok].
Qed.

(** X14.  Whatever the services answer, an execution of the workflow ends
    within six transitions, succeeded or failed, after at most four runs of
    the job and at most one message; an execution that succeeds publishes
    nothing. *)
Theorem X14_execution_ends (env : Env) (props : Props.EasyCerverProps)
  (st : EasyCerverStack) (svc : sfn.Services) (input : sfn.Json) :
  EasyCerver env props = OK st ->
  exists evs s,
    (forall fuel, 6 <= fuel ->
       sfn.startExecution fuel (certbotStateMachine st) svc input = (evs, Some s))
    /\ (s = sfn.SUCCEEDED \/ s = sfn.FAILED)
    /\ length evs <= 9
    /\ runCalls evs <= 4
    /\ publishCalls evs <= 1
    /\ (s = sfn.SUCCEEDED -> publishCalls evs = 0).
Proof.
  intros E.
  destruct (EasyCerver_built env props st E) as [_ _ _ _ _ _ _ _ _ _ _ _ _ _ Hsm _].
  rewrite Hsm. unfold sfn.startExecution. cbn [sfn.definition certbotWorkflow].
  exact (exec_job_ends svc input 3 0 0 eq_refl).
Qed.

Lemma X14_execution_ends_witness :
  exists evs s,
    sfn.startExecution 6 certbotWorkflow failingServices scheduledInput = (evs, Some s)
    /\ (s = sfn.SUCCEEDED \/ s = sfn.FAILED)
    /\ length evs <= 9.
Proof.
  destruct (X14_execution_ends exampleEnv exampleProps _ failingServices scheduledInput
              ltac:(vm_compute; reflexivity)) as (evs & s & Hrun & Hs & Hlen & _).
  exists evs, s. split; [exact (Hrun 6 ltac:(lia))|]. split; [exact Hs|exact Hlen].
Defined.

(** What an execution that is at the publish step has published. *)
Lemma publish_in_handler (svc : sfn.Services) (msg : sfn.Json) (jobs fuel : nat)
  (evs : list sfn.Event) (status : option sfn.ExecutionStatus)
  (state topic : string) (message : sfn.Json) :
  sfn.exec fuel certbotWorkflow svc "SendEmailOnFailure" msg 0 jobs = (evs, status) ->
  In (sfn.SnsPublishCall state topic message) evs ->
  (state = "SendEmailOnFailure" /\ topic = "Topic" /\ message = msg)
  /\ status <> Some sfn.SUCCEEDED
  /\ runCalls evs = 0
  /\ publishCalls evs = 1.
Proof.
  intros Hrun Hin.
  destruct fuel as [|fuel]; [cbn in Hrun; injection Hrun as <- <-; destruct Hin|].
  rewrite exec_publish in Hrun.
  assert (forall l, In (sfn.SnsPublishCall state topic message) (publishCall msg :: l) ->
                    (l = [] \/ l = [ sfn.ReachedFail "Fail" ]) ->
                    state = "SendEmailOnFailure" /\ topic = "Topic" /\ message = msg) as Hone.
  { intros l [H|H] Hl.
    - injection H as <- <- <-. auto.
    - destruct Hl as [-> | ->]; [destruct H|].
      destruct H as [H|[]]. discriminate H. }
  destruct (sfn.publish svc "Topic" msg) as [out|e c].
  - destruct fuel as [|fuel].
    + cbn in Hrun. injection Hrun as <- <-.
      split; [apply (Hone []); auto|]. repeat split. discriminate.
    + rewrite exec_fail in Hrun. injection Hrun as <- <-.
      split; [apply (Hone [ sfn.ReachedFail "Fail" ]); auto|]. repeat split. discriminate.
  - injection Hrun as <- <-.
    split; [apply (Hone []); auto|]. repeat split. discriminate.
Qed.

Lemma publish_in_job (svc : sfn.Services) (input : sfn.Json)
  (state topic : string) (message : sfn.Json) (m : nat) :
  forall used fuel evs status,
    used + m = 3 ->
    sfn.exec fuel certbotWorkflow svc "CreateCertificate" input used used = (evs, status) ->
    In (sfn.SnsPublishCall state topic message) evs ->
    (forall n, used <= n < 4 -> retriable (sfn.runTask svc n))
    /\ (exists e c, sfn.runTask svc 3 = sfn.TaskErr e c /\ message = sfn.errorOutput e c)
    /\ (state = "SendEmailOnFailure" /\ topic = "Topic")
    /\ status <> Some sfn.SUCCEEDED
    /\ runCalls evs = S m
    /\ publishCalls evs = 1.
Proof.
  induction m as [|m IH]; intros used fuel evs status Hm Hrun Hin.
  - assert (used = 3) as -> by lia.
    destruct fuel as [|fuel]; [cbn in Hrun; injection Hrun as <- <-; destruct Hin|].
    rewrite exec_job in Hrun.
    destruct (sfn.runTask svc 3) as [out|e c] eqn:Hr.
    { injection Hrun as <- <-. destruct Hin as [H|[]]. discriminate H. }
    destruct (sfn.notMatchedByAll e) eqn:Hun.
    { injection Hrun as <- <-. destruct Hin as [H|[]]. discriminate H. }
    change (Nat.ltb 3 3) with false in Hrun. cbv iota in Hrun.
    destruct (sfn.exec fuel certbotWorkflow svc "SendEmailOnFailure"
                (sfn.errorOutput e c) 0 4) as [evs' st'] eqn:Hh.
    injection Hrun as <- <-.
    destruct Hin as [H|Hin]; [discriminate H|].
    destruct (publish_in_handler svc _ _ _ _ _ _ _ _ Hh Hin)
      as ((-> & -> & ->) & Hst & Hrc & Hpc).
    split.
    { intros n Hn. assert (n = 3) as -> by lia. exists e, c. split; [exact Hr|exact Hun]. }
    split; [exists e, c; split; [first [exact Hr|reflexivity]|reflexivity]|].
    split; [split; reflexivity|]. split; [exact Hst|].
    split; [rewrite runCalls_cons_job, Hrc; reflexivity|exact Hpc].
  - destruct fuel as [|fuel]; [cbn in Hrun; injection Hrun as <- <-; destruct Hin|].
    rewrite exec_job in Hrun.
    destruct (sfn.runTask svc used) as [out|e c] eqn:Hr.
    { injection Hrun as <- <-. destruct Hin as [H|[]]. discriminate H. }
    destruct (sfn.notMatchedByAll e) eqn:Hun.
    { injection Hrun as <- <-. destruct Hin as [H|[]]. discriminate H. }
    assert (Nat.ltb used 3 = true) as Hlt by (apply Nat.ltb_lt; lia).
    rewrite Hlt in Hrun.
    destruct (sfn.exec fuel certbotWorkflow svc "CreateCertificate" input
                (S used) (S used)) as [evs' st'] eqn:Hnext.
    injection Hrun as <- <-.
    destruct Hin as [H|[H|Hin]]; try discriminate H.
    destruct (IH (S used) fuel evs' st' ltac:(lia) Hnext Hin)
      as (Hall & Hlast & Hwhere & Hst & Hrc & Hpc).
    split.
    { intros n Hn. destruct (Nat.eq_dec n used) as [->|Hne].
      - exists e, c. split; [exact Hr|exact Hun].
      - apply Hall. lia. }
    split; [exact Hlast|]. split; [exact Hwhere|]. split; [exact Hst|].
    split; [|exact Hpc].
    rewrite runCalls_cons_job. unfold runCalls in *. cbn [filter]. rewrite Hrc. reflexivity.
Qed.

(** X15.  A message is published only when the job has failed four times
    with errors that are retried: it is published by [SendEmailOnFailure]
    to the topic, once, it is the error output of the fourth failure, and
    the execution does not succeed. *)
Theorem X15_notified_only_after_four_failures (env : Env) (props : Props.EasyCerverProps)
  (st : EasyCerverStack) (svc : sfn.Services) (input : sfn.Json) (fuel : nat)
  (evs : list sfn.Event) (status : option sfn.ExecutionStatus)
  (state topic : string) (message : sfn.Json) :
  EasyCerver env props = OK st ->
  sfn.startExecution fuel (certbotStateMachine st) svc input = (evs, status) ->
  In (sfn.SnsPublishCall state topic message) evs ->
  (forall n, n < 4 -> retriable (sfn.runTask svc n))
  /\ (exists e c, sfn.runTask svc 3 = sfn.TaskErr e c /\ message = sfn.errorOutput e c)
  /\ (state = "SendEmailOnFailure" /\ topic = "Topic")
  /\ status <> Some sfn.SUCCEEDED
  /\ runCalls evs = 4
  /\ publishCalls evs = 1.
Proof.
  intros E Hrun Hin.
  destruct (EasyCerver_built env props st E) as [_ _ _ _ _ _ _ _ _ _ _ _ _ _ Hsm _].
  rewrite Hsm in Hrun. unfold sfn.startExecution in Hrun.
  cbn [sfn.definition certbotWorkflow] in Hrun.
  destruct (publish_in_job svc input state topic message 3 0 fuel evs status
              eq_refl Hrun Hin) as (Hall & Hlast & Hwhere & Hst & Hrc & Hpc).
  split; [intros n Hn; apply Hall; lia|].
  split; [exact Hlast|]. split; [exact Hwhere|]. split; [exact Hst|].
  split; [exact Hrc|exact Hpc].
Qed.

Lemma X15_notified_only_after_four_failures_witness :
  (forall n, n < 4 -> retriable (sfn.runTask failingServices n))
  /\ runCalls (fst (sfn.startExecution 6 certbotWorkflow failingServices scheduledInput)) = 4
  /\ publishCalls (fst (sfn.startExecution 6 certbotWorkflow failingServices scheduledInput))
     = 1.
Proof.
  destruct (X15_notified_only_after_four_failures exampleEnv exampleProps _
              failingServices scheduledInput 6
              (fst (sfn.startExecution 6 certbotWorkflow failingServices scheduledInput))
              (snd (sfn.startExecution 6 certbotWorkflow failingServices scheduledInput))
              "SendEmailOnFailure" "Topic"
              (sfn.errorOutput "States.TaskFailed" "certbot exited with 1")
              ltac:(vm_compute; reflexivity) ltac:(vm_compute; reflexivity)
              ltac:(vm_compute; repeat (first [left; reflexivity | right])))
    as (Hall & _ & _ & _ & Hrc & Hpc).
  split; [exact Hall|]. split; [exact Hrc|exact Hpc].
Defined.

(** * The script of the gate, whatever the command line answers *)

Lemma until_bounds (cli : GateScript.AwsCli) (arn : string) (fuel : nat) :
  forall n,
    filter GateScript.isStart (fst (GateScript.until fuel cli arn n)) = []
    /\ Forall (eq 10) (GateScript.sleeps (fst (GateScript.until fuel cli arn n)))
    /\ length (GateScript.sleeps (fst (GateScript.until fuel cli arn n)))
       <= length (filter GateScript.isPoll (fst (GateScript.until fuel cli arn n)))
    /\ length (filter GateScript.isPoll (fst (GateScript.until fuel cli arn n))) <= fuel.
Proof.
  induction fuel as [|fuel IH]; intros n.
  - cbn. repeat split; auto.
  - cbn [GateScript.until].
    destruct (GateScript.test_ne _ _) as [|t].
    + cbn. repeat split; auto. lia.
    + specialize (IH (S n)).
      destruct (GateScript.until fuel cli arn (S n)) as [acts status].
      cbn [fst] in *. destruct IH as (Hs & Hten & Hle & Hp).
      unfold GateScript.sleeps in *.
      cbn [filter GateScript.isStart GateScript.isPoll GateScript.sleeps flat_map app length]
        in *.
      split; [exact Hs|]. split; [constructor; [reflexivity|exact Hten]|].
      split; lia.
Qed.

(** X16.  Whatever the command line answers and however long the script
    runs, it starts at most one execution, sleeps 10 seconds each time and
    at most once per poll, and polls only after the three commands of its
    beginning. *)
Theorem X16_gate_script_bounds (fuel : nat) (cli : GateScript.AwsCli)
  (region stateMachineArn : string) :
  let acts := fst (GateScript.run fuel cli region stateMachineArn) in
  length (filter GateScript.isStart acts) <= 1
  /\ Forall (eq 10) (GateScript.sleeps acts)
  /\ length (GateScript.sleeps acts) <= length (filter GateScript.isPoll acts)
  /\ length (filter GateScript.isPoll acts) <= fuel
  /\ (filter GateScript.isPoll acts <> [] ->
      firstn 3 acts = gatePrologue region stateMachineArn
      /\ filter GateScript.isPoll (firstn 3 acts) = []).
Proof.
  intros acts. subst acts. unfold GateScript.run.
  destruct (GateScript.configureSet cli "region" region) as [|c1].
  2: { cbn. split; [lia|]. split; [constructor|]. split; [lia|]. split; [lia|].
       intros Hpoll. exfalso. apply Hpoll. reflexivity. }
  destruct (GateScript.configureSet cli "output" "text") as [|c2].
  2: { cbn. split; [lia|]. split; [constructor|]. split; [lia|]. split; [lia|].
       intros Hpoll. exfalso. apply Hpoll. reflexivity. }
  destruct (GateScript.startExecution cli stateMachineArn) as [[|c3] arn].
  2: { cbn. split; [lia|]. split; [constructor|]. split; [lia|]. split; [lia|].
       intros Hpoll. exfalso. apply Hpoll. reflexivity. }
  destruct (until_bounds cli arn fuel 0) as (Hs & Hten & Hle & Hp).
  destruct (GateScript.until fuel cli arn 0) as [acts status]. cbn [fst] in *.
  cbn [filter GateScript.isStart GateScript.isPoll GateScript.sleeps flat_map app length
       firstn].
  rewrite Hs. repeat split; auto.
Qed.

(** X17.  The script ends with a status other than 0 only when one of its
    first three commands fails: the status is that of the command, the
    commands after it are not run, and the script has neither polled nor
    slept. *)
Theorem X17_gate_script_failure (fuel : nat) (cli : GateScript.AwsCli)
  (region stateMachineArn : string) (acts : list GateScript.Action) (code : nat) :
  GateScript.run fuel cli region stateMachineArn = (acts, Some (S code)) ->
  filter GateScript.isPoll acts = []
  /\ GateScript.sleeps acts = []
  /\ ((GateScript.configureSet cli "region" region = S code
       /\ acts = [ GateScript.AwsConfigureSet "region" region ])
      \/ (GateScript.configureSet cli "region" region = 0
          /\ GateScript.configureSet cli "output" "text" = S code
          /\ acts = [ GateScript.AwsConfigureSet "region" region;
                      GateScript.AwsConfigureSet "output" "text" ])
      \/ (GateScript.configureSet cli "region" region = 0
          /\ GateScript.configureSet cli "output" "text" = 0
          /\ fst (GateScript.startExecution cli stateMachineArn) = S code
          /\ acts = gatePrologue region stateMachineArn)).
Proof.
  unfold GateScript.run. intros Hrun.
  destruct (GateScript.configureSet cli "region" region) as [|c1].
  2: { injection Hrun as <- <-. split; [reflexivity|]. split; [reflexivity|].
       left. split; reflexivity. }
  destruct (GateScript.configureSet cli "output" "text") as [|c2].
  2: { injection Hrun as <- <-. split; [reflexivity|]. split; [reflexivity|].
       right. left. repeat split; reflexivity. }
  destruct (GateScript.startExecution cli stateMachineArn) as [[|c3] arn].
  2: { injection Hrun as <- <-. split; [reflexivity|]. split; [reflexivity|].
       right. right. repeat split; reflexivity. }
  destruct (GateScript.until fuel cli arn 0) as [acts' status] eqn:Hu.
  injection Hrun as <- ->.
  destruct (until_exit fuel cli arn 0 acts' (S code) Hu) as [H _]. discriminate H.
Qed.

Lemma X17_gate_script_failure_witness :
  GateScript.run 5 deniedCli "ap-northeast-1" (sfn.stateMachineArn "StateMachine")
  = (gatePrologue "ap-northeast-1" (sfn.stateMachineArn "StateMachine"), Some 254)
  /\ filter GateScript.isPoll
       (gatePrologue "ap-northeast-1" (sfn.stateMachineArn "StateMachine")) = [].
Proof.
  split; [reflexivity|].
  exact (proj1 (X17_gate_script_failure 5 deniedCli "ap-northeast-1"
                  (sfn.stateMachineArn "StateMachine")
                  (gatePrologue "ap-northeast-1" (sfn.stateMachineArn "StateMachine"))
                  253 eq_refl)).
Defined.
